(** * Indicator engine and snapshot categorizer of the stock monitor

    A shallow embedding of the numeric core of the repository:

    - [looker_studio_exporter.py]  : the four [_categorize_*] methods and the
      volatility expression of [get_enhanced_stock_data];
    - [looker_studio_optimized.py] : its own [_categorize_*] methods and the
      volatility expressions of [get_optimized_stock_data];
    - [advanced_streamlit_dashboard.py] : [calculate_technical_indicators].

    and, around it, of the code that builds and writes the rows:

    - [stock_price_monitor.py] : [_initialize_csv], [get_stock_data],
      [get_all_stock_data], [save_to_csv], the fetch rounds and the records
      they append to the log file;
    - [looker_studio_exporter.py] : [get_enhanced_stock_data] and the three
      exports;
    - [looker_studio_optimized.py] : [get_optimized_stock_data],
      [_categorize_sector], the exports and the performance figures of
      [export_performance_data];
    - [streamlit_dashboard.py] : [get_stock_info] and the traces of
      [create_performance_chart].

    Numbers.  Python's [int] and [float] values are modelled by [num]: an
    exact rational for every finite value, and the three IEEE specials
    (+inf, -inf, NaN).  Arithmetic on finite values is exact (no rounding,
    no signed zero, no overflow); arithmetic on the specials follows IEEE 754,
    which is what decides the division-by-zero behaviour of the code.
    Decimal literals of the source ([0.5], [2e9], ...) denote the decimal
    they spell, and [round(x, 2)] rounds the exact value half to even at
    two decimals.  Where a claim turns on the rounding of the doubles
    themselves, the operations are taken on the binary64 numbers of the
    kernel ([F64]). *)

From Stdlib Require Import QArith Qround Lia Lqa ZArith List String
  DecimalString.
From Stdlib Require PrimFloat.
From stdpp Require Import base option list gmap strings.

Local Open Scope Q_scope.

(* ===================================================================== *)
(** ** Python numbers *)
(* ===================================================================== *)

Module PyNum.

Inductive num : Type :=
| Fin (q : Q)
| PInf
| NInf
| NaN.

Definition Qlt_bool (x y : Q) : bool := negb (Qle_bool y x).

Definition is_nan (a : num) : bool :=
  match a with NaN => true | _ => false end.

Definition is_fin (a : num) : bool :=
  match a with Fin _ => true | _ => false end.

(** [a < b]: false as soon as one side is NaN. *)
Definition num_lt (a b : num) : bool :=
  match a, b with
  | NaN, _ | _, NaN => false
  | Fin x, Fin y => Qlt_bool x y
  | _, NInf => false
  | NInf, _ => true
  | PInf, _ => false
  | Fin _, PInf => true
  end.

Definition num_gt (a b : num) : bool := num_lt b a.

(** [a == b]: NaN is different from everything, itself included. *)
Definition num_eq (a b : num) : bool :=
  match a, b with
  | Fin x, Fin y => Qeq_bool x y
  | PInf, PInf | NInf, NInf => true
  | _, _ => false
  end.

(** [a != b] *)
Definition num_ne (a b : num) : bool := negb (num_eq a b).

(** [a <= b] *)
Definition num_le (a b : num) : bool := num_lt a b || num_eq a b.

Definition num_neg (a : num) : num :=
  match a with
  | Fin x => Fin (- x)
  | PInf => NInf
  | NInf => PInf
  | NaN => NaN
  end.

Definition num_add (a b : num) : num :=
  match a, b with
  | NaN, _ | _, NaN => NaN
  | Fin x, Fin y => Fin (x + y)
  | PInf, NInf | NInf, PInf => NaN
  | PInf, _ | _, PInf => PInf
  | NInf, _ | _, NInf => NInf
  end.

Definition num_sub (a b : num) : num := num_add a (num_neg b).

(** The infinity with the sign of [s * q], NaN when [q] is zero. *)
Definition inf_times (positive : bool) (q : Q) : num :=
  if Qeq_bool q 0 then NaN
  else if xorb positive (Qlt_bool 0 q) then NInf else PInf.

Definition num_mul (a b : num) : num :=
  match a, b with
  | NaN, _ | _, NaN => NaN
  | Fin x, Fin y => Fin (x * y)
  | PInf, Fin q | Fin q, PInf => inf_times true q
  | NInf, Fin q | Fin q, NInf => inf_times false q
  | PInf, PInf | NInf, NInf => PInf
  | PInf, NInf | NInf, PInf => NInf
  end.

(** IEEE division, as numpy and pandas perform it: a zero divisor gives an
    infinity, or NaN for [0/0]; nothing is raised. *)
Definition num_div (a b : num) : num :=
  match a, b with
  | NaN, _ | _, NaN => NaN
  | Fin x, Fin y =>
      if Qeq_bool y 0 then
        if Qeq_bool x 0 then NaN
        else if Qlt_bool 0 x then PInf else NInf
      else Fin (x / y)
  | Fin _, PInf | Fin _, NInf => Fin 0
  | PInf, Fin y => if Qlt_bool y 0 then NInf else PInf
  | NInf, Fin y => if Qlt_bool y 0 then PInf else NInf
  | _, _ => NaN
  end.

(** Round half to even at two decimals: [round(x, 2)]. *)
Definition round_half_even (q : Q) : Z :=
  let f := Qfloor q in
  let r := q - inject_Z f in
  if Qlt_bool r (1 # 2) then f
  else if Qlt_bool (1 # 2) r then (f + 1)%Z
  else if Z.even f then f else (f + 1)%Z.

(** [round(x, 2)] on a numpy float: scale by 100, round to the nearest
    integer with ties to even, divide by 100.  The three steps are taken on
    the exact value here; on doubles the scaling and the division round
    again, so the two can differ in the last place, and at a tie of the
    decimal that the double only approximates.  The specials pass
    unchanged. *)
Definition round2 (a : num) : num :=
  match a with
  | Fin q => Fin (inject_Z (round_half_even (q * 100)) / 100)
  | _ => a
  end.

(** Equality of numbers up to the representation of rationals. *)
Definition num_equiv (a b : num) : Prop :=
  match a, b with
  | Fin x, Fin y => x == y
  | PInf, PInf | NInf, NInf | NaN, NaN => True
  | _, _ => False
  end.

End PyNum.

Export PyNum.

Infix "=n=" := num_equiv (at level 70, no associativity).

(* ===================================================================== *)
(** ** Exceptions *)
(* ===================================================================== *)

Module PyExn.

Inductive exn : Type := ZeroDivisionError | TypeError | KeyError.

(** The outcome of a call: a value, or a raised exception. *)
Inductive res (A : Type) : Type :=
| Ok (a : A)
| Raise (e : exn).

Arguments Ok {A} a.
Arguments Raise {A} e.

Definition bind {A B : Type} (m : res A) (k : A -> res B) : res B :=
  match m with
  | Ok a => k a
  | Raise e => Raise e
  end.

(** Python's true division [a / b] on its own numbers: a zero divisor
    raises. *)
Definition py_div (a b : num) : res num :=
  if num_eq b (Fin 0) then Raise ZeroDivisionError else Ok (num_div a b).

(** A value that may reach a parameter annotated as a number: a number,
    a string (the ['N/A'] marker of the exporter) or [None]. *)
Inductive pyval : Type :=
| VNum (x : num)
| VStr (s : string)
| VNone.

(** [v == n] for a numeric literal [n]: never raises. *)
Definition val_eq_num (v : pyval) (n : num) : bool :=
  match v with VNum x => num_eq x n | _ => false end.

(** [v == s] for a string literal [s]: never raises. *)
Definition val_eq_str (v : pyval) (s : string) : bool :=
  match v with VStr t => String.eqb t s | _ => false end.

(** [v < n] for a numeric literal [n]: ordering a string or [None] against
    a number is a [TypeError]. *)
Definition val_lt_num (v : pyval) (n : num) : res bool :=
  match v with VNum x => Ok (num_lt x n) | _ => Raise TypeError end.

End PyExn.

Export PyExn.

Notation "'let*' x ':=' m 'in' k" := (bind m (fun x => k))
  (at level 10, x name, m at level 100, k at level 200).

(* ===================================================================== *)
(** ** looker_studio_exporter.py *)
(* ===================================================================== *)

Module Exporter.

Local Open Scope string_scope.

Definition _categorize_price (price : num) : string :=
  if num_lt price (Fin 10) then "Low Price"
  else if num_lt price (Fin 50) then "Medium Price"
  else if num_lt price (Fin 100) then "High Price"
  else "Very High Price".

Definition _categorize_change (change_percent : num) : string :=
  if num_lt change_percent (Fin (-5)) then "Large Decrease"
  else if num_lt change_percent (Fin (-1)) then "Decrease"
  else if num_lt change_percent (Fin 1) then "Stable"
  else if num_lt change_percent (Fin 5) then "Increase"
  else "Large Increase".

Definition _categorize_volume (volume avg_volume : num) : res string :=
  if num_eq avg_volume (Fin 0) then Ok "Unknown"
  else
    let* ratio := py_div volume avg_volume in
    if num_lt ratio (Fin (1 # 2)) then Ok "Low Volume"
    else if num_lt ratio (Fin (3 # 2)) then Ok "Normal Volume"
    else if num_lt ratio (Fin 3) then Ok "High Volume"
    else Ok "Very High Volume".

Definition _categorize_market_cap (market_cap : pyval) : res string :=
  if val_eq_num market_cap (Fin 0) || val_eq_str market_cap "N/A"
  then Ok "Unknown"
  else
    let* c1 := val_lt_num market_cap (Fin 2000000000) in
    if c1 then Ok "Small Cap"
    else
      let* c2 := val_lt_num market_cap (Fin 10000000000) in
      if c2 then Ok "Mid Cap"
      else
        let* c3 := val_lt_num market_cap (Fin 200000000000) in
        if c3 then Ok "Large Cap"
        else Ok "Mega Cap".

(** Line 81 of [get_enhanced_stock_data], the value stored under
    ['volatility']:
    [round(((day_high - day_low) / current_price) * 100, 2)
       if current_price != 0 else 0]. *)
Definition volatility (day_high day_low current_price : num) : res num :=
  if num_ne current_price (Fin 0) then
    let* r := py_div (num_sub day_high day_low) current_price in
    Ok (round2 (num_mul r (Fin 100)))
  else Ok (Fin 0).

End Exporter.

(* ===================================================================== *)
(** ** looker_studio_optimized.py *)
(* ===================================================================== *)

Module Optimized.

Local Open Scope string_scope.

Definition _categorize_price (price : num) : string :=
  if num_lt price (Fin 10) then "Under $10"
  else if num_lt price (Fin 25) then "$10-$25"
  else if num_lt price (Fin 50) then "$25-$50"
  else if num_lt price (Fin 100) then "$50-$100"
  else if num_lt price (Fin 200) then "$100-$200"
  else "Over $200".

Definition _categorize_change (change_percent : num) : string :=
  if num_lt change_percent (Fin (-5)) then "Large Decrease (>-5%)"
  else if num_lt change_percent (Fin (-2)) then "Decrease (-2% to -5%)"
  else if num_lt change_percent (Fin (- (1 # 2))) then "Small Decrease (-0.5% to -2%)"
  else if num_lt change_percent (Fin (1 # 2)) then "Stable (-0.5% to 0.5%)"
  else if num_lt change_percent (Fin 2) then "Small Increase (0.5% to 2%)"
  else if num_lt change_percent (Fin 5) then "Increase (2% to 5%)"
  else "Large Increase (>5%)".

Definition _categorize_volume (volume avg_volume : num) : res string :=
  if num_eq avg_volume (Fin 0) then Ok "Unknown"
  else
    let* ratio := py_div volume avg_volume in
    if num_lt ratio (Fin (1 # 2)) then Ok "Very Low (<50%)"
    else if num_lt ratio (Fin (4 # 5)) then Ok "Low (50%-80%)"
    else if num_lt ratio (Fin (6 # 5)) then Ok "Normal (80%-120%)"
    else if num_lt ratio (Fin 2) then Ok "High (120%-200%)"
    else Ok "Very High (>200%)".

Definition _categorize_market_cap (market_cap : pyval) : res string :=
  if val_eq_num market_cap (Fin 0) then Ok "Unknown"
  else
    let* c1 := val_lt_num market_cap (Fin 300000000) in
    if c1 then Ok "Micro Cap (<$300M)"
    else
      let* c2 := val_lt_num market_cap (Fin 2000000000) in
      if c2 then Ok "Small Cap ($300M-$2B)"
      else
        let* c3 := val_lt_num market_cap (Fin 10000000000) in
        if c3 then Ok "Mid Cap ($2B-$10B)"
        else
          let* c4 := val_lt_num market_cap (Fin 200000000000) in
          if c4 then Ok "Large Cap ($10B-$200B)"
          else Ok "Mega Cap (>$200B)".

Definition _categorize_volatility (volatility : num) : string :=
  if num_lt volatility (Fin 1) then "Very Low (<1%)"
  else if num_lt volatility (Fin 2) then "Low (1%-2%)"
  else if num_lt volatility (Fin 3) then "Medium (2%-3%)"
  else if num_lt volatility (Fin 5) then "High (3%-5%)"
  else "Very High (>5%)".

(** Line 190 of [get_optimized_stock_data], the argument handed to
    [_categorize_volatility]:
    [((day_high - day_low) / current_price) * 100 if current_price != 0 else 0]. *)
Definition volatility_percent (day_high day_low current_price : num) : res num :=
  if num_ne current_price (Fin 0) then
    let* r := py_div (num_sub day_high day_low) current_price in
    Ok (num_mul r (Fin 100))
  else Ok (Fin 0).

(** Line 175, the value stored under ['volatility']: the same, rounded. *)
Definition volatility (day_high day_low current_price : num) : res num :=
  if num_ne current_price (Fin 0) then
    let* r := py_div (num_sub day_high day_low) current_price in
    Ok (round2 (num_mul r (Fin 100)))
  else Ok (Fin 0).

(** Line 190 as a whole: the ['volatility_category'] entry. *)
Definition volatility_category (day_high day_low current_price : num) : res string :=
  let* v := volatility_percent day_high day_low current_price in
  Ok (_categorize_volatility v).

End Optimized.

(* ===================================================================== *)
(** ** The pandas operations the dashboard calls

    A [Series] is the list of its values; all the series of one frame share
    the frame's index, so element-wise operators pair the values position by
    position. *)
(* ===================================================================== *)

Module Pandas.

Definition Qsum (l : list Q) : Q := foldr Qplus 0 l.

Definition Qnat (n : nat) : Q := inject_Z (Z.of_nat n).

Definition to_Q (a : num) : Q :=
  match a with Fin q => q | _ => 0 end.

(** [s.diff()] : NaN first, then each value minus the one before it. *)
Definition diff (s : list num) : list num :=
  match s with
  | [] => []
  | _ :: t => NaN :: zip_with (fun prev cur => num_sub cur prev) s t
  end.

(** [s > n] and [s < n] for a scalar [n]. *)
Definition series_gt (s : list num) (n : num) : list bool :=
  map (fun x => num_gt x n) s.

Definition series_lt (s : list num) (n : num) : list bool :=
  map (fun x => num_lt x n) s.

(** [s.where(cond, other)] : [s] where [cond] holds, [other] elsewhere. *)
Definition where_ (s : list num) (cond : list bool) (other : num) : list num :=
  zip_with (fun x (c : bool) => if c then x else other) s cond.

(** [-s], [a / b], [a + b], [a - b], [s * n]. *)
Definition series_neg (s : list num) : list num := map num_neg s.

Definition series_div (a b : list num) : list num := zip_with num_div a b.

Definition series_add (a b : list num) : list num := zip_with num_add a b.

Definition series_sub (a b : list num) : list num := zip_with num_sub a b.

Definition series_mul_scalar (s : list num) (n : num) : list num :=
  map (fun x => num_mul x n) s.

(** On a series of finite values, [diff], [where(delta > 0, 0)] and
    [-where(delta < 0, 0)] are, value by value: the bar-to-bar change (0
    standing for the leading NaN, which [where] replaces by 0 in either
    case), its positive part, and the magnitude of its negative part. *)
Definition deltaQ (qs : list Q) : list Q :=
  match qs with
  | [] => []
  | _ :: t => 0 :: zip_with (fun prev cur => cur - prev) qs t
  end.

Definition gainQ (d : Q) : Q := if Qlt_bool 0 d then d else 0.

Definition lossQ (d : Q) : Q := - (if Qlt_bool d 0 then d else 0).

(** The 14 gains, and the 14 losses, that the window ending at bar [i]
    averages. *)
Definition gain_window (qs : list Q) (i : nat) : list Q :=
  take 14 (drop (S i - 14) (map gainQ (deltaQ qs))).

Definition loss_window (qs : list Q) (i : nat) : list Q :=
  take 14 (drop (S i - 14) (map lossQ (deltaQ qs))).

(** *** What every window operation does first

    [rolling(...)] and [ewm(...)] hand their input to the loops below
    through [_prep_values], which replaces an infinite value by NaN: to
    the window an infinite value is a missing one. *)

Definition prep_values (values : list num) : list num :=
  map (fun v => if is_fin v then v else NaN) values.

(** *** [rolling(window).mean()]

    The sliding-window mean ([roll_mean]): a running count of the
    observations in the window and their running sum; each bar enters the
    window and the bar that left it is taken out.  NaN values are not
    observations.  [min_periods] defaults to the window.  What the library
    adds against rounding error (the compensation term of the running sum,
    the reset of a mean whose sign no value of the window has) does nothing
    in exact arithmetic and is left out. *)

Record mean_state : Type := MeanState { nobs : nat; sum_x : num }.

Definition add_mean (val : num) (st : mean_state) : mean_state :=
  if is_nan val then st
  else MeanState (S (nobs st)) (num_add (sum_x st) val).

Definition remove_mean (val : num) (st : mean_state) : mean_state :=
  if is_nan val then st
  else MeanState (Nat.pred (nobs st)) (num_sub (sum_x st) val).

Definition calc_mean (minp : nat) (st : mean_state) : num :=
  if (minp <=? nobs st)%nat && (0 <? nobs st)%nat
  then num_div (sum_x st) (Fin (Qnat (nobs st)))
  else NaN.

Fixpoint roll_mean_loop (window minp : nat) (values : list num)
         (i : nat) (rest : list num) (st : mean_state) : list num :=
  match rest with
  | [] => []
  | val :: rest' =>
      let st1 :=
        if (window <=? i)%nat
        then remove_mean (nth (i - window) values NaN) st
        else st in
      let st2 := add_mean val st1 in
      calc_mean minp st2 :: roll_mean_loop window minp values (S i) rest' st2
  end.

Definition rolling_mean (window : nat) (values : list num) : list num :=
  let values := prep_values values in
  roll_mean_loop window window values 0 values (MeanState 0 (Fin 0)).

(** *** [rolling(window).std()]

    The sample standard deviation (ddof = 1) of the trailing window, NaN
    while the window holds fewer than [window] observations; a missing
    value in the window is one observation less, be it NaN or an infinite
    value.  The square root is a parameter: no function on the rationals
    computes it. *)

Definition trailing (window i : nat) (values : list num) : list num :=
  drop (S i - window) (take (S i) values).

Definition sample_var (xs : list Q) : Q :=
  let m := Qsum xs / Qnat (length xs) in
  Qsum (map (fun x => (x - m) * (x - m)) xs) / Qnat (length xs - 1).

Definition window_std (sqrtQ : Q -> Q) (window : nat) (win : list num) : num :=
  if (length win <? window)%nat || (length win <=? 1)%nat
     || negb (forallb is_fin win)
  then NaN
  else Fin (sqrtQ (sample_var (map to_Q win))).

Definition rolling_std (sqrtQ : Q -> Q) (window : nat) (values : list num)
  : list num :=
  imap (fun i _ => window_std sqrtQ window (trailing window i values)) values.

(** *** [ewm(span).mean()]

    The exponentially weighted mean with the defaults of the call:
    [adjust=True], [ignore_na=False], [min_periods=0].  The loop keeps the
    current weighted mean and the total weight [old_wt] of the
    observations behind it; with [adjust=True] the new observation has
    weight 1. *)

Record ewm_state : Type :=
  EwmState { weighted : num; old_wt : Q; ewm_nobs : nat }.

Definition ewm_step (alpha : Q) (st : ewm_state) (cur : num) : ewm_state :=
  let is_observation := negb (is_nan cur) in
  let n := if is_observation then S (ewm_nobs st) else ewm_nobs st in
  if negb (is_nan (weighted st)) then
    let w1 := old_wt st * (1 - alpha) in
    if is_observation then
      let avg :=
        if num_ne (weighted st) cur
        then num_div (num_add (num_mul (Fin w1) (weighted st))
                              (num_mul (Fin 1) cur))
                     (Fin (w1 + 1))
        else weighted st in
      EwmState avg (w1 + 1) n
    else EwmState (weighted st) w1 n
  else if is_observation then EwmState cur (old_wt st) n
  else EwmState (weighted st) (old_wt st) n.

Definition ewm_out (st : ewm_state) : num :=
  if (1 <=? ewm_nobs st)%nat then weighted st else NaN.

Fixpoint ewm_loop (alpha : Q) (st : ewm_state) (rest : list num) : list num :=
  match rest with
  | [] => []
  | cur :: rest' =>
      let st' := ewm_step alpha st cur in
      ewm_out st' :: ewm_loop alpha st' rest'
  end.

Definition ewm_mean (span : Q) (values : list num) : list num :=
  let alpha := 2 / (span + 1) in
  match prep_values values with
  | [] => []
  | v0 :: rest =>
      let st := EwmState v0 1 (if is_nan v0 then 0 else 1) in
      ewm_out st :: ewm_loop alpha st rest
  end.

(** The total weight behind the mean at index [i] of a series without
    NaN: 1 + (1-alpha) + ... + (1-alpha)^i. *)
Fixpoint weight_sum (alpha : Q) (i : nat) : Q :=
  match i with
  | O => 1
  | S j => 1 + (1 - alpha) * weight_sum alpha j
  end.

(** The observations of a column: the finite values, the ones a window
    counts and sums; NaN and the infinities are none. *)
Definition observation (v : num) : option Q :=
  match v with Fin q => Some q | _ => None end.

Definition observations (values : list num) : list Q := omap observation values.

End Pandas.

Export Pandas.

(* ===================================================================== *)
(** ** The object store: data frames behind references *)
(* ===================================================================== *)

Module Store.

Record DataFrame : Type :=
  Frame { index : list Z; columns : gmap string (list num) }.

Definition empty_frame : DataFrame := Frame [] ∅.

(** A reference is the identity of an object of the store. *)
Abbreviation ref := nat.

Abbreviation heap := (gmap nat DataFrame).

(** A stateful computation: it reads and updates the store, and returns a
    value or raises. *)
Definition M (A : Type) : Type := heap -> res (A * heap).

Definition ret {A : Type} (a : A) : M A := fun h => Ok (a, h).

Definition st_bind {A B : Type} (m : M A) (k : A -> M B) : M B :=
  fun h => match m h with
           | Ok (a, h') => k a h'
           | Raise e => Raise e
           end.

Definition deref (h : heap) (r : ref) : DataFrame :=
  default empty_frame (h !! r).

(** [data.copy()] : a new frame with the same index and columns. *)
Definition copy (r : ref) : M ref :=
  fun h => let r' := fresh (dom h) in Ok (r', <[r' := deref h r]> h).

(** [df[col]] *)
Definition getitem (r : ref) (col : string) : M (list num) :=
  fun h => match columns (deref h r) !! col with
           | Some s => Ok (s, h)
           | None => Raise KeyError
           end.

(** [df[col] = s] : the frame behind [r] is updated in place. *)
Definition setitem (r : ref) (col : string) (s : list num) : M unit :=
  fun h =>
    let f := deref h r in
    Ok (tt, <[r := Frame (index f) (<[col := s]> (columns f))]> h).

(** Every column of a frame has one value per index entry. *)
Definition frame_wf (f : DataFrame) : Prop :=
  forall col s, columns f !! col = Some s -> length s = length (index f).

End Store.

Export Store.

Notation "x <- m ;; k" := (st_bind m (fun x => k))
  (at level 90, m at level 89, k at level 200, right associativity).
Notation "m ;;; k" := (st_bind m (fun _ => k))
  (at level 90, k at level 200, right associativity).

(* ===================================================================== *)
(** ** advanced_streamlit_dashboard.py *)
(* ===================================================================== *)

Module Dashboard.

Local Open Scope string_scope.

Section Indicators.

Variable sqrtQ : Q -> Q.

(** [AdvancedStockDashboard.calculate_technical_indicators] *)
Definition calculate_technical_indicators (data : ref) : M ref :=
  df <- copy data ;;
  (* moving averages *)
  close <- getitem df "Close" ;;
  setitem df "MA_5" (rolling_mean 5 close) ;;;
  close <- getitem df "Close" ;;
  setitem df "MA_20" (rolling_mean 20 close) ;;;
  close <- getitem df "Close" ;;
  setitem df "MA_50" (rolling_mean 50 close) ;;;
  (* RSI *)
  close <- getitem df "Close" ;;
  let delta := diff close in
  let gain := rolling_mean 14 (where_ delta (series_gt delta (Fin 0)) (Fin 0)) in
  let loss := rolling_mean 14
                (series_neg (where_ delta (series_lt delta (Fin 0)) (Fin 0))) in
  let rs := series_div gain loss in
  setitem df "RSI"
    (map (fun x => num_sub (Fin 100) (num_div (Fin 100) (num_add (Fin 1) x))) rs) ;;;
  (* Bollinger bands *)
  close <- getitem df "Close" ;;
  setitem df "BB_Middle" (rolling_mean 20 close) ;;;
  close <- getitem df "Close" ;;
  let bb_std := rolling_std sqrtQ 20 close in
  middle <- getitem df "BB_Middle" ;;
  setitem df "BB_Upper" (series_add middle (series_mul_scalar bb_std (Fin 2))) ;;;
  middle <- getitem df "BB_Middle" ;;
  setitem df "BB_Lower" (series_sub middle (series_mul_scalar bb_std (Fin 2))) ;;;
  (* MACD *)
  close <- getitem df "Close" ;;
  let exp1 := ewm_mean 12 close in
  close <- getitem df "Close" ;;
  let exp2 := ewm_mean 26 close in
  setitem df "MACD" (series_sub exp1 exp2) ;;;
  macd <- getitem df "MACD" ;;
  setitem df "MACD_Signal" (ewm_mean 9 macd) ;;;
  macd <- getitem df "MACD" ;;
  signal <- getitem df "MACD_Signal" ;;
  setitem df "MACD_Histogram" (series_sub macd signal) ;;;
  ret df.

(** The same statements, read as functions of the ['Close'] column:
    the value each assignment stores ([gain], [loss], [rs], [bb_std],
    [exp1], [exp2] are the locals of the method). *)

Definition MA_5 (close : list num) : list num := rolling_mean 5 close.
Definition MA_20 (close : list num) : list num := rolling_mean 20 close.
Definition MA_50 (close : list num) : list num := rolling_mean 50 close.

Definition gain (close : list num) : list num :=
  let delta := diff close in
  rolling_mean 14 (where_ delta (series_gt delta (Fin 0)) (Fin 0)).

Definition loss (close : list num) : list num :=
  let delta := diff close in
  rolling_mean 14 (series_neg (where_ delta (series_lt delta (Fin 0)) (Fin 0))).

Definition rs (close : list num) : list num :=
  series_div (gain close) (loss close).

Definition RSI (close : list num) : list num :=
  map (fun x => num_sub (Fin 100) (num_div (Fin 100) (num_add (Fin 1) x)))
      (rs close).

Definition BB_Middle (close : list num) : list num := rolling_mean 20 close.

Definition bb_std (close : list num) : list num := rolling_std sqrtQ 20 close.

Definition BB_Upper (close : list num) : list num :=
  series_add (BB_Middle close) (series_mul_scalar (bb_std close) (Fin 2)).

Definition BB_Lower (close : list num) : list num :=
  series_sub (BB_Middle close) (series_mul_scalar (bb_std close) (Fin 2)).

Definition exp1 (close : list num) : list num := ewm_mean 12 close.
Definition exp2 (close : list num) : list num := ewm_mean 26 close.

Definition MACD (close : list num) : list num :=
  series_sub (exp1 close) (exp2 close).

Definition MACD_Signal (close : list num) : list num :=
  ewm_mean 9 (MACD close).

Definition MACD_Histogram (close : list num) : list num :=
  series_sub (MACD close) (MACD_Signal close).

(** The columns the method adds, in the order it assigns them. *)
Definition derived (close : list num) : list (string * list num) :=
  [ ("MA_5", MA_5 close); ("MA_20", MA_20 close); ("MA_50", MA_50 close);
    ("RSI", RSI close);
    ("BB_Middle", BB_Middle close); ("BB_Upper", BB_Upper close);
    ("BB_Lower", BB_Lower close);
    ("MACD", MACD close); ("MACD_Signal", MACD_Signal close);
    ("MACD_Histogram", MACD_Histogram close) ].

(** The frame [f] with the derived columns assigned one after the
    other. *)
Definition enriched (f : DataFrame) (close : list num) : DataFrame :=
  Frame (index f)
        (foldl (fun cols kv => <[kv.1 := kv.2]> cols) (columns f)
               (derived close)).

End Indicators.

End Dashboard.

(* ===================================================================== *)
(** ** Lines 67-68 in double precision

    The numbers of the code are IEEE doubles.  On the exact numbers above
    the two Bollinger bands lie at the same distance from the middle one;
    in doubles each band is rounded on its own.  [F64] holds the two
    assignments, at one index, on the binary64 numbers of the kernel. *)
(* ===================================================================== *)

Module F64.

Import PrimFloat.
Local Open Scope float_scope.

Definition BB_Upper (middle std : float) : float := middle + std * 2.

Definition BB_Lower (middle std : float) : float := middle - std * 2.



End F64.

(* ===================================================================== *)
(** ** What the specification says, in its own words *)
(* ===================================================================== *)

Module Spec.

(** "for each index i >= window-1, the arithmetic mean of
    closes[i-window+1..i]; indices before that, marked invalid". *)
Definition simple_moving_average (closes : list Q) (window i : nat) : num :=
  if (S i <? window)%nat then NaN
  else Fin (Qsum (take window (drop (S i - window) closes)) / Qnat window).

(** "EMA[0] = closes[0], EMA[i] = alpha*closes[i] + (1-alpha)*EMA[i-1]". *)
Fixpoint ema_from (alpha prev : Q) (rest : list Q) : list Q :=
  match rest with
  | [] => []
  | x :: rest' =>
      let e := alpha * x + (1 - alpha) * prev in
      e :: ema_from alpha e rest'
  end.

Definition ema (span : Q) (closes : list Q) : list Q :=
  match closes with
  | [] => []
  | x :: rest => x :: ema_from (2 / (span + 1)) x rest
  end.

End Spec.

(* ===================================================================== *)
(** ** Sample data *)
(* ===================================================================== *)

Module Examples.

Local Open Scope string_scope.

Definition ramp (n : nat) : list Q :=
  map (fun k => inject_Z (Z.of_nat k)) (seq 1 n).

(** 1, 2, ..., 16 and 16, 15, ..., 1. *)
Definition rising : list Q := ramp 16.
Definition falling : list Q := rev (ramp 16).

(** The square root to three decimals, rounded down. *)
Definition sqrt3 (q : Q) : Q :=
  inject_Z (Z.sqrt (Qfloor (q * 1000000))) / 1000.

(** A three-bar frame and a store that holds it at reference 7. *)
Definition bars : DataFrame :=
  Frame [20240102; 20240103; 20240104]%Z
        (<["Close" := [Fin 10; Fin 11; Fin (21 # 2)]]>
           {["Volume" := [Fin 1000; Fin 1200; Fin 900]]}).

Definition store : heap := {[ 7%nat := bars ]}.

End Examples.

(* ===================================================================== *)
(** ** Python values in rows and dictionaries

    The row builders of the exporters and of the monitor run inside
    [try: ... except Exception], and what they read from the data provider
    is not typed.  In the definitions below a computation that may raise is
    an [option]: [None] stands for "an exception was raised", whichever it
    is, since the callers only tell a result from a failure. *)
(* ===================================================================== *)

Module PyData.

Local Open Scope string_scope.

(** The outcome of a categorizer, with the exception forgotten. *)
Definition raised {A : Type} (m : res A) : option A :=
  match m with Ok a => Some a | Raise _ => None end.

(** [bool(v)] : [None], [0] and the empty string are false. *)
Definition truthy (v : pyval) : bool :=
  match v with
  | VNone => false
  | VStr s => negb (String.eqb s "")
  | VNum x => num_ne x (Fin 0)
  end.

(** [info.get(key, default)] and [info.get(key)]. *)
Definition dict_get (info : gmap string pyval) (key : string) (dflt : pyval)
  : pyval :=
  default dflt (info !! key).

Definition dict_get_none (info : gmap string pyval) (key : string) : pyval :=
  dict_get info key VNone.

(** An entry of [info] that is missing or holds a number. *)
Definition absent_or_number (info : gmap string pyval) (key : string) : Prop :=
  match info !! key with
  | None | Some (VNum _) => True
  | Some _ => False
  end.

(** A value used as an operand of [-], [*], [/], [<] or [>] with a number:
    a string or [None] there is a [TypeError]. *)
Definition as_num (v : pyval) : option num :=
  match v with VNum x => Some x | _ => None end.

(** [int(x)] : truncation toward zero; NaN and the infinities raise. *)
Definition py_int (x : num) : option num :=
  match x with
  | Fin q => Some (Fin (inject_Z (Z.quot (Qnum q) (Zpos (Qden q)))))
  | _ => None
  end.

(** [needle in hay] on strings. *)
Fixpoint contains (needle hay : string) : bool :=
  String.prefix needle hay
  || match hay with
     | EmptyString => false
     | String _ rest => contains needle rest
     end.

(** [max(x, *rest)] and [min(x, *rest)] : the first argument stays unless a
    later one compares greater (smaller). *)
Definition py_max (x : num) (rest : list num) : num :=
  foldl (fun m item => if num_gt item m then item else m) x rest.

Definition py_min (x : num) (rest : list num) : num :=
  foldl (fun m item => if num_lt item m then item else m) x rest.

(** [l.iloc[k]] : from the end when [k] is negative; out of bounds raises
    [IndexError]. *)
Definition iloc {A : Type} (l : list A) (k : Z) : option A :=
  if (0 <=? k)%Z then l !! Z.to_nat k
  else if (Z.of_nat (length l) + k <? 0)%Z then None
       else l !! Z.to_nat (Z.of_nat (length l) + k).

(** A value of a row: what the dictionaries hold besides numbers, strings
    and [None] are booleans. *)
Inductive cell : Type :=
| CVal (v : pyval)
| CBool (b : bool).

Definition cnum (x : num) : cell := CVal (VNum x).
Definition cstr (s : string) : cell := CVal (VStr s).

(** A dictionary with its keys in insertion order. *)
Abbreviation row := (list (string * cell)).

(** [data[key]] : [None] is [KeyError]. *)
Definition getitem_row (data : row) (key : string) : option cell :=
  snd <$> List.find (fun kv => String.eqb (fst kv) key) data.

(** [f'{v}'] for a value, given the text of a number. *)
Definition str_val (str_of : num -> string) (v : pyval) : string :=
  match v with
  | VStr s => s
  | VNone => "None"
  | VNum x => str_of x
  end.

(** One OHLCV bar. *)
Record Bar : Type :=
  MkBar { Open : num; High : num; Low : num; Close : num; Volume : num }.

(** *** CSV files

    A file is the list of its lines and a line the list of its cells; the
    text encoding of a cell is not modelled. *)

Abbreviation files := (gmap string (list (list cell))).

(** The columns of [pd.DataFrame(data)] for a list of dictionaries: their
    keys, in order of first appearance. *)
Definition columns_of (data : list row) : list string :=
  foldl (fun cols key => if bool_decide (key ∈ cols) then cols else (cols ++ [key])%list)
        [] (concat (map (map fst) data)).

(** The values of one dictionary under those columns (NaN where the
    dictionary has no such key). *)
Definition line_of (cols : list string) (data : row) : list cell :=
  map (fun key => default (cnum NaN) (getitem_row data key)) cols.

Definition lines_of (data : list row) : list (list cell) :=
  map (line_of (columns_of data)) data.

Definition header_line (cols : list string) : list cell := map cstr cols.

(** [pd.DataFrame(data).to_csv(path, index=False)] *)
Definition to_csv (path : string) (data : list row) (fs : files) : files :=
  <[path := header_line (columns_of data) :: lines_of data]> fs.

(** [pd.DataFrame(data).to_csv(path, mode='a', header=False, index=False)] *)
Definition to_csv_append (path : string) (data : list row) (fs : files) : files :=
  <[path := (default [] (fs !! path) ++ lines_of data)%list]> fs.

(** [round(((a - b) / b) * 100, 2)] on numpy values: no guard, no raise. *)
Definition percent_change (a b : num) : num :=
  round2 (num_mul (num_div (num_sub a b) b) (Fin 100)).

End PyData.

Export PyData.

(* ===================================================================== *)
(** ** stock_price_monitor.py *)
(* ===================================================================== *)

Module Monitor.

Local Open Scope string_scope.

(** What the provider and the clock give for one symbol:
    [datetime.now().strftime(...)], [ticker.info] and [ticker.history(...)]. *)
Record quote : Type :=
  MkQuote { q_now : string; q_info : gmap string pyval; q_hist : list Bar }.

(** *** The log

    The module configures logging with a file handler on
    ['stock_monitor.log'] beside the stream: every call of [logger.info],
    [logger.warning] or [logger.error] appends one record to that file.  A
    record is kept as its level and its message; the time stamp that the
    format puts in front of them is not modelled. *)
Definition log_file : string := "stock_monitor.log".

Definition logging (levelname message : string) (fs : files) : files :=
  <[log_file := (default [] (fs !! log_file)
                 ++ [[cstr levelname; cstr message]])%list]> fs.

(** [f'{n}'] for an integer. *)
Definition str_int (n : Z) : string := NilZero.string_of_int (Z.to_int n).

(** The log, and what a call that only logs does to the files: records
    are appended to the log and nothing else changes. *)
Definition log_of (fs : files) : list (list cell) :=
  default [] (fs !! log_file).

Definition logged (fs fs' : files) : Prop :=
  (exists records, log_of fs' = (log_of fs ++ records)%list)
  /\ forall path, path <> log_file -> fs' !! path = fs !! path.

Section Monitor.

Variable str_of : num -> string.

(** The text of the exception that the provider raised for a symbol, when
    it raised. *)
Variable str_e : string -> string.

(** The header of [_initialize_csv]. *)
Definition headers : list string :=
  [ "timestamp"; "symbol"; "price"; "change"; "change_percent";
    "volume"; "market_cap"; "previous_close"; "open"; "high"; "low";
    "day_range"; "fifty_two_week_high"; "fifty_two_week_low" ].

Definition _initialize_csv (data_file : string) (fs : files) : files :=
  match fs !! data_file with
  | Some _ => fs
  | None =>
      logging "INFO" ("CSVファイルを初期化しました: " +:+ data_file)
        (<[data_file := [header_line headers]]> fs)
  end.

(** [get_stock_data], the value it returns; a [quote] of [None] is a
    provider call that raised. *)
Definition get_stock_data (symbol : string) (q : option quote) : option row :=
  q ← q;
  match last (q_hist q) with
  | None => None
  | Some latest =>
      volume ← py_int (Volume latest);
      Some
        [ ("timestamp", cstr (q_now q));
          ("symbol", cstr symbol);
          ("price", cnum (round2 (Close latest)));
          ("change", cnum (round2 (num_sub (Close latest) (Open latest))));
          ("change_percent", cnum (percent_change (Close latest) (Open latest)));
          ("volume", cnum volume);
          ("market_cap", CVal (dict_get (q_info q) "marketCap" (VStr "N/A")));
          ("previous_close", cnum (round2 (Open latest)));
          ("open", cnum (round2 (Open latest)));
          ("high", cnum (round2 (High latest)));
          ("low", cnum (round2 (Low latest)));
          ("day_range",
           cstr (str_of (round2 (Low latest)) +:+ " - "
                 +:+ str_of (round2 (High latest))));
          ("fifty_two_week_high",
           CVal (dict_get (q_info q) "fiftyTwoWeekHigh" (VStr "N/A")));
          ("fifty_two_week_low",
           CVal (dict_get (q_info q) "fiftyTwoWeekLow" (VStr "N/A"))) ]
  end.

(** What [get_stock_data] logs on its way: a warning for an empty
    history, an error with the text of the exception for a call that
    raised (the provider, or [int] on a volume that is NaN or infinite),
    nothing when it returns a row. *)
Definition get_stock_data_log (symbol : string) (q : option quote) (fs : files)
  : files :=
  let error text :=
    logging "ERROR"
      (symbol +:+ "のデータ取得中にエラーが発生しました: " +:+ text) fs in
  match q with
  | None => error (str_e symbol)
  | Some q =>
      match last (q_hist q) with
      | None => logging "WARNING" (symbol +:+ ": データが取得できませんでした") fs
      | Some latest =>
          match Volume latest with
          | Fin _ => fs
          | NaN => error "cannot convert float NaN to integer"
          | PInf | NInf => error "cannot convert float infinity to integer"
          end
      end
  end.

(** [get_all_stock_data] : the symbols in turn, each announced in the log,
    the failures left out. *)
Fixpoint get_all_stock_data (symbols : list string)
         (feed : string -> option quote) (fs : files) : list row * files :=
  match symbols with
  | [] => ([], fs)
  | symbol :: rest =>
      let fs := logging "INFO" (symbol +:+ "のデータを取得中...") fs in
      let data := get_stock_data symbol (feed symbol) in
      let fs := get_stock_data_log symbol (feed symbol) fs in
      let '(all_data, fs) := get_all_stock_data rest feed fs in
      (match data with
       | Some data => data :: all_data
       | None => all_data
       end, fs)
  end.

Definition save_to_csv (data_file : string) (data : list row) (fs : files)
  : files :=
  match data with
  | [] => logging "WARNING" "保存するデータがありません" fs
  | _ =>
      logging "INFO"
        (str_int (Z.of_nat (length data))
         +:+ "件のデータをCSVファイルに保存しました")
        (to_csv_append data_file data fs)
  end.

Definition run_single_fetch (symbols : list string) (data_file : string)
           (feed : string -> option quote) (fs : files) : files :=
  let fs := logging "INFO" "一回限りのデータ取得を実行します" fs in
  let '(data, fs) := get_all_stock_data symbols feed fs in
  let fs := save_to_csv data_file data fs in
  logging "INFO" "データ取得完了" fs.

(** The loop of [run_continuous_monitoring], by the rounds it has run:
    each round has its reading of the clock and its feed.  The loop ends
    only on an interrupt or an exception; [time.sleep] raises one, at the
    end of the first round, when the interval is negative. *)
Fixpoint monitoring_loop (symbols : list string) (data_file : string)
         (interval_minutes : Z)
         (rounds : list (string * (string -> option quote))) (fs : files)
  : files :=
  match rounds with
  | [] => fs
  | (now, feed) :: rest =>
      let fs := logging "INFO" "==================================================" fs in
      let fs := logging "INFO" ("データ取得開始: " +:+ now) fs in
      let '(data, fs) := get_all_stock_data symbols feed fs in
      let fs := save_to_csv data_file data fs in
      let fs :=
        logging "INFO"
          ("次の取得まで" +:+ str_int interval_minutes +:+ "分待機します...") fs in
      if (interval_minutes <? 0)%Z
      then logging "ERROR"
             "監視中にエラーが発生しました: sleep length must be non-negative" fs
      else monitoring_loop symbols data_file interval_minutes rest fs
  end.

Definition run_continuous_monitoring (symbols : list string)
           (data_file : string) (interval_minutes : Z)
           (rounds : list (string * (string -> option quote))) (fs : files)
  : files :=
  let fs :=
    logging "INFO"
      ("株価監視を開始します。間隔: " +:+ str_int interval_minutes +:+ "分") fs in
  let fs := logging "INFO" ("監視対象: " +:+ String.concat ", " symbols) fs in
  monitoring_loop symbols data_file interval_minutes rounds fs.

End Monitor.

End Monitor.

(* ===================================================================== *)
(** ** looker_studio_exporter.py: rows and exports *)
(* ===================================================================== *)

Module ExporterData.

Local Open Scope string_scope.

(** [round((change / previous_close) * 100, 2) if previous_close != 0 else 0] *)
Definition change_percent_of (change previous_close : num) : num :=
  if num_ne previous_close (Fin 0)
  then round2 (num_mul (num_div change previous_close) (Fin 100))
  else Fin 0.

(** A call [_categorize_volume(volume, avg)] whose second argument comes
    from [info]: for a string or [None] the test [avg_volume == 0] is
    false and the division raises. *)
Definition categorize_volume_of (categorize : num -> num -> res string)
           (volume : num) (avg : pyval) : option string :=
  a ← as_num avg; raised (categorize volume a).

(** [round(volume / info.get('averageVolume', volume), 2)
       if info.get('averageVolume') else 1.0] *)
Definition volume_ratio_of (info : gmap string pyval) (volume : num)
  : option num :=
  if truthy (dict_get_none info "averageVolume")
  then a ← as_num (dict_get info "averageVolume" (VNum volume));
       Some (round2 (num_div volume a))
  else Some (Fin 1).

(** The three readings of the clock, [ticker.info] and
    [ticker.history(...)]. *)
Record quote : Type :=
  MkQuote { q_timestamp : string; q_date : string; q_time : string;
            q_info : gmap string pyval; q_hist : list Bar }.

Section Exporter.

Variable str_of : num -> string.

(** [get_enhanced_stock_data]; a [quote] of [None] is a provider call that
    raised. *)
Definition get_enhanced_stock_data (symbol : string) (q : option quote)
  : option row :=
  q ← q;
  let info := q_info q in
  match last (q_hist q) with
  | None => None
  | Some latest =>
      let company_name :=
        dict_get info "longName" (dict_get info "shortName" (VStr symbol)) in
      let sector := dict_get info "sector" (VStr "N/A") in
      let industry := dict_get info "industry" (VStr "N/A") in
      let currency := dict_get info "currency" (VStr "USD") in
      let current_price := round2 (Close latest) in
      let previous_close := round2 (Open latest) in
      let change := round2 (num_sub current_price previous_close) in
      let change_percent := change_percent_of change previous_close in
      let day_high := round2 (High latest) in
      let day_low := round2 (Low latest) in
      let fifty_two_week_high := dict_get info "fiftyTwoWeekHigh" (VNum day_high) in
      let fifty_two_week_low := dict_get info "fiftyTwoWeekLow" (VNum day_low) in
      volatility ← raised (Exporter.volatility day_high day_low current_price);
      volume ← py_int (Volume latest);
      volume_ratio ← volume_ratio_of info (Volume latest);
      volume_category ←
        categorize_volume_of Exporter._categorize_volume (Volume latest)
          (dict_get info "averageVolume" (VNum (Volume latest)));
      market_cap_category ←
        raised (Exporter._categorize_market_cap (dict_get info "marketCap" (VNum (Fin 0))));
      Some
        [ ("timestamp", cstr (q_timestamp q));
          ("date", cstr (q_date q));
          ("time", cstr (q_time q));
          ("symbol", cstr symbol);
          ("company_name", CVal company_name);
          ("sector", CVal sector);
          ("industry", CVal industry);
          ("currency", CVal currency);
          ("current_price", cnum current_price);
          ("previous_close", cnum previous_close);
          ("open_price", cnum (round2 (Open latest)));
          ("day_high", cnum day_high);
          ("day_low", cnum day_low);
          ("change", cnum change);
          ("change_percent", cnum change_percent);
          ("day_range", cstr (str_of day_low +:+ " - " +:+ str_of day_high));
          ("fifty_two_week_high", CVal fifty_two_week_high);
          ("fifty_two_week_low", CVal fifty_two_week_low);
          ("fifty_two_week_range",
           cstr (str_val str_of fifty_two_week_low +:+ " - "
                 +:+ str_val str_of fifty_two_week_high));
          ("volume", cnum volume);
          ("average_volume",
           CVal (dict_get info "averageVolume" (VNum (Volume latest))));
          ("volume_ratio", cnum volume_ratio);
          ("market_cap", CVal (dict_get info "marketCap" (VStr "N/A")));
          ("enterprise_value", CVal (dict_get info "enterpriseValue" (VStr "N/A")));
          ("shares_outstanding", CVal (dict_get info "sharesOutstanding" (VStr "N/A")));
          ("pe_ratio", CVal (dict_get info "trailingPE" (VStr "N/A")));
          ("forward_pe", CVal (dict_get info "forwardPE" (VStr "N/A")));
          ("peg_ratio", CVal (dict_get info "pegRatio" (VStr "N/A")));
          ("price_to_book", CVal (dict_get info "priceToBook" (VStr "N/A")));
          ("price_to_sales",
           CVal (dict_get info "priceToSalesTrailing12Months" (VStr "N/A")));
          ("dividend_yield", CVal (dict_get info "dividendYield" (VStr "N/A")));
          ("volatility", cnum volatility);
          ("beta", CVal (dict_get info "beta" (VStr "N/A")));
          ("rsi_14", cstr "N/A");
          ("performance_1d", cnum change_percent);
          ("performance_1w", cstr "N/A");
          ("performance_1m", cstr "N/A");
          ("performance_1y", cstr "N/A");
          ("price_category", cstr (Exporter._categorize_price current_price));
          ("change_category", cstr (Exporter._categorize_change change_percent));
          ("volume_category", cstr volume_category);
          ("market_cap_category", cstr market_cap_category) ]
  end.



(** The dictionary [summary] that [export_summary_data] builds from
    [data]; a missing key raises [KeyError]. *)
Definition summary_of (data : row) : option row :=
  symbol ← getitem_row data "symbol";
  company_name ← getitem_row data "company_name";
  sector ← getitem_row data "sector";
  current_price ← getitem_row data "current_price";
  change_percent ← getitem_row data "change_percent";
  volume ← getitem_row data "volume";
  market_cap_category ← getitem_row data "market_cap_category";
  price_category ← getitem_row data "price_category";
  change_category ← getitem_row data "change_category";
  last_updated ← getitem_row data "timestamp";
  Some [ ("symbol", symbol); ("company_name", company_name);
         ("sector", sector); ("current_price", current_price);
         ("change_percent", change_percent); ("volume", volume);
         ("market_cap_category", market_cap_category);
         ("price_category", price_category);
         ("change_category", change_category);
         ("last_updated", last_updated) ].

(** The keys of the dictionary [summary], in order. *)
Definition summary_columns : list string :=
  [ "symbol"; "company_name"; "sector"; "current_price"; "change_percent";
    "volume"; "market_cap_category"; "price_category"; "change_category";
    "last_updated" ].

(** [export_summary_data] : nothing catches what building a summary
    raises, so the outer [None] is an exception that leaves the method. *)
Definition export_summary_data (symbols : list string) (summary_file : string)
           (feed : string -> option quote) (fs : files)
  : option (option (list row) * files) :=
  summary_data ←
    mapM summary_of
      (omap (fun symbol => get_enhanced_stock_data symbol (feed symbol)) symbols);
  Some match summary_data with
       | [] => (None, fs)
       | _ => (Some summary_data, to_csv summary_file summary_data fs)
       end.


(** The keys of the dictionary of one historical row. *)
Definition historical_columns : list string :=
  [ "date"; "symbol"; "open"; "high"; "low"; "close"; "volume"; "adj_close" ].



End Exporter.

End ExporterData.

(* ===================================================================== *)
(** ** looker_studio_optimized.py: rows and exports *)
(* ===================================================================== *)

Module OptimizedData.

Local Open Scope string_scope.

Definition tech_sectors : list string :=
  ["Technology"; "Software"; "Hardware"; "Semiconductors"].
Definition finance_sectors : list string :=
  ["Financial Services"; "Banks"; "Insurance"].
Definition healthcare_sectors : list string :=
  ["Healthcare"; "Biotechnology"; "Pharmaceuticals"].
Definition consumer_sectors : list string :=
  ["Consumer Discretionary"; "Consumer Staples"; "Retail"].

(** [any(kw in sector for kw in keywords)] *)
Definition any_in (keywords : list string) (sector : string) : bool :=
  existsb (fun kw => contains kw sector) keywords.

(** [_categorize_sector]; [kw in sector] on a number raises. *)
Definition _categorize_sector (sector : pyval) : res string :=
  if negb (truthy sector) || val_eq_str sector "Unknown" then Ok "Unknown"
  else
    match sector with
    | VStr s =>
        if any_in tech_sectors s then Ok "Technology"
        else if any_in finance_sectors s then Ok "Financial"
        else if any_in healthcare_sectors s then Ok "Healthcare"
        else if any_in consumer_sectors s then Ok "Consumer"
        else Ok "Other"
    | _ => Raise TypeError
    end.

(** The one reading of the clock, [now], by the fields the row takes from
    it. *)
Record moment : Type :=
  MkMoment { m_date : string; m_time : string; m_datetime : string;
             m_year : Z; m_month : Z; m_day : Z; m_hour : Z; m_minute : Z;
             m_weekday : string; m_weekday_number : Z }.

Record quote : Type :=
  MkQuote { q_now : moment; q_info : gmap string pyval; q_hist : list Bar }.

Definition cint (z : Z) : cell := cnum (Fin (inject_Z z)).

(** [get_optimized_stock_data]; a [quote] of [None] is a provider call
    that raised. *)
Definition get_optimized_stock_data (symbol : string) (q : option quote)
  : option row :=
  q ← q;
  let info := q_info q in
  let now := q_now q in
  match last (q_hist q) with
  | None => None
  | Some latest =>
      let company_name :=
        dict_get info "longName" (dict_get info "shortName" (VStr symbol)) in
      let sector := dict_get info "sector" (VStr "Unknown") in
      let industry := dict_get info "industry" (VStr "Unknown") in
      let currency := dict_get info "currency" (VStr "USD") in
      let current_price := round2 (Close latest) in
      let previous_close := round2 (Open latest) in
      let change := round2 (num_sub current_price previous_close) in
      let change_percent :=
        ExporterData.change_percent_of change previous_close in
      let day_high := round2 (High latest) in
      let day_low := round2 (Low latest) in
      let fifty_two_week_high := dict_get info "fiftyTwoWeekHigh" (VNum day_high) in
      let fifty_two_week_low := dict_get info "fiftyTwoWeekLow" (VNum day_low) in
      let average_volume := dict_get info "averageVolume" (VNum (Volume latest)) in
      let market_cap := dict_get info "marketCap" (VNum (Fin 0)) in
      fifty_two_week_spread ←
        (h ← as_num fifty_two_week_high; l ← as_num fifty_two_week_low;
         Some (round2 (num_sub h l)));
      volume ← py_int (Volume latest);
      volume_ratio ← ExporterData.volume_ratio_of info (Volume latest);
      market_cap_billions ←
        (if truthy (dict_get_none info "marketCap")
         then x ← as_num market_cap;
              Some (round2 (num_div x (Fin 1000000000)))
         else Some (Fin 0));
      volatility ← raised (Optimized.volatility day_high day_low current_price);
      volume_category ←
        ExporterData.categorize_volume_of Optimized._categorize_volume
          (Volume latest) average_volume;
      market_cap_category ← raised (Optimized._categorize_market_cap market_cap);
      sector_category ← raised (_categorize_sector sector);
      volatility_category ←
        raised (Optimized.volatility_category day_high day_low current_price);
      is_high_volume ←
        (if truthy (dict_get_none info "averageVolume")
         then a ← as_num average_volume;
              Some (num_gt (Volume latest) (num_mul a (Fin (3 # 2))))
         else Some false);
      is_large_cap ←
        (x ← as_num market_cap; Some (num_gt x (Fin 10000000000)));
      is_dividend_stock ←
        (x ← as_num (dict_get info "dividendYield" (VNum (Fin 0)));
         Some (num_gt x (Fin 0)));
      Some
        [ ("stock_symbol", cstr symbol);
          ("company_name", CVal company_name);
          ("sector", CVal sector);
          ("industry", CVal industry);
          ("currency", CVal currency);
          ("date", cstr (m_date now));
          ("time", cstr (m_time now));
          ("datetime", cstr (m_datetime now));
          ("year", cint (m_year now));
          ("month", cint (m_month now));
          ("day", cint (m_day now));
          ("hour", cint (m_hour now));
          ("minute", cint (m_minute now));
          ("weekday", cstr (m_weekday now));
          ("weekday_number", cint (m_weekday_number now));
          ("current_price", cnum current_price);
          ("previous_close", cnum previous_close);
          ("open_price", cnum (round2 (Open latest)));
          ("day_high", cnum day_high);
          ("day_low", cnum day_low);
          ("price_change", cnum change);
          ("price_change_percent", cnum change_percent);
          ("day_range_low", cnum day_low);
          ("day_range_high", cnum day_high);
          ("day_range_spread", cnum (round2 (num_sub day_high day_low)));
          ("fifty_two_week_high", CVal fifty_two_week_high);
          ("fifty_two_week_low", CVal fifty_two_week_low);
          ("fifty_two_week_spread", cnum fifty_two_week_spread);
          ("volume", cnum volume);
          ("average_volume", CVal average_volume);
          ("volume_ratio", cnum volume_ratio);
          ("market_cap", CVal market_cap);
          ("market_cap_billions", cnum market_cap_billions);
          ("shares_outstanding", CVal (dict_get info "sharesOutstanding" (VNum (Fin 0))));
          ("float_shares", CVal (dict_get info "floatShares" (VNum (Fin 0))));
          ("pe_ratio", CVal (dict_get info "trailingPE" (VNum (Fin 0))));
          ("forward_pe", CVal (dict_get info "forwardPE" (VNum (Fin 0))));
          ("peg_ratio", CVal (dict_get info "pegRatio" (VNum (Fin 0))));
          ("price_to_book", CVal (dict_get info "priceToBook" (VNum (Fin 0))));
          ("price_to_sales",
           CVal (dict_get info "priceToSalesTrailing12Months" (VNum (Fin 0))));
          ("dividend_yield", CVal (dict_get info "dividendYield" (VNum (Fin 0))));
          ("dividend_rate", CVal (dict_get info "dividendRate" (VNum (Fin 0))));
          ("beta", CVal (dict_get info "beta" (VNum (Fin 0))));
          ("volatility", cnum volatility);
          ("rsi_14", cnum (Fin 0));
          ("performance_1d", cnum change_percent);
          ("performance_1w", cnum (Fin 0));
          ("performance_1m", cnum (Fin 0));
          ("performance_1y", cnum (Fin 0));
          ("price_category", cstr (Optimized._categorize_price current_price));
          ("change_category", cstr (Optimized._categorize_change change_percent));
          ("volume_category", cstr volume_category);
          ("market_cap_category", cstr market_cap_category);
          ("sector_category", cstr sector_category);
          ("volatility_category", cstr volatility_category);
          ("is_gain", CBool (num_gt change (Fin 0)));
          ("is_loss", CBool (num_lt change (Fin 0)));
          ("is_high_volume", CBool is_high_volume);
          ("is_high_volatility",
           CBool (if num_ne current_price (Fin 0)
                  then num_gt (num_mul (num_div (num_sub day_high day_low)
                                                current_price) (Fin 100))
                              (Fin 5)
                  else false));
          ("is_large_cap", CBool is_large_cap);
          ("is_dividend_stock", CBool is_dividend_stock) ]
  end.



(** The dictionary [summary] of [export_summary_data]. *)
Definition summary_of (data : row) : option row :=
  stock_symbol ← getitem_row data "stock_symbol";
  company_name ← getitem_row data "company_name";
  sector ← getitem_row data "sector";
  sector_category ← getitem_row data "sector_category";
  current_price ← getitem_row data "current_price";
  price_change_percent ← getitem_row data "price_change_percent";
  volume ← getitem_row data "volume";
  market_cap_category ← getitem_row data "market_cap_category";
  price_category ← getitem_row data "price_category";
  change_category ← getitem_row data "change_category";
  is_gain ← getitem_row data "is_gain";
  is_high_volume ← getitem_row data "is_high_volume";
  last_updated ← getitem_row data "datetime";
  Some [ ("stock_symbol", stock_symbol); ("company_name", company_name);
         ("sector", sector); ("sector_category", sector_category);
         ("current_price", current_price);
         ("price_change_percent", price_change_percent);
         ("volume", volume);
         ("market_cap_category", market_cap_category);
         ("price_category", price_category);
         ("change_category", change_category);
         ("is_gain", is_gain); ("is_high_volume", is_high_volume);
         ("last_updated", last_updated) ].

(** The keys of the dictionary [summary], in order. *)
Definition summary_columns : list string :=
  [ "stock_symbol"; "company_name"; "sector"; "sector_category";
    "current_price"; "price_change_percent"; "volume";
    "market_cap_category"; "price_category"; "change_category"; "is_gain";
    "is_high_volume"; "last_updated" ].

Definition export_summary_data (symbols : list string) (summary_file : string)
           (feed : string -> option quote) (fs : files)
  : option (option (list row) * files) :=
  summary_data ←
    mapM summary_of
      (omap (fun symbol => get_optimized_stock_data symbol (feed symbol)) symbols);
  Some match summary_data with
       | [] => (None, fs)
       | _ => (Some summary_data, to_csv summary_file summary_data fs)
       end.

(** The date of a bar, by the fields a time-series row takes from it. *)
Record stamp : Type :=
  MkStamp { s_date : string; s_datetime : string;
            s_year : Z; s_month : Z; s_day : Z;
            s_weekday : string; s_weekday_number : Z }.

(** One row of [export_time_series_data]. *)
Definition time_series_row (symbol : string) (bar : stamp * Bar) : option row :=
  let '(date, r) := bar in
  volume ← py_int (Volume r);
  Some [ ("date", cstr (s_date date));
         ("datetime", cstr (s_datetime date));
         ("year", cint (s_year date));
         ("month", cint (s_month date));
         ("day", cint (s_day date));
         ("weekday", cstr (s_weekday date));
         ("weekday_number", cint (s_weekday_number date));
         ("stock_symbol", cstr symbol);
         ("open_price", cnum (round2 (Open r)));
         ("high_price", cnum (round2 (High r)));
         ("low_price", cnum (round2 (Low r)));
         ("close_price", cnum (round2 (Close r)));
         ("volume", cnum volume);
         ("price_change", cnum (round2 (num_sub (Close r) (Open r))));
         ("price_change_percent",
          cnum (if num_ne (Open r) (Fin 0)
                then percent_change (Close r) (Open r)
                else Fin 0));
         ("daily_range", cnum (round2 (num_sub (High r) (Low r))));
         ("daily_range_percent",
          cnum (if num_ne (Close r) (Fin 0)
                then round2 (num_mul (num_div (num_sub (High r) (Low r))
                                              (Close r)) (Fin 100))
                else Fin 0)) ].

(** The keys of the dictionary of one time-series row. *)
Definition time_series_columns : list string :=
  [ "date"; "datetime"; "year"; "month"; "day"; "weekday"; "weekday_number";
    "stock_symbol"; "open_price"; "high_price"; "low_price"; "close_price";
    "volume"; "price_change"; "price_change_percent"; "daily_range";
    "daily_range_percent" ].


(** The performance figures of [export_performance_data] for one history
    of closes (lines 417-441 and the two entries [best_performance] and
    [worst_performance]); [None] is an [IndexError]. *)
Record performance : Type :=
  MkPerformance { performance_1d : num; performance_1w : num;
                  performance_1m : num; performance_3m : num;
                  performance_6m : num; performance_1y : num;
                  best_performance : num; worst_performance : num }.

Definition performance_since (close : list num) (current_price : num)
           (bars : nat) : option num :=
  if (bars <=? length close)%nat
  then base ← iloc close (- Z.of_nat bars);
       Some (percent_change current_price base)
  else Some (Fin 0).

Definition performances (close : list num) : option performance :=
  current_price ← iloc close (-1);
  start_price ← iloc close 0;
  let p1y := percent_change current_price start_price in
  p1d ← performance_since close current_price 2;
  p1w ← performance_since close current_price 7;
  p1m ← performance_since close current_price 30;
  p3m ← performance_since close current_price 90;
  p6m ← performance_since close current_price 180;
  Some (MkPerformance p1d p1w p1m p3m p6m p1y
          (py_max p1d [p1w; p1m; p3m; p6m; p1y])
          (py_min p1d [p1w; p1m; p3m; p6m; p1y])).

End OptimizedData.

(* ===================================================================== *)
(** ** streamlit_dashboard.py and advanced_streamlit_dashboard.py *)
(* ===================================================================== *)

Module Dashboards.

Local Open Scope string_scope.

(** [StockDashboard.get_stock_info] *)
Definition get_stock_info (symbol : string)
           (q : option (gmap string pyval * list Bar)) : option row :=
  q ← q;
  let '(info, hist) := q in
  match last hist with
  | None => None
  | Some latest =>
      volume ← py_int (Volume latest);
      Some
        [ ("symbol", cstr symbol);
          ("name",
           CVal (dict_get info "longName" (dict_get info "shortName" (VStr symbol))));
          ("sector", CVal (dict_get info "sector" (VStr "Unknown")));
          ("current_price", cnum (round2 (Close latest)));
          ("previous_close", cnum (round2 (Open latest)));
          ("change", cnum (round2 (num_sub (Close latest) (Open latest))));
          ("change_percent", cnum (percent_change (Close latest) (Open latest)));
          ("volume", cnum volume);
          ("day_high", cnum (round2 (High latest)));
          ("day_low", cnum (round2 (Low latest)));
          ("market_cap", CVal (dict_get info "marketCap" (VNum (Fin 0))));
          ("pe_ratio", CVal (dict_get info "trailingPE" (VNum (Fin 0))));
          ("dividend_yield", CVal (dict_get info "dividendYield" (VNum (Fin 0))));
          ("beta", CVal (dict_get info "beta" (VNum (Fin 0)))) ]
  end.

(** [(data['Close'] / data['Close'].iloc[0]) * 100] of
    [create_performance_chart]; [None] is the [IndexError] of [iloc[0]]. *)
Definition normalized_data (close : list num) : option (list num) :=
  first ← iloc close 0;
  Some (series_mul_scalar (map (fun x => num_div x first) close) (Fin 100)).

(** The traces of [StockDashboard.create_performance_chart] : one per
    symbol whose data is there and not empty, with the symbol as its name.
    [get_historical_data symbol] is the ['Close'] column of the frame that
    method returns, [None] when it returns [None]. *)
Fixpoint create_performance_chart
         (get_historical_data : string -> option (list num))
         (symbols : list string) : option (list (string * list num)) :=
  match symbols with
  | [] => Some []
  | symbol :: rest =>
      match get_historical_data symbol with
      | Some (x :: close) =>
          normalized ← normalized_data (x :: close);
          traces ← create_performance_chart get_historical_data rest;
          Some ((symbol, normalized) :: traces)
      | _ => create_performance_chart get_historical_data rest
      end
  end.

End Dashboards.

(* ===================================================================== *)
(** ** More sample data *)
(* ===================================================================== *)

Module Samples.

Local Open Scope string_scope.

(** A frame with no ['Close'] column, held at reference 3. *)
Definition no_close : DataFrame :=
  Frame [20240102; 20240103]%Z {["Volume" := [Fin 1000; Fin 1200]]}.

Definition no_close_store : heap := {[ 3%nat := no_close ]}.

(** A text for a number, for the rows that format one; nothing proved of
    a row depends on it. *)
Definition str_of (x : num) : string :=
  match x with
  | Fin _ => "Q"
  | PInf => "inf"
  | NInf => "-inf"
  | NaN => "nan"
  end.

(** A quiet bar, a volatile one, and one whose open is 0. *)
Definition quiet_bar : Bar :=
  MkBar (Fin 100) (Fin 101) (Fin (199 # 2)) (Fin (201 # 2)) (Fin 900000).

Definition volatile_bar : Bar :=
  MkBar (Fin 100) (Fin 110) (Fin 99) (Fin 104) (Fin 3000000).

Definition zero_open_bar : Bar :=
  MkBar (Fin 0) (Fin 2) (Fin 0) (Fin 1) (Fin 500).

(** A bar of a minute without a trade: no close. *)
Definition nan_close_bar : Bar :=
  MkBar (Fin 100) (Fin 101) (Fin 99) NaN (Fin 0).

Definition info : gmap string pyval :=
  <["longName" := VStr "Acme Corporation"]>
    (<["sector" := VStr "Software and Services"]>
       (<["marketCap" := VNum (Fin 50000000000)]>
          (<["averageVolume" := VNum (Fin 1000000)]>
             {["dividendYield" := VNum (Fin (1 # 2))]}))).

Definition tuesday : OptimizedData.stamp :=
  OptimizedData.MkStamp "2024-01-02" "2024-01-02 00:00:00" 2024 1 2 "Tuesday" 1.

Definition noon : OptimizedData.moment :=
  OptimizedData.MkMoment "2024-01-02" "12:00:00" "2024-01-02 12:00:00"
                         2024 1 2 12 0 "Tuesday" 1.

Definition monitor_quote : Monitor.quote :=
  Monitor.MkQuote "2024-01-02 12:00:00" info [quiet_bar; zero_open_bar].

Definition exporter_quote : ExporterData.quote :=
  ExporterData.MkQuote "2024-01-02 12:00:00" "2024-01-02" "12:00:00" info
                       [quiet_bar; volatile_bar].

Definition optimized_quote : OptimizedData.quote :=
  OptimizedData.MkQuote noon info [quiet_bar; volatile_bar].

(** The rows the builders give for them (an empty row if they gave none). *)
Definition monitor_row : row :=
  default [] (Monitor.get_stock_data str_of "ACME" (Some monitor_quote)).

Definition exporter_row : row :=
  default [] (ExporterData.get_enhanced_stock_data str_of "ACME"
                (Some exporter_quote)).

Definition optimized_row : row :=
  default [] (OptimizedData.get_optimized_stock_data "ACME" (Some optimized_quote)).

Definition nan_close_quote : ExporterData.quote :=
  ExporterData.MkQuote "2024-01-02 12:00:00" "2024-01-02" "12:00:00" info
                       [quiet_bar; nan_close_bar].

Definition nan_close_row : row :=
  default [] (ExporterData.get_enhanced_stock_data str_of "ACME"
                (Some nan_close_quote)).

(** Two closes, and the performance figures of that history. *)
Definition two_closes : list num := [Fin 100; Fin 110].

Definition two_closes_figures : OptimizedData.performance :=
  OptimizedData.MkPerformance (Fin (1000 # 100)) (Fin 0) (Fin 0) (Fin 0) (Fin 0)
                              (Fin (1000 # 100)) (Fin (1000 # 100)) (Fin 0).

(** Ten closes with an infinite one at index 3. *)
Definition gap_closes : list num :=
  [Fin 1; Fin 2; Fin 3; PInf; Fin 5; Fin 6; Fin 7; Fin 8; Fin 9; Fin 10].

End Samples.

(* ===================================================================== *)
(** * Properties *)
(* ===================================================================== *)

(** ** Numbers *)

Lemma Qlt_bool_iff (x y : Q) : Qlt_bool x y = true <-> x < y.
Proof.
  unfold Qlt_bool. rewrite negb_true_iff.
  split.
  - intros H. apply Qnot_le_lt. intros Hle.
    apply Qle_bool_iff in Hle. congruence.
  - intros H. destruct (Qle_bool y x) eqn:E; [|reflexivity].
    apply Qle_bool_iff in E. exfalso. apply (Qlt_not_le _ _ H E).
Qed.

Lemma Qlt_bool_false_iff (x y : Q) : Qlt_bool x y = false <-> y <= x.
Proof.
  unfold Qlt_bool. rewrite negb_false_iff. apply Qle_bool_iff.
Qed.

Lemma Qeq_bool_false_iff (x y : Q) : Qeq_bool x y = false <-> ~ x == y.
Proof.
  split.
  - intros H E. apply Qeq_bool_iff in E. congruence.
  - intros H. destruct (Qeq_bool x y) eqn:E; [|reflexivity].
    apply Qeq_bool_iff in E. contradiction.
Qed.

Lemma num_equiv_refl (a : num) : a =n= a.
Proof. destruct a; simpl; auto. reflexivity. Qed.

Lemma num_equiv_sym (a b : num) : a =n= b -> b =n= a.
Proof. destruct a, b; simpl; auto. intros H. symmetry. exact H. Qed.

Lemma num_equiv_trans (a b c : num) : a =n= b -> b =n= c -> a =n= c.
Proof.
  destruct a, b, c; simpl; auto; try contradiction.
  intros H1 H2. rewrite H1. exact H2.
Qed.

Lemma num_equiv_NaN (a : num) : a =n= NaN -> a = NaN.
Proof. destruct a; simpl; intros H; try contradiction; reflexivity. Qed.

Lemma num_eq_zero_iff (a : num) :
  num_eq a (Fin 0) = true <-> exists q, a = Fin q /\ q == 0.
Proof.
  destruct a; simpl; split; try discriminate.
  - intros H. exists q. split; [reflexivity | apply Qeq_bool_iff, H].
  - intros (q' & [= <-] & H). apply Qeq_bool_iff, H.
  - intros (q' & H & _). discriminate.
  - intros (q' & H & _). discriminate.
  - intros (q' & H & _). discriminate.
Qed.

(** Under the guard of the callers, Python's division is the IEEE one. *)
Lemma py_div_nonzero (a b : num) :
  num_eq b (Fin 0) = false -> py_div a b = Ok (num_div a b).
Proof. unfold py_div. intros ->. reflexivity. Qed.

(** ** The snapshot categorizer *)

Section Categorizer.

Local Open Scope string_scope.

(** C2.  Boundary values fall in the upper bucket: in the exporter a price
    of exactly 10 is "Medium Price" and not "Low Price", a price of exactly
    50 is "High Price", a change of exactly -5 percent is "Decrease" and not
    "Large Decrease", a market cap of exactly 2e9 is "Mid Cap" and not
    "Small Cap"; the optimized exporter, with its finer buckets, does the
    same at the same four values. *)
Theorem categorize_boundary_values :
  (Exporter._categorize_price (Fin 10) = "Medium Price"
   /\ Exporter._categorize_price (Fin 50) = "High Price"
   /\ Exporter._categorize_change (Fin (-5)) = "Decrease"
   /\ Exporter._categorize_market_cap (VNum (Fin 2000000000)) = Ok "Mid Cap")
  /\ (Optimized._categorize_price (Fin 10) = "$10-$25"
      /\ Optimized._categorize_price (Fin 50) = "$50-$100"
      /\ Optimized._categorize_change (Fin (-5)) = "Decrease (-2% to -5%)"
      /\ Optimized._categorize_market_cap (VNum (Fin 2000000000))
         = Ok "Mid Cap ($2B-$10B)").
Proof. repeat split; reflexivity. Qed.

Ltac split_lt :=
  repeat match goal with
         | |- context [if num_lt ?a ?b then _ else _] => destruct (num_lt a b)
         end.

(** C3 (as the code has it).  The volume bucket is total: for every volume
    and every average volume the call returns one of its five labels and
    never raises; "Unknown" is returned exactly when the average volume
    equals 0, so the division is never reached with a zero divisor.  A
    negative average volume is bucketed by its ratio like any other. *)
Theorem categorize_volume_total (volume avg_volume : num) :
  (exists label,
      Exporter._categorize_volume volume avg_volume = Ok label
      /\ In label ["Unknown"; "Low Volume"; "Normal Volume"; "High Volume";
                   "Very High Volume"])
  /\ (Exporter._categorize_volume volume avg_volume = Ok "Unknown"
      <-> num_eq avg_volume (Fin 0) = true)
  /\ (exists label,
        Optimized._categorize_volume volume avg_volume = Ok label
        /\ In label ["Unknown"; "Very Low (<50%)"; "Low (50%-80%)";
                     "Normal (80%-120%)"; "High (120%-200%)";
                     "Very High (>200%)"])
  /\ (Optimized._categorize_volume volume avg_volume = Ok "Unknown"
      <-> num_eq avg_volume (Fin 0) = true).
Proof.
  unfold Exporter._categorize_volume, Optimized._categorize_volume.
  destruct (num_eq avg_volume (Fin 0)) eqn:E.
  - repeat split; eauto using in_eq.
  - rewrite (py_div_nonzero _ _ E). simpl.
    repeat split; split_lt;
      try (eexists; split; [reflexivity | simpl; tauto]);
      try discriminate.
Qed.

(** C3, the claim as stated fails: with volume 100 and average volume
    -100 the ratio is -1, and both exporters answer with their lowest
    bucket, not "Unknown". *)
Lemma categorize_volume_negative_average :
  num_le (Fin (-100)) (Fin 0) = true
  /\ Exporter._categorize_volume (Fin 100) (Fin (-100)) = Ok "Low Volume"
  /\ Optimized._categorize_volume (Fin 100) (Fin (-100)) = Ok "Very Low (<50%)"
  /\ ~ (forall volume avg_volume : num,
          num_le avg_volume (Fin 0) = true ->
          Exporter._categorize_volume volume avg_volume = Ok "Unknown").
Proof.
  repeat split.
  intros H. specialize (H (Fin 100) (Fin (-100)) eq_refl). discriminate H.
Qed.

(** C4 (as the code has it).  The guard is [current_price != 0]: for every
    price different from 0, negative ones included, the volatility is
    (day_high - day_low) / price * 100, rounded to two decimals where it is
    stored and unrounded where it is bucketed, and nothing is raised; for
    a price equal to 0 the volatility is 0 and the bucket is
    "Very Low (<1%)". *)
Theorem volatility_guarded (day_high day_low current_price : num) :
  (num_ne current_price (Fin 0) = true ->
   let v := num_mul (num_div (num_sub day_high day_low) current_price) (Fin 100) in
   Exporter.volatility day_high day_low current_price = Ok (round2 v)
   /\ Optimized.volatility day_high day_low current_price = Ok (round2 v)
   /\ Optimized.volatility_percent day_high day_low current_price = Ok v)
  /\ (num_eq current_price (Fin 0) = true ->
      Exporter.volatility day_high day_low current_price = Ok (Fin 0)
      /\ Optimized.volatility day_high day_low current_price = Ok (Fin 0)
      /\ Optimized.volatility_percent day_high day_low current_price = Ok (Fin 0)
      /\ Optimized.volatility_category day_high day_low current_price
         = Ok "Very Low (<1%)").
Proof.
  unfold Exporter.volatility, Optimized.volatility,
    Optimized.volatility_category, Optimized.volatility_percent, num_ne.
  split.
  - intros H. apply negb_true_iff in H.
    rewrite H, (py_div_nonzero _ _ H). simpl. auto.
  - intros ->. simpl. auto.
Qed.

Lemma volatility_guarded_witness :
  (Exporter.volatility (Fin 1) (Fin 0) (Fin (-3))
   = Ok (round2 (num_mul (num_div (num_sub (Fin 1) (Fin 0)) (Fin (-3))) (Fin 100)))
   /\ Optimized.volatility (Fin 1) (Fin 0) (Fin (-3))
      = Ok (round2 (num_mul (num_div (num_sub (Fin 1) (Fin 0)) (Fin (-3))) (Fin 100)))
   /\ Optimized.volatility_percent (Fin 1) (Fin 0) (Fin (-3))
      = Ok (num_mul (num_div (num_sub (Fin 1) (Fin 0)) (Fin (-3))) (Fin 100)))
  /\ (Exporter.volatility (Fin 5) (Fin 4) (Fin 0) = Ok (Fin 0)
      /\ Optimized.volatility (Fin 5) (Fin 4) (Fin 0) = Ok (Fin 0)
      /\ Optimized.volatility_percent (Fin 5) (Fin 4) (Fin 0) = Ok (Fin 0)
      /\ Optimized.volatility_category (Fin 5) (Fin 4) (Fin 0)
         = Ok "Very Low (<1%)").
Proof.
  split.
  - apply (proj1 (volatility_guarded (Fin 1) (Fin 0) (Fin (-3)))). reflexivity.
  - apply (proj2 (volatility_guarded (Fin 5) (Fin 4) (Fin 0))). reflexivity.
Defined.

(** C4, the claim as stated fails: with day_high 1, day_low 0 and price -3
    (a price below 0) the stored volatility is -33.33: it is not 0, and it
    is not the unrounded -100/3 either. *)
Lemma volatility_negative_price :
  num_le (Fin (-3)) (Fin 0) = true
  /\ (exists v, Exporter.volatility (Fin 1) (Fin 0) (Fin (-3)) = Ok v
                /\ v =n= Fin (- (3333 # 100))
                /\ ~ v =n= Fin 0
                /\ ~ v =n= Fin ((1 - 0) / (-3) * 100))
  /\ ~ (forall day_high day_low current_price : num,
          num_le current_price (Fin 0) = true ->
          exists v, Exporter.volatility day_high day_low current_price = Ok v
                    /\ v =n= Fin 0).
Proof.
  split; [reflexivity|]. split.
  - eexists. split; [reflexivity|]. repeat split; vm_compute; congruence.
  - intros H.
    destruct (H (Fin 1) (Fin 0) (Fin (-3)) eq_refl) as (v & Hv & E).
    vm_compute in Hv. injection Hv as <-. vm_compute in E. discriminate E.
Qed.

(** C10.  A strictly negative market cap lands in the smallest bucket of
    each exporter, not in "Unknown"; "Unknown" is answered only for a
    market cap equal to 0, or for the string 'N/A' in the exporter. *)
Theorem market_cap_negative_is_smallest (market_cap : pyval) :
  (forall x : num,
      market_cap = VNum x -> num_lt x (Fin 0) = true ->
      Exporter._categorize_market_cap market_cap = Ok "Small Cap"
      /\ Optimized._categorize_market_cap market_cap = Ok "Micro Cap (<$300M)")
  /\ (Exporter._categorize_market_cap market_cap = Ok "Unknown"
      <-> (exists q, market_cap = VNum (Fin q) /\ q == 0)
          \/ market_cap = VStr "N/A")
  /\ (Optimized._categorize_market_cap market_cap = Ok "Unknown"
      <-> exists q, market_cap = VNum (Fin q) /\ q == 0).
Proof.
  unfold Exporter._categorize_market_cap, Optimized._categorize_market_cap.
  split; [|split].
  - intros x -> Hneg. simpl.
    destruct x as [q| | |]; simpl in *; try discriminate.
    + apply Qlt_bool_iff in Hneg.
      assert (Qeq_bool q 0 = false) as ->
          by (apply Qeq_bool_false_iff; intros E; rewrite E in Hneg;
              exact (Qlt_irrefl _ Hneg)).
      assert (Qlt_bool q 2000000000 = true) as ->
          by (apply Qlt_bool_iff; eapply Qlt_trans; [exact Hneg | reflexivity]).
      assert (Qlt_bool q 300000000 = true) as ->
          by (apply Qlt_bool_iff; eapply Qlt_trans; [exact Hneg | reflexivity]).
      auto.
    + auto.
  - destruct market_cap as [x|s|]; simpl.
    + destruct (num_eq x (Fin 0)) eqn:E; simpl.
      * split; [|reflexivity]. intros _. left.
        apply num_eq_zero_iff in E as (q & -> & Hq). eauto.
      * split.
        -- split_lt; discriminate.
        -- intros [(q & [= ->] & Hq)|[=]].
           simpl in E. apply Qeq_bool_false_iff in E. contradiction.
    + destruct (String.eqb s "N/A") eqn:E.
      * apply String.eqb_eq in E as ->. split; auto.
      * split; [discriminate|].
        intros [(q & [=] & _)|[= ->]]. rewrite String.eqb_refl in E.
        discriminate.
    + split; [discriminate|]. intros [(q & [=] & _)|[=]].
  - destruct market_cap as [x|s|]; simpl.
    + destruct (num_eq x (Fin 0)) eqn:E; simpl.
      * split; [|reflexivity]. intros _.
        apply num_eq_zero_iff in E as (q & -> & Hq). eauto.
      * split.
        -- split_lt; discriminate.
        -- intros (q & [= ->] & Hq).
           simpl in E. apply Qeq_bool_false_iff in E. contradiction.
    + split; [discriminate|]. intros (q & [=] & _).
    + split; [discriminate|]. intros (q & [=] & _).
Qed.

Lemma market_cap_negative_is_smallest_witness :
  Exporter._categorize_market_cap (VNum (Fin (-1))) = Ok "Small Cap"
  /\ Optimized._categorize_market_cap (VNum (Fin (-1))) = Ok "Micro Cap (<$300M)".
Proof.
  apply (proj1 (market_cap_negative_is_smallest (VNum (Fin (-1))))
           (Fin (-1)) eq_refl).
  reflexivity.
Defined.

End Categorizer.

(** ** Sums and the sliding mean *)

Lemma Qsum_app (l1 l2 : list Q) : Qsum (l1 ++ l2) == Qsum l1 + Qsum l2.
Proof.
  induction l1 as [|x l1 IH]; simpl.
  - ring.
  - rewrite IH. ring.
Qed.

Lemma nth_lookup_Q (qs : list Q) (n : nat) :
  (n < length qs)%nat -> qs !! n = Some (nth n qs 0).
Proof.
  intros H. destruct (lookup_lt_is_Some_2 qs n H) as [x Hx].
  rewrite Hx. f_equal. symmetry.
  rewrite nth_lookup, Hx. reflexivity.
Qed.

Lemma Qsum_take_S (qs : list Q) (n : nat) :
  (n < length qs)%nat ->
  Qsum (take (S n) qs) == Qsum (take n qs) + nth n qs 0.
Proof.
  intros H. rewrite (take_S_r qs n (nth n qs 0)) by (apply nth_lookup_Q, H).
  rewrite Qsum_app. simpl. ring.
Qed.

Lemma Qsum_take_drop (qs : list Q) (a w : nat) :
  Qsum (take (a + w) qs) == Qsum (take a qs) + Qsum (take w (drop a qs)).
Proof.
  revert qs. induction a as [|a IH]; intros qs; simpl.
  - rewrite drop_0. ring.
  - destruct qs as [|x qs]; simpl.
    + rewrite take_nil. simpl. ring.
    + rewrite IH. ring.
Qed.

Lemma Qnat_nonzero (n : nat) : (0 < n)%nat -> ~ Qnat n == 0.
Proof.
  intros H E. unfold Qnat, Qeq in E. simpl in E. lia.
Qed.

Lemma nth_map_Fin (qs : list Q) (n : nat) :
  (n < length qs)%nat -> nth n (map Fin qs) NaN = Fin (nth n qs 0).
Proof.
  intros H. rewrite (nth_indep _ NaN (Fin 0)) by (rewrite length_map; exact H).
  apply (map_nth Fin).
Qed.

Lemma drop_cons_inv (qs : list Q) (i : nat) (q : Q) (rest : list Q) :
  drop i qs = q :: rest ->
  (i < length qs)%nat /\ nth i qs 0 = q /\ drop (S i) qs = rest.
Proof.
  revert i. induction qs as [|x qs IH]; intros i H.
  - rewrite drop_nil in H. discriminate.
  - destruct i as [|i]; simpl in *.
    + injection H as -> ->. repeat split; lia.
    + destruct (IH _ H) as (? & ? & ?). repeat split; [lia | assumption | assumption].
Qed.

Lemma roll_mean_loop_spec (w minp : nat) (qs : list Q) :
  (1 <= w)%nat ->
  forall rest i st s,
    drop i qs = rest ->
    nobs st = Nat.min i w ->
    sum_x st = Fin s ->
    s == Qsum (take i qs) - Qsum (take (i - w) qs) ->
    forall k, (k < length rest)%nat ->
      exists v,
        roll_mean_loop w minp (map Fin qs) i (map Fin rest) st !! k = Some v
        /\ v =n= (if (minp <=? Nat.min (S (i + k)) w)%nat
                  then Fin ((Qsum (take (S (i + k)) qs)
                             - Qsum (take (S (i + k) - w) qs))
                            / Qnat (Nat.min (S (i + k)) w))
                  else NaN).
Proof.
  intros Hw rest. induction rest as [|q rest IH]; intros i st s Hd Hn Hs Hsum k Hk.
  - simpl in Hk. lia.
  - destruct (drop_cons_inv _ _ _ _ Hd) as (Hi & Hq & Hd').
    set (st1 := if (w <=? i)%nat
                then remove_mean (nth (i - w) (map Fin qs) NaN) st else st).
    set (st2 := add_mean (Fin q) st1).
    assert (H2 : nobs st2 = Nat.min (S i) w
                 /\ exists s2, sum_x st2 = Fin s2
                    /\ s2 == Qsum (take (S i) qs) - Qsum (take (S i - w) qs)).
    { subst st2 st1. destruct (Nat.leb_spec w i) as [Hwi|Hwi].
      - rewrite nth_map_Fin by lia.
        unfold add_mean, remove_mean; cbn [nobs sum_x is_nan]. rewrite Hn, Hs. split; [lia|].
        eexists. split; [simpl; reflexivity|].
        rewrite Hsum, (Qsum_take_S qs i Hi), Hq.
        replace (S i - w)%nat with (S (i - w)) by lia.
        rewrite (Qsum_take_S qs (i - w)) by lia. ring.
      - unfold add_mean; cbn [nobs sum_x is_nan]. rewrite Hn, Hs. split; [lia|].
        eexists. split; [simpl; reflexivity|].
        rewrite Hsum, (Qsum_take_S qs i Hi), Hq.
        replace (S i - w)%nat with 0%nat by lia.
        replace (i - w)%nat with 0%nat by lia. ring. }
    destruct H2 as (Hn2 & s2 & Hs2 & Hsum2).
    change (roll_mean_loop w minp (map Fin qs) i (map Fin (q :: rest)) st)
      with (calc_mean minp st2
              :: roll_mean_loop w minp (map Fin qs) (S i) (map Fin rest) st2).
    destruct k as [|k].
    + exists (calc_mean minp st2). split; [reflexivity|].
      unfold calc_mean. rewrite Hn2, Hs2, Nat.add_0_r.
      assert ((0 <? Nat.min (S i) w)%nat = true) as -> by (apply Nat.ltb_lt; lia).
      rewrite andb_true_r.
      destruct (minp <=? Nat.min (S i) w)%nat; [|exact I].
      cbn [num_div].
      assert (Qeq_bool (Qnat (Nat.min (S i) w)) 0 = false) as ->
          by (apply Qeq_bool_false_iff, Qnat_nonzero; lia).
      cbn [num_equiv]. rewrite Hsum2. reflexivity.
    + simpl in Hk.
      destruct (IH (S i) st2 s2 Hd' Hn2 Hs2 Hsum2 k ltac:(lia)) as (v & Hv & Ev).
      exists v. split; [exact Hv|].
      replace (i + S k)%nat with (S i + k)%nat by lia. exact Ev.
Qed.

Lemma prep_values_length (values : list num) :
  length (prep_values values) = length values.
Proof. apply length_map. Qed.

Lemma prep_values_Fin (qs : list Q) : prep_values (map Fin qs) = map Fin qs.
Proof.
  unfold prep_values. rewrite map_map. reflexivity.
Qed.

(** The sliding mean is the mean of the trailing window. *)
Lemma rolling_mean_lookup (w : nat) (qs : list Q) (i : nat) :
  (1 <= w)%nat -> (i < length qs)%nat ->
  exists v, rolling_mean w (map Fin qs) !! i = Some v
            /\ v =n= Spec.simple_moving_average qs w i.
Proof.
  intros Hw Hi. unfold rolling_mean. cbv zeta. rewrite prep_values_Fin.
  destruct (roll_mean_loop_spec w w qs Hw qs 0%nat (MeanState 0 (Fin 0)) 0
              (drop_0 qs) eq_refl eq_refl ltac:(simpl; ring) i Hi)
    as (v & Hv & Ev).
  exists v. split; [exact Hv|].
  eapply num_equiv_trans; [exact Ev|].
  unfold Spec.simple_moving_average. simpl (0 + i)%nat.
  destruct (Nat.ltb_spec (S i) w) as [Hlt|Hge].
  - assert ((w <=? Nat.min (S i) w)%nat = false) as -> by (apply Nat.leb_gt; lia).
    exact I.
  - assert ((w <=? Nat.min (S i) w)%nat = true) as -> by (apply Nat.leb_le; lia).
    cbn [num_equiv]. replace (Nat.min (S i) w) with w by lia.
    replace (S i) with ((S i - w) + w)%nat at 1 by lia.
    rewrite Qsum_take_drop. 
    apply Qmult_comp; [ring | reflexivity].
Qed.

(** ** The method on the store *)

Local Open Scope string_scope.

Section Run.
Variable sqrtQ : Q -> Q.

Lemma deref_insert_eq (h : heap) (r : ref) (f : DataFrame) :
  deref (<[r := f]> h) r = f.
Proof. unfold deref. rewrite lookup_insert_eq. reflexivity. Qed.

Lemma getitem_insert (h : heap) (r : ref) (f : DataFrame) (col : string)
      (s : list num) :
  columns f !! col = Some s ->
  getitem r col (<[r := f]> h) = Ok (s, <[r := f]> h).
Proof. intros H. unfold getitem. rewrite deref_insert_eq, H. reflexivity. Qed.

Lemma setitem_insert (h : heap) (r : ref) (f : DataFrame) (col : string)
      (s : list num) :
  setitem r col s (<[r := f]> h)
  = Ok (tt, <[r := Frame (index f) (<[col := s]> (columns f))]> h).
Proof.
  unfold setitem. rewrite deref_insert_eq, insert_insert_eq. reflexivity.
Qed.

Lemma calculate_technical_indicators_run
      (h : heap) (data : ref) (f : DataFrame) (close : list num) :
  h !! data = Some f ->
  columns f !! "Close" = Some close ->
  Dashboard.calculate_technical_indicators sqrtQ data h
  = Ok (fresh (dom h), <[fresh (dom h) := Dashboard.enriched sqrtQ f close]> h).
Proof.
  intros Hd Hc.
  unfold Dashboard.calculate_technical_indicators, st_bind.
  unfold copy at 1. unfold deref at 1. rewrite Hd. cbn [default].
  destruct f as [idx cols]. cbn [columns index] in *.
  repeat first
    [ rewrite setitem_insert; cbn [columns index]
    | erewrite getitem_insert
        by (cbn [columns]; simplify_map_eq; reflexivity) ].
  reflexivity.
Qed.

Lemma roll_mean_loop_length (w minp : nat) (values rest : list num) :
  forall i st, length (roll_mean_loop w minp values i rest st) = length rest.
Proof.
  induction rest as [|x rest IH]; intros i st; simpl; [reflexivity|].
  rewrite IH. reflexivity.
Qed.

Lemma rolling_mean_length (w : nat) (values : list num) :
  length (rolling_mean w values) = length values.
Proof.
  unfold rolling_mean. cbv zeta.
  rewrite roll_mean_loop_length. apply prep_values_length.
Qed.

Lemma rolling_std_length (w : nat) (values : list num) :
  length (rolling_std sqrtQ w values) = length values.
Proof. apply length_imap. Qed.

Lemma ewm_loop_length (alpha : Q) (rest : list num) :
  forall st, length (ewm_loop alpha st rest) = length rest.
Proof.
  induction rest as [|x rest IH]; intros st; simpl; [reflexivity|].
  rewrite IH. reflexivity.
Qed.

Lemma ewm_mean_length (span : Q) (values : list num) :
  length (ewm_mean span values) = length values.
Proof.
  unfold ewm_mean. rewrite <- (prep_values_length values).
  destruct (prep_values values) as [|v0 rest]; simpl; [reflexivity|].
  rewrite ewm_loop_length. reflexivity.
Qed.

Lemma diff_length (s : list num) : length (diff s) = length s.
Proof.
  destruct s as [|x t]; [reflexivity|].
  unfold diff. cbn [length]. rewrite length_zip_with. cbn [length]. lia.
Qed.

Lemma where_length (s : list num) (cond : list bool) (other : num) :
  length cond = length s -> length (where_ s cond other) = length s.
Proof. intros H. unfold where_. rewrite length_zip_with. lia. Qed.

Ltac series_length :=
  repeat first
    [ rewrite length_map
    | rewrite length_zip_with
    | rewrite rolling_mean_length
    | rewrite rolling_std_length
    | rewrite ewm_mean_length
    | rewrite diff_length ];
  try lia.

Lemma derived_length (close : list num) (col : string) (s : list num) :
  In (col, s) (Dashboard.derived sqrtQ close) -> length s = length close.
Proof.
  unfold Dashboard.derived. simpl.
  intros H. repeat (destruct H as [[= <- <-]|H]); try contradiction;
    unfold Dashboard.MA_5, Dashboard.MA_20, Dashboard.MA_50, Dashboard.RSI,
      Dashboard.rs, Dashboard.gain, Dashboard.loss,
      Dashboard.BB_Upper, Dashboard.BB_Lower, Dashboard.BB_Middle,
      Dashboard.bb_std, Dashboard.MACD_Histogram, Dashboard.MACD_Signal,
      Dashboard.MACD, Dashboard.exp1, Dashboard.exp2,
      series_div, series_add, series_sub, series_mul_scalar, series_neg,
      where_, series_gt, series_lt;
    series_length.
Qed.

Lemma enriched_lookup_derived (f : DataFrame) (close : list num)
      (col : string) (s : list num) :
  In (col, s) (Dashboard.derived sqrtQ close) ->
  columns (Dashboard.enriched sqrtQ f close) !! col = Some s.
Proof.
  unfold Dashboard.enriched, Dashboard.derived. simpl.
  intros H. repeat (destruct H as [[= <- <-]|H]); try contradiction;
    simplify_map_eq; reflexivity.
Qed.

Lemma enriched_lookup_other (f : DataFrame) (close : list num) (col : string) :
  ~ In col (map fst (Dashboard.derived sqrtQ close)) ->
  columns (Dashboard.enriched sqrtQ f close) !! col = columns f !! col.
Proof.
  unfold Dashboard.enriched, Dashboard.derived. simpl. intros H.
  repeat (rewrite lookup_insert_ne by (intros <-; apply H; tauto)).
  reflexivity.
Qed.

Lemma enriched_lookup_inv (f : DataFrame) (close : list num)
      (col : string) (s : list num) :
  columns (Dashboard.enriched sqrtQ f close) !! col = Some s ->
  In (col, s) (Dashboard.derived sqrtQ close) \/ columns f !! col = Some s.
Proof.
  unfold Dashboard.enriched, Dashboard.derived. simpl. intros H.
  repeat (apply lookup_insert_Some in H as [[<- <-]|[_ H]]; [tauto|]).
  right. exact H.
Qed.

Lemma enriched_wf (f : DataFrame) (close : list num) :
  frame_wf f -> columns f !! "Close" = Some close ->
  frame_wf (Dashboard.enriched sqrtQ f close).
Proof.
  intros Hwf Hc col s H.
  change (index (Dashboard.enriched sqrtQ f close)) with (index f).
  apply enriched_lookup_inv in H as [H|H].
  - rewrite (derived_length _ _ _ H). apply (Hwf _ _ Hc).
  - apply (Hwf _ _ H).
Qed.

(** C9.  The method works on a copy: after the call the frame behind
    [data] is what it was, no other object of the store has changed, and
    the result is a new frame with the index of the input, in which every
    column (the input's and the ten derived ones) has one value per index
    entry; the columns of the input that are not overwritten are carried
    over.  The result frame is a function of the input frame alone: the
    same frame, in any store and behind any reference, gives the same
    result. *)
Theorem calculate_technical_indicators_pure
        (h : heap) (data : ref) (f : DataFrame) (close : list num) :
  h !! data = Some f ->
  frame_wf f ->
  columns f !! "Close" = Some close ->
  exists (df : ref) (h' : heap) (out : DataFrame),
    Dashboard.calculate_technical_indicators sqrtQ data h = Ok (df, h')
    /\ h !! df = None
    /\ h' !! data = Some f
    /\ (forall r : ref, r <> df -> h' !! r = h !! r)
    /\ h' !! df = Some out
    /\ index out = index f
    /\ frame_wf out
    /\ (forall col s, columns f !! col = Some s ->
                      ~ In col (map fst (Dashboard.derived sqrtQ close)) ->
                      columns out !! col = Some s)
    /\ (forall col s, In (col, s) (Dashboard.derived sqrtQ close) ->
                      columns out !! col = Some s /\ length s = length close)
    /\ (forall (h2 : heap) (data2 : ref),
           h2 !! data2 = Some f ->
           exists df2 h2',
             Dashboard.calculate_technical_indicators sqrtQ data2 h2
             = Ok (df2, h2')
             /\ h2' !! df2 = Some out).
Proof.
  intros Hd Hwf Hc.
  assert (Hfresh : h !! fresh (dom h) = None)
    by (apply not_elem_of_dom, is_fresh).
  exists (fresh (dom h)), (<[fresh (dom h) := Dashboard.enriched sqrtQ f close]> h),
    (Dashboard.enriched sqrtQ f close).
  split; [apply calculate_technical_indicators_run; assumption|].
  split; [exact Hfresh|].
  split; [rewrite lookup_insert_ne
            by congruence; exact Hd|].
  split; [intros r Hr; apply lookup_insert_ne; congruence|].
  split; [apply lookup_insert_eq|].
  split; [reflexivity|].
  split; [apply enriched_wf; assumption|].
  split; [intros col s Hs Hn; rewrite enriched_lookup_other by exact Hn; exact Hs|].
  split; [intros col s Hin; split;
          [apply enriched_lookup_derived, Hin | eapply derived_length, Hin]|].
  intros h2 data2 Hd2.
  exists (fresh (dom h2)), (<[fresh (dom h2) := Dashboard.enriched sqrtQ f close]> h2).
  split; [apply calculate_technical_indicators_run; assumption|].
  apply lookup_insert_eq.
Qed.
End Run.

(** ** Insufficient history *)

Lemma roll_mean_loop_warmup (w minp : nat) (values rest : list num) :
  forall i st k,
    (nobs st <= i)%nat ->
    (S (i + k) < minp)%nat ->
    (k < length rest)%nat ->
    roll_mean_loop w minp values i rest st !! k = Some NaN.
Proof.
  induction rest as [|x rest IH]; intros i st k Hn Hlt Hk.
  - simpl in Hk. lia.
  - cbn [roll_mean_loop].
    set (st1 := if (w <=? i)%nat
                then remove_mean (nth (i - w) values NaN) st else st).
    set (st2 := add_mean x st1).
    assert (H1 : (nobs st1 <= i)%nat).
    { subst st1. destruct (w <=? i)%nat; [|exact Hn].
      unfold remove_mean. destruct (is_nan _); cbn [nobs]; lia. }
    assert (H2 : (nobs st2 <= S i)%nat).
    { subst st2. unfold add_mean. destruct (is_nan x); cbn [nobs]; lia. }
    destruct k as [|k].
    + cbn [lookup list_lookup]. f_equal. unfold calc_mean.
      assert ((minp <=? nobs st2)%nat = false) as -> by (apply Nat.leb_gt; lia).
      reflexivity.
    + cbn [lookup list_lookup]. simpl in Hk.
      apply IH; [exact H2 | lia | lia].
Qed.

Lemma rolling_mean_warmup (w : nat) (values : list num) (i : nat) :
  (S i < w)%nat -> (i < length values)%nat ->
  rolling_mean w values !! i = Some NaN.
Proof.
  intros Hlt Hi. unfold rolling_mean. cbv zeta.
  apply roll_mean_loop_warmup; cbn [nobs]; try rewrite prep_values_length; lia.
Qed.

Lemma trailing_length (w i : nat) (values : list num) :
  (i < length values)%nat ->
  length (trailing w i values) = Nat.min (S i) w.
Proof.
  intros Hi. unfold trailing. rewrite length_drop, length_take. lia.
Qed.

Lemma rolling_std_warmup (sqrtQ : Q -> Q) (w : nat) (values : list num) (i : nat) :
  (S i < w)%nat -> (i < length values)%nat ->
  rolling_std sqrtQ w values !! i = Some NaN.
Proof.
  intros Hlt Hi. unfold rolling_std.
  rewrite list_lookup_imap.
  destruct (lookup_lt_is_Some_2 values i Hi) as [x ->]. cbn [fmap option_fmap option_map].
  f_equal. unfold window_std. rewrite trailing_length by exact Hi.
  assert ((Nat.min (S i) w <? w)%nat = true) as -> by (apply Nat.ltb_lt; lia).
  reflexivity.
Qed.

Section Warmup.
Variable sqrtQ : Q -> Q.

Lemma RSI_warmup (close : list num) (i : nat) :
  (i < 13)%nat -> (i < length close)%nat ->
  Dashboard.RSI close !! i = Some NaN.
Proof.
  intros Hlt Hi.
  unfold Dashboard.RSI, Dashboard.rs, Dashboard.gain, Dashboard.loss, series_div.
  rewrite list_lookup_fmap, lookup_zip_with.
  rewrite !rolling_mean_warmup; try lia; try reflexivity;
    unfold series_neg, series_gt, series_lt;
    rewrite ?length_map, where_length, diff_length
      by (rewrite length_map; reflexivity);
    lia.
Qed.

Lemma bollinger_warmup (close : list num) (i : nat) :
  (i < 19)%nat -> (i < length close)%nat ->
  Dashboard.BB_Middle close !! i = Some NaN
  /\ Dashboard.BB_Upper sqrtQ close !! i = Some NaN
  /\ Dashboard.BB_Lower sqrtQ close !! i = Some NaN.
Proof.
  intros Hlt Hi.
  unfold Dashboard.BB_Upper, Dashboard.BB_Lower, Dashboard.bb_std,
    Dashboard.BB_Middle, series_add, series_sub, series_mul_scalar.
  rewrite !lookup_zip_with, !list_lookup_fmap.
  rewrite !rolling_mean_warmup, !rolling_std_warmup by lia.
  repeat split; reflexivity.
Qed.

(** C6.  While fewer than [window] trailing bars are available, every
    windowed indicator holds NaN, the "not available" marker, and never a
    number: MA_5 before index 4, MA_20 and the three Bollinger bands
    before index 19, MA_50 before index 49, RSI before index 13.  A series
    shorter than the window has nothing else in that column.  This holds
    for every ['Close'] column, NaN or infinite values included. *)
Theorem insufficient_history_is_nan (close : list num) (i : nat) :
  (i < length close)%nat ->
  ((i < 4)%nat -> Dashboard.MA_5 close !! i = Some NaN)
  /\ ((i < 19)%nat ->
      Dashboard.MA_20 close !! i = Some NaN
      /\ Dashboard.BB_Middle close !! i = Some NaN
      /\ Dashboard.BB_Upper sqrtQ close !! i = Some NaN
      /\ Dashboard.BB_Lower sqrtQ close !! i = Some NaN)
  /\ ((i < 49)%nat -> Dashboard.MA_50 close !! i = Some NaN)
  /\ ((i < 13)%nat -> Dashboard.RSI close !! i = Some NaN).
Proof.
  intros Hi. split; [|split; [|split]]; intros Hlt.
  - apply rolling_mean_warmup; lia.
  - split; [apply rolling_mean_warmup; lia | apply bollinger_warmup; lia].
  - apply rolling_mean_warmup; lia.
  - apply RSI_warmup; lia.
Qed.
End Warmup.

(** ** Gains and losses of a finite series *)

Lemma zip_with_sub_Fin (l1 l2 : list Q) :
  zip_with (fun prev cur => num_sub cur prev) (map Fin l1) (map Fin l2)
  = map Fin (zip_with (fun prev cur => cur - prev) l1 l2).
Proof.
  revert l2. induction l1 as [|a l1 IH]; intros [|b l2]; try reflexivity.
  cbn [map zip_with]. rewrite IH. reflexivity.
Qed.

Lemma where_gt_Fin (ds : list Q) :
  where_ (map Fin ds) (series_gt (map Fin ds) (Fin 0)) (Fin 0)
  = map Fin (map gainQ ds).
Proof.
  unfold where_, series_gt.
  induction ds as [|d ds IH]; [reflexivity|].
  cbn [map zip_with]. rewrite IH. f_equal.
  unfold gainQ, num_gt, num_lt. destruct (Qlt_bool 0 d); reflexivity.
Qed.

Lemma where_lt_Fin (ds : list Q) :
  series_neg (where_ (map Fin ds) (series_lt (map Fin ds) (Fin 0)) (Fin 0))
  = map Fin (map lossQ ds).
Proof.
  unfold where_, series_lt, series_neg.
  induction ds as [|d ds IH]; [reflexivity|].
  cbn [map zip_with]. rewrite IH. f_equal.
  unfold lossQ, num_lt. destruct (Qlt_bool d 0); reflexivity.
Qed.

Lemma gain_raw_finite (qs : list Q) :
  let delta := diff (map Fin qs) in
  where_ delta (series_gt delta (Fin 0)) (Fin 0) = map Fin (map gainQ (deltaQ qs)).
Proof.
  destruct qs as [|q t]; [reflexivity|].
  cbn zeta. unfold diff, deltaQ. cbn [map].
  change (Fin q :: map Fin t) with (map Fin (q :: t)).
  rewrite (zip_with_sub_Fin (q :: t) t).
  unfold where_, series_gt. cbn [map zip_with]. f_equal.
  apply where_gt_Fin.
Qed.

Lemma loss_raw_finite (qs : list Q) :
  let delta := diff (map Fin qs) in
  series_neg (where_ delta (series_lt delta (Fin 0)) (Fin 0))
  = map Fin (map lossQ (deltaQ qs)).
Proof.
  destruct qs as [|q t]; [reflexivity|].
  cbn zeta. unfold diff, deltaQ. cbn [map].
  change (Fin q :: map Fin t) with (map Fin (q :: t)).
  rewrite (zip_with_sub_Fin (q :: t) t).
  unfold where_, series_lt, series_neg. cbn [map zip_with]. f_equal.
  apply where_lt_Fin.
Qed.

Lemma deltaQ_length (qs : list Q) : length (deltaQ qs) = length qs.
Proof.
  destruct qs as [|q t]; [reflexivity|].
  unfold deltaQ. cbn [length]. rewrite length_zip_with. cbn [length]. lia.
Qed.

Lemma deltaQ_lookup_0 (qs : list Q) (d : Q) :
  deltaQ qs !! 0%nat = Some d -> d = 0.
Proof. destruct qs; simpl; congruence. Qed.

Lemma deltaQ_lookup_S (qs : list Q) (j : nat) (d : Q) :
  deltaQ qs !! S j = Some d ->
  exists a b, qs !! j = Some a /\ qs !! S j = Some b /\ d = b - a.
Proof.
  destruct qs as [|q t]; [discriminate|].
  unfold deltaQ. intros H.
  change (zip_with (fun prev cur => cur - prev) (q :: t) t !! j = Some d) in H.
  apply lookup_zip_with_Some in H as (a & b & -> & Ha & Hb).
  exists a, b. repeat split; assumption.
Qed.

Lemma gainQ_nonneg (d : Q) : 0 <= gainQ d.
Proof.
  unfold gainQ. destruct (Qlt_bool 0 d) eqn:E.
  - apply Qlt_le_weak, Qlt_bool_iff, E.
  - apply Qle_refl.
Qed.

Lemma lossQ_nonneg (d : Q) : 0 <= lossQ d.
Proof.
  unfold lossQ. destruct (Qlt_bool d 0) eqn:E.
  - apply Qlt_bool_iff in E. lra.
  - lra.
Qed.

Lemma gainQ_pos (d : Q) : 0 < d -> gainQ d = d /\ lossQ d == 0.
Proof.
  intros H. unfold gainQ, lossQ.
  assert (Qlt_bool 0 d = true) as -> by (apply Qlt_bool_iff, H).
  assert (Qlt_bool d 0 = false) as -> by (apply Qlt_bool_false_iff; lra).
  split; [reflexivity | lra].
Qed.

Lemma lossQ_pos (d : Q) : d < 0 -> gainQ d = 0 /\ lossQ d = - d.
Proof.
  intros H. unfold gainQ, lossQ.
  assert (Qlt_bool 0 d = false) as -> by (apply Qlt_bool_false_iff; lra).
  assert (Qlt_bool d 0 = true) as -> by (apply Qlt_bool_iff, H).
  split; reflexivity.
Qed.

Lemma Qsum_nonneg (l : list Q) : Forall (fun x => 0 <= x) l -> 0 <= Qsum l.
Proof.
  induction 1 as [|x l Hx Hl IH]; simpl; [lra|]. lra.
Qed.

Lemma Qsum_zero (l : list Q) : Forall (fun x => x == 0) l -> Qsum l == 0.
Proof.
  induction 1 as [|x l Hx Hl IH]; simpl; [reflexivity|]. lra.
Qed.

Lemma Qsum_pos (l : list Q) (k : nat) (x : Q) :
  Forall (fun x => 0 <= x) l -> l !! k = Some x -> 0 < x -> 0 < Qsum l.
Proof.
  intros Hall. revert k. induction Hall as [|y l Hy Hl IH]; intros k Hk Hx.
  - discriminate.
  - destruct k as [|k]; simpl in *.
    + injection Hk as ->. pose proof (Qsum_nonneg l Hl). lra.
    + specialize (IH k Hk Hx). lra.
Qed.

Lemma Forall_window {A : Type} (P : A -> Prop) (l : list A) (a w : nat) :
  (forall j x, (a <= j < a + w)%nat -> l !! j = Some x -> P x) ->
  Forall P (take w (drop a l)).
Proof.
  intros H. apply Forall_lookup_2. intros k x Hk.
  apply lookup_take_Some in Hk as [Hk Hlt].
  rewrite lookup_drop in Hk. apply (H (a + k)%nat); [lia | exact Hk].
Qed.

(** ** RSI *)

(** The last step of the RSI, on an average gain [g] and an average loss
    [l] that are finite and not negative. *)
Lemma rsi_value (g l : Q) (v : num) :
  0 <= g -> 0 <= l ->
  v = num_sub (Fin 100)
        (num_div (Fin 100) (num_add (Fin 1) (num_div (Fin g) (Fin l)))) ->
  (v = NaN /\ g == 0 /\ l == 0)
  \/ (exists r, v = Fin r /\ 0 <= r <= 100
                /\ (l == 0 -> r == 100) /\ (g == 0 -> r == 0)).
Proof.
  intros Hg Hl ->. cbn [num_div].
  destruct (Qeq_bool l 0) eqn:El.
  - apply Qeq_bool_iff in El.
    destruct (Qeq_bool g 0) eqn:Eg.
    + left. apply Qeq_bool_iff in Eg. cbn. auto.
    + right. apply Qeq_bool_false_iff in Eg.
      assert (Hpos : 0 < g).
      { destruct (Qle_lt_or_eq _ _ Hg) as [H|H]; [exact H|].
        exfalso. apply Eg. symmetry. exact H. }
      assert (Qlt_bool 0 g = true) as -> by (apply Qlt_bool_iff, Hpos).
      cbn. exists (100 + - 0). split; [reflexivity|].
      repeat split; try lra; intros H; contradiction.
  - apply Qeq_bool_false_iff in El.
    assert (Hpos : 0 < l).
    { destruct (Qle_lt_or_eq _ _ Hl) as [H|H]; [exact H|].
      exfalso. apply El. symmetry. exact H. }
    cbn [num_add].
    assert (Hx : 0 <= g / l) by (apply Qle_shift_div_l; lra).
    cbn [num_div].
    assert (Qeq_bool (1 + g / l) 0 = false) as ->
        by (apply Qeq_bool_false_iff; lra).
    cbn [num_sub num_neg num_add].
    right. exists (100 + - (100 / (1 + g / l))). split; [reflexivity|].
    assert (Hy0 : 0 <= 100 / (1 + g / l)) by (apply Qle_shift_div_l; lra).
    assert (Hy1 : 100 / (1 + g / l) <= 100) by (apply Qle_shift_div_r; lra).
    split; [split; lra|]. split.
    + intros H. contradiction.
    + intros Hg0. rewrite Hg0. field. exact El.
Qed.

Lemma rolling_mean_valid (w : nat) (qs : list Q) (i : nat) :
  (1 <= w)%nat -> (w <= S i)%nat -> (i < length qs)%nat ->
  exists m, rolling_mean w (map Fin qs) !! i = Some (Fin m)
            /\ m == Qsum (take w (drop (S i - w) qs)) / Qnat w.
Proof.
  intros Hw Hwi Hi.
  destruct (rolling_mean_lookup w qs i Hw Hi) as (v & Hv & Ev).
  unfold Spec.simple_moving_average in Ev.
  assert ((S i <? w)%nat = false) as E by (apply Nat.ltb_ge; lia).
  rewrite E in Ev. destruct v as [m| | |]; try contradiction.
  exists m. split; [exact Hv | exact Ev].
Qed.

Lemma Qnat_14 : Qnat 14 == 14.
Proof. reflexivity. Qed.

Section RSI.

Variable closes : list Q.
Variable i : nat.
Hypothesis Hi : (i < length closes)%nat.
Hypothesis Hw : (13 <= i)%nat.

Lemma rsi_window_nonneg :
  Forall (fun x => 0 <= x) (gain_window closes i)
  /\ Forall (fun x => 0 <= x) (loss_window closes i).
Proof using Type.
  split; apply Forall_window; intros j x _ Hx;
    apply list_lookup_fmap_Some in Hx as (d & -> & _).
  - apply gainQ_nonneg.
  - apply lossQ_nonneg.
Qed.

Lemma rsi_last_delta :
  exists j a b, i = S j /\ closes !! j = Some a /\ closes !! S j = Some b
                /\ deltaQ closes !! i = Some (b - a).
Proof using Hi Hw.
  destruct i as [|j]; [lia|].
  destruct (lookup_lt_is_Some_2 closes j ltac:(lia)) as [a Ha].
  destruct (lookup_lt_is_Some_2 closes (S j) Hi) as [b Hb].
  exists j, a, b. repeat split; try assumption.
  destruct (lookup_lt_is_Some_2 (deltaQ closes) (S j)
              ltac:(rewrite deltaQ_length; exact Hi)) as [d Hd].
  destruct (deltaQ_lookup_S _ _ _ Hd) as (a' & b' & Ha' & Hb' & ->).
  congruence.
Qed.

Lemma rsi_all_gains :
  (forall j a b, (i - 13 <= S j <= i)%nat ->
                 closes !! j = Some a -> closes !! S j = Some b -> a < b) ->
  Qsum (loss_window closes i) == 0 /\ 0 < Qsum (gain_window closes i).
Proof using Hi Hw.
  intros Hup. split.
  - apply Qsum_zero, Forall_window. intros j x Hj Hx.
    apply list_lookup_fmap_Some in Hx as (d & -> & Hd).
    destruct j as [|j].
    + apply deltaQ_lookup_0 in Hd as ->. reflexivity.
    + destruct (deltaQ_lookup_S _ _ _ Hd) as (a & b & Ha & Hb & ->).
      apply gainQ_pos. specialize (Hup j a b ltac:(lia) Ha Hb). lra.
  - destruct rsi_last_delta as (j & a & b & Ej & Ha & Hb & Hd).
    apply (Qsum_pos (gain_window closes i) 13 (b - a)).
    + apply rsi_window_nonneg.
    + unfold gain_window. rewrite lookup_take_lt by lia. rewrite lookup_drop.
      replace (S i - 14 + 13)%nat with i by lia.
      rewrite list_lookup_fmap, Hd. cbn.
      f_equal. apply gainQ_pos. specialize (Hup j a b ltac:(lia) Ha Hb). lra.
    + specialize (Hup j a b ltac:(lia) Ha Hb). lra.
Qed.

Lemma rsi_all_losses :
  (forall j a b, (i - 13 <= S j <= i)%nat ->
                 closes !! j = Some a -> closes !! S j = Some b -> b < a) ->
  Qsum (gain_window closes i) == 0 /\ 0 < Qsum (loss_window closes i).
Proof using Hi Hw.
  intros Hdown. split.
  - apply Qsum_zero, Forall_window. intros j x Hj Hx.
    apply list_lookup_fmap_Some in Hx as (d & -> & Hd).
    destruct j as [|j].
    + apply deltaQ_lookup_0 in Hd as ->. reflexivity.
    + destruct (deltaQ_lookup_S _ _ _ Hd) as (a & b & Ha & Hb & ->).
      specialize (Hdown j a b ltac:(lia) Ha Hb).
      destruct (lossQ_pos (b - a) ltac:(lra)) as [-> _]. reflexivity.
  - destruct rsi_last_delta as (j & a & b & Ej & Ha & Hb & Hd).
    specialize (Hdown j a b ltac:(lia) Ha Hb).
    apply (Qsum_pos (loss_window closes i) 13 (- (b - a))).
    + apply rsi_window_nonneg.
    + unfold loss_window. rewrite lookup_take_lt by lia. rewrite lookup_drop.
      replace (S i - 14 + 13)%nat with i by lia.
      rewrite list_lookup_fmap, Hd. cbn.
      f_equal. apply lossQ_pos. lra.
    + lra.
Qed.

(** The RSI at a valid index: the last step applied to the means of the
    two windows. *)
Lemma RSI_valid :
  exists g l,
    g == Qsum (gain_window closes i) / 14
    /\ l == Qsum (loss_window closes i) / 14
    /\ Dashboard.RSI (map Fin closes) !! i
       = Some (num_sub (Fin 100)
                 (num_div (Fin 100)
                    (num_add (Fin 1) (num_div (Fin g) (Fin l))))).
Proof using Hi Hw.
  destruct (rolling_mean_valid 14 (map gainQ (deltaQ closes)) i
              ltac:(lia) ltac:(lia)
              ltac:(rewrite length_map, deltaQ_length; exact Hi))
    as (g & Hg & Eg).
  destruct (rolling_mean_valid 14 (map lossQ (deltaQ closes)) i
              ltac:(lia) ltac:(lia)
              ltac:(rewrite length_map, deltaQ_length; exact Hi))
    as (l & Hl & El).
  exists g, l. split; [rewrite Eg, Qnat_14; reflexivity|].
  split; [rewrite El, Qnat_14; reflexivity|].
  unfold Dashboard.RSI, Dashboard.rs, Dashboard.gain, Dashboard.loss, series_div.
  cbn zeta. rewrite gain_raw_finite, loss_raw_finite.
  rewrite list_lookup_fmap, lookup_zip_with.
  rewrite Hg, Hl. reflexivity.
Qed.

End RSI.

Lemma RSI_length (close : list num) :
  length (Dashboard.RSI close) = length close.
Proof.
  apply (derived_length (fun q => q) close "RSI").
  unfold Dashboard.derived. simpl. tauto.
Qed.

(** C1.  On every series of closes the RSI is, at every index, either NaN
    (not defined) or a number between 0 and 100: the quotient
    avg_gain / avg_loss never raises and never leaves an infinity behind.
    From index 13 on, when every bar-to-bar change in the 14-bar window is
    a gain (so that the average loss is 0) the RSI is 100, and when every
    change in the window is a loss the RSI is 0. *)
Theorem rsi_bounded_and_saturating (closes : list Q) (i : nat) (v : num) :
  Dashboard.RSI (map Fin closes) !! i = Some v ->
  (v = NaN \/ exists r, v = Fin r /\ 0 <= r <= 100)
  /\ ((13 <= i)%nat ->
      (forall j a b, (i - 13 <= S j <= i)%nat ->
                     closes !! j = Some a -> closes !! S j = Some b -> a < b) ->
      v =n= Fin 100)
  /\ ((13 <= i)%nat ->
      (forall j a b, (i - 13 <= S j <= i)%nat ->
                     closes !! j = Some a -> closes !! S j = Some b -> b < a) ->
      v =n= Fin 0).
Proof.
  intros Hv.
  assert (Hi : (i < length closes)%nat).
  { apply lookup_lt_Some in Hv. rewrite RSI_length, length_map in Hv. exact Hv. }
  destruct (Nat.lt_ge_cases i 13) as [Hlt|Hge].
  - rewrite RSI_warmup in Hv by (rewrite ?length_map; lia).
    injection Hv as <-. split; [left; reflexivity|]. split; intros; lia.
  - destruct (RSI_valid closes i Hi Hge) as (g & l & Eg & El & Hrsi).
    rewrite Hrsi in Hv.
    assert (Ev : v = num_sub (Fin 100)
                       (num_div (Fin 100)
                          (num_add (Fin 1) (num_div (Fin g) (Fin l)))))
      by congruence.
    clear Hv Hrsi.
    destruct (rsi_window_nonneg closes i) as [Hng Hnl].
    apply Qsum_nonneg in Hng, Hnl.
    assert (Hg : 0 <= g) by (rewrite Eg; apply Qle_shift_div_l; lra).
    assert (Hl : 0 <= l) by (rewrite El; apply Qle_shift_div_l; lra).
    destruct (rsi_value g l v Hg Hl Ev)
      as [(-> & Hg0 & Hl0)|(r & -> & Hr & H100 & H0)]; clear Ev.
    + split; [left; reflexivity|]. split; intros _ Hwin; exfalso.
      * destruct (rsi_all_gains closes i Hi Hge Hwin) as [_ Hpos].
        rewrite Hg0 in Eg. clear - Eg Hpos.
        set (x := Qsum _) in *. clearbody x.
        assert (Hx : x == 0)
          by (rewrite <- (Qmult_div_r x 14) by discriminate; rewrite <- Eg; ring).
        rewrite Hx in Hpos. exact (Qlt_irrefl _ Hpos).
      * destruct (rsi_all_losses closes i Hi Hge Hwin) as [_ Hpos].
        rewrite Hl0 in El. clear - El Hpos.
        set (x := Qsum _) in *. clearbody x.
        assert (Hx : x == 0)
          by (rewrite <- (Qmult_div_r x 14) by discriminate; rewrite <- El; ring).
        rewrite Hx in Hpos. exact (Qlt_irrefl _ Hpos).
    + split; [right; exists r; split; [reflexivity | exact Hr]|].
      split; intros _ Hwin; cbn [num_equiv].
      * destruct (rsi_all_gains closes i Hi Hge Hwin) as [Hz _].
        apply H100. rewrite El, Hz. reflexivity.
      * destruct (rsi_all_losses closes i Hi Hge Hwin) as [Hz _].
        apply H0. rewrite Eg, Hz. reflexivity.
Qed.


Lemma gainQ_zero (d : Q) : d == 0 -> gainQ d == 0 /\ lossQ d == 0.
Proof.
  intros H. unfold gainQ, lossQ.
  assert (Qlt_bool 0 d = false) as -> by (apply Qlt_bool_false_iff; lra).
  assert (Qlt_bool d 0 = false) as -> by (apply Qlt_bool_false_iff; lra).
  split; lra.
Qed.

(** A window without any change has neither gains nor losses: the RSI is
    0/0 there, and the column holds NaN. *)
Lemma rsi_flat_window_is_nan (closes : list Q) (i : nat) :
  (13 <= i)%nat -> (i < length closes)%nat ->
  (forall j a b, (i - 13 <= S j <= i)%nat ->
                 closes !! j = Some a -> closes !! S j = Some b -> a == b) ->
  Dashboard.RSI (map Fin closes) !! i = Some NaN.
Proof.
  intros Hge Hi Hflat.
  destruct (RSI_valid closes i Hi Hge) as (g & l & Eg & El & ->).
  assert (Hz : forall f, (forall d, d == 0 -> f d == 0) ->
                         Qsum (take 14 (drop (S i - 14) (map f (deltaQ closes)))) == 0).
  { intros f Hf. apply Qsum_zero, Forall_window. intros j x Hj Hx.
    apply list_lookup_fmap_Some in Hx as (d & -> & Hd). apply Hf.
    destruct j as [|j].
    - apply deltaQ_lookup_0 in Hd as ->. reflexivity.
    - destruct (deltaQ_lookup_S _ _ _ Hd) as (a & b & Ha & Hb & ->).
      specialize (Hflat j a b ltac:(lia) Ha Hb). lra. }
  assert (Hg : g == 0).
  { rewrite Eg. unfold gain_window. rewrite (Hz gainQ); [reflexivity|].
    intros d Hd. apply gainQ_zero, Hd. }
  assert (Hl : l == 0).
  { rewrite El. unfold loss_window. rewrite (Hz lossQ); [reflexivity|].
    intros d Hd. apply gainQ_zero, Hd. }
  apply Qeq_bool_iff in Hg, Hl. cbn [num_div]. rewrite Hg, Hl. reflexivity.
Qed.

(** The RSI is a number as soon as the window holds one change: from index
    13 on, that is with 14 closes and 13 differences behind it (the leading
    NaN difference enters both averages as 0). *)
Lemma rsi_available_from_index_13 (closes : list Q) (i j : nat) (a b : Q) :
  (13 <= i)%nat -> (i < length closes)%nat ->
  (i - 13 <= S j <= i)%nat ->
  closes !! j = Some a -> closes !! S j = Some b -> ~ a == b ->
  exists r, Dashboard.RSI (map Fin closes) !! i = Some (Fin r)
            /\ 0 <= r <= 100.
Proof.
  intros Hge Hi Hj Ha Hb Hne.
  destruct (RSI_valid closes i Hi Hge) as (g & l & Eg & El & ->).
  destruct (rsi_window_nonneg closes i) as [Hng Hnl].
  pose proof (Qsum_nonneg _ Hng) as Hsg. pose proof (Qsum_nonneg _ Hnl) as Hsl.
  assert (Hg : 0 <= g) by (rewrite Eg; apply Qle_shift_div_l; lra).
  assert (Hl : 0 <= l) by (rewrite El; apply Qle_shift_div_l; lra).
  destruct (rsi_value g l _ Hg Hl eq_refl)
    as [(_ & Hg0 & Hl0)|(r & -> & Hr & _)]; [exfalso | eauto].
  assert (Hd : deltaQ closes !! S j = Some (b - a)).
  { destruct (lookup_lt_is_Some_2 (deltaQ closes) (S j)
                ltac:(rewrite deltaQ_length; lia)) as [d Hd].
    destruct (deltaQ_lookup_S _ _ _ Hd) as (a' & b' & Ha' & Hb' & ->).
    congruence. }
  assert (Hk : forall f : Q -> Q, map f (deltaQ closes) !! (S i - 14 + (S j + 13 - i))%nat
                         = Some (f (b - a))).
  { intros f. replace (S i - 14 + (S j + 13 - i))%nat with (S j) by lia.
    rewrite list_lookup_fmap, Hd. reflexivity. }
  destruct (Q_dec a b) as [[Hlt|Hgt]|Heq]; [| |contradiction].
  - assert (0 < Qsum (gain_window closes i)).
    { apply (Qsum_pos _ (S j + 13 - i) (b - a) Hng); [|lra].
      unfold gain_window. rewrite lookup_take_lt by lia. rewrite lookup_drop, Hk.
      f_equal. apply gainQ_pos. lra. }
    rewrite Hg0 in Eg.
    assert (Qsum (gain_window closes i) == 0)
      by (rewrite <- (Qmult_div_r (Qsum (gain_window closes i)) 14)
            by discriminate; rewrite <- Eg; ring).
    lra.
  - assert (0 < Qsum (loss_window closes i)).
    { apply (Qsum_pos _ (S j + 13 - i) (- (b - a)) Hnl); [|lra].
      unfold loss_window. rewrite lookup_take_lt by lia. rewrite lookup_drop, Hk.
      f_equal. apply lossQ_pos. lra. }
    rewrite Hl0 in El.
    assert (Qsum (loss_window closes i) == 0)
      by (rewrite <- (Qmult_div_r (Qsum (loss_window closes i)) 14)
            by discriminate; rewrite <- El; ring).
    lra.
Qed.

(** ** Moving averages *)

Lemma Qsum_const (v : Q) (l : list Q) :
  Forall (fun x => x == v) l -> Qsum l == Qnat (length l) * v.
Proof.
  induction 1 as [|x l Hx Hl IH].
  - simpl. unfold Qnat. simpl. ring.
  - cbn [Qsum foldr length]. fold (Qsum l). rewrite IH, Hx.
    unfold Qnat. rewrite Nat2Z.inj_succ, <- Z.add_1_r, inject_Z_plus. ring.
Qed.

(** C8.  The simple moving average with window [w] holds, at every index
    [i >= w - 1], the arithmetic mean of the [w] closes ending at [i]
    (closes[i-w+1..i]); over a window whose closes all equal [v] it is [v].
    MA_5, MA_20, MA_50 (and BB_Middle) are this average at w = 5, 20, 50
    (and 20). *)
Theorem moving_average_is_trailing_mean (closes : list Q) (w i : nat) :
  (1 <= w)%nat -> (w - 1 <= i)%nat -> (i < length closes)%nat ->
  exists m,
    rolling_mean w (map Fin closes) !! i = Some (Fin m)
    /\ Fin m =n= Spec.simple_moving_average closes w i
    /\ m == Qsum (take w (drop (i + 1 - w) closes)) / Qnat w
    /\ (forall v, (forall j x, (i + 1 - w <= j <= i)%nat ->
                               closes !! j = Some x -> x == v) ->
                  m == v)
    /\ (Dashboard.MA_5 (map Fin closes) = rolling_mean 5 (map Fin closes)
        /\ Dashboard.MA_20 (map Fin closes) = rolling_mean 20 (map Fin closes)
        /\ Dashboard.MA_50 (map Fin closes) = rolling_mean 50 (map Fin closes)).
Proof.
  intros Hw Hwi Hi.
  destruct (rolling_mean_valid w closes i Hw ltac:(lia) Hi) as (m & Hm & Em).
  replace (S i - w)%nat with (i + 1 - w)%nat in Em by lia.
  exists m. split; [exact Hm|]. split; [|split; [exact Em|split]].
  - unfold Spec.simple_moving_average.
    assert ((S i <? w)%nat = false) as -> by (apply Nat.ltb_ge; lia).
    cbn [num_equiv]. replace (S i - w)%nat with (i + 1 - w)%nat by lia. exact Em.
  - intros v Hconst. rewrite Em.
    rewrite (Qsum_const v).
    + rewrite length_take, length_drop.
      replace (Nat.min w (length closes - (i + 1 - w))) with w by lia.
      field. apply Qnat_nonzero. lia.
    + apply Forall_window. intros j x Hj Hx. apply (Hconst j x); [lia | exact Hx].
  - repeat split.
Qed.

(** ** Bollinger bands *)

Lemma forallb_is_fin_map (qs : list Q) : forallb is_fin (map Fin qs) = true.
Proof. induction qs as [|q qs IH]; [reflexivity | exact IH]. Qed.

Lemma trailing_map_Fin (w i : nat) (qs : list Q) :
  trailing w i (map Fin qs) = map Fin (drop (S i - w) (take (S i) qs)).
Proof.
  unfold trailing.
  change (map Fin qs) with (Fin <$> qs).
  rewrite <- fmap_take, <- fmap_drop. reflexivity.
Qed.

Lemma rolling_std_valid (sqrtQ : Q -> Q) (w : nat) (qs : list Q) (i : nat) :
  (2 <= w)%nat -> (w <= S i)%nat -> (i < length qs)%nat ->
  exists s, rolling_std sqrtQ w (map Fin qs) !! i = Some (Fin s).
Proof.
  intros Hw Hwi Hi. unfold rolling_std. rewrite list_lookup_imap.
  destruct (lookup_lt_is_Some_2 (map Fin qs) i
              ltac:(rewrite length_map; exact Hi)) as [x ->].
  cbn [fmap option_fmap option_map]. unfold window_std.
  rewrite trailing_length by (rewrite length_map; exact Hi).
  assert ((Nat.min (S i) w <? w)%nat = false) as -> by (apply Nat.ltb_ge; lia).
  assert ((Nat.min (S i) w <=? 1)%nat = false) as -> by (apply Nat.leb_gt; lia).
  rewrite trailing_map_Fin, forallb_is_fin_map. cbn [orb negb].
  eexists. reflexivity.
Qed.


Section Bollinger.
Variable sqrtQ : Q -> Q.


End Bollinger.

Section Doubles.

Import PrimFloat.


End Doubles.

(** ** Exponentially weighted means *)

Lemma weight_sum_ge_1 (alpha : Q) (i : nat) :
  0 <= 1 - alpha -> 1 <= weight_sum alpha i.
Proof.
  intros Ha. induction i as [|i IH]; cbn [weight_sum]; [lra|].
  assert (0 <= (1 - alpha) * weight_sum alpha i)
    by (apply Qmult_le_0_compat; lra).
  lra.
Qed.

Lemma span_alpha (span : Q) : 1 <= span -> 0 <= 1 - 2 / (span + 1).
Proof.
  intros H.
  assert (2 / (span + 1) <= 1) by (apply Qle_shift_div_r; lra).
  lra.
Qed.

(** One step of the loop on finite values: the new mean weighs the new
    observation by 1 over the total weight. *)
Lemma ewm_step_finite (alpha e w x : Q) (i : nat) :
  0 <= 1 - alpha ->
  w == weight_sum alpha i ->
  exists e',
    ewm_step alpha (EwmState (Fin e) w (S i)) (Fin x)
    = EwmState (Fin e') (w * (1 - alpha) + 1) (S (S i))
    /\ w * (1 - alpha) + 1 == weight_sum alpha (S i)
    /\ e' == 1 / weight_sum alpha (S i) * x
             + (1 - 1 / weight_sum alpha (S i)) * e.
Proof.
  intros Ha Hw.
  pose proof (weight_sum_ge_1 alpha (S i) Ha) as Hge.
  assert (Hw' : w * (1 - alpha) + 1 == weight_sum alpha (S i))
    by (cbn [weight_sum]; rewrite Hw; ring).
  assert (Hnz : ~ weight_sum alpha (S i) == 0) by lra.
  unfold ewm_step. cbn [is_nan negb weighted old_wt ewm_nobs].
  destruct (num_ne (Fin e) (Fin x)) eqn:Ene.
  - cbn [num_mul num_add num_div].
    assert (Qeq_bool (w * (1 - alpha) + 1) 0 = false) as ->
        by (apply Qeq_bool_false_iff; lra).
    exists ((w * (1 - alpha) * e + 1 * x) / (w * (1 - alpha) + 1)).
    split; [reflexivity|]. split; [exact Hw'|].
    assert (Hw1 : w * (1 - alpha) == weight_sum alpha (S i) - 1)
      by (rewrite <- Hw'; ring).
    rewrite Hw', Hw1. field. exact Hnz.
  - exists e. split; [reflexivity|]. split; [exact Hw'|].
    unfold num_ne in Ene. apply negb_false_iff in Ene. cbn in Ene.
    apply Qeq_bool_iff in Ene. rewrite <- Ene. field. exact Hnz.
Qed.

Lemma ewm_loop_finite (alpha : Q) :
  0 <= 1 - alpha ->
  forall (rest : list Q) (i : nat) (e w : Q),
    w == weight_sum alpha i ->
    exists es : list Q,
      ewm_loop alpha (EwmState (Fin e) w (S i)) (map Fin rest) = map Fin es
      /\ length es = length rest
      /\ forall k x e1 e2,
          rest !! k = Some x -> (e :: es) !! k = Some e1 -> es !! k = Some e2 ->
          e2 == 1 / weight_sum alpha (S (i + k)) * x
                + (1 - 1 / weight_sum alpha (S (i + k))) * e1.
Proof.
  intros Ha rest. induction rest as [|x rest IH]; intros i e w Hw.
  - exists []. repeat split. intros k x e1 e2 H. discriminate H.
  - destruct (ewm_step_finite alpha e w x i Ha Hw) as (e' & Hstep & Hw' & He').
    destruct (IH (S i) e' _ Hw') as (es & Hes & Hlen & Hrec).
    exists (e' :: es). cbn [map ewm_loop]. rewrite Hstep.
    split; [|split].
    + unfold ewm_out at 1. cbn [ewm_nobs weighted]. rewrite Hes. reflexivity.
    + cbn [length]. rewrite Hlen. reflexivity.
    + intros [|k] y e1 e2 Hy H1 H2.
      * cbn in Hy, H1, H2. injection Hy as <-. injection H1 as <-.
        injection H2 as <-. rewrite Nat.add_0_r. exact He'.
      * replace (i + S k)%nat with (S i + k)%nat by lia.
        apply (Hrec k y e1 e2); assumption.
Qed.

(** The exponentially weighted mean of a finite series, as the call
    computes it with its defaults: the first value is the first
    observation, and each later value weighs the new observation by
    1 / (1 + (1-alpha) + ... + (1-alpha)^i). *)
Lemma ewm_mean_adjusted (span : Q) (xs : list Q) :
  1 <= span ->
  exists es : list Q,
    ewm_mean span (map Fin xs) = map Fin es
    /\ length es = length xs
    /\ es !! 0%nat = xs !! 0%nat
    /\ forall i x e e',
        xs !! S i = Some x -> es !! i = Some e -> es !! S i = Some e' ->
        e' == 1 / weight_sum (2 / (span + 1)) (S i) * x
              + (1 - 1 / weight_sum (2 / (span + 1)) (S i)) * e.
Proof.
  intros Hspan. destruct xs as [|x0 rest].
  - exists []. repeat split. intros i x e e' H. discriminate H.
  - destruct (ewm_loop_finite (2 / (span + 1)) (span_alpha span Hspan)
                rest 0%nat x0 1 ltac:(reflexivity)) as (es & Hes & Hlen & Hrec).
    exists (x0 :: es). unfold ewm_mean. rewrite prep_values_Fin.
    cbn [map is_nan]. rewrite Hes.
    split; [reflexivity|]. split; [cbn [length]; rewrite Hlen; reflexivity|].
    split; [reflexivity|].
    intros i x e e' Hx He He'. apply (Hrec i x e e'); assumption.
Qed.

Lemma zip_with_num_sub_Fin (l1 l2 : list Q) :
  zip_with num_sub (map Fin l1) (map Fin l2)
  = map Fin (zip_with Qminus l1 l2).
Proof.
  revert l2. induction l1 as [|a l1 IH]; intros [|b l2]; try reflexivity.
  cbn [map zip_with]. rewrite IH. reflexivity.
Qed.

(** C5 (as the code has it).  The three exponential averages behind the
    MACD (span 12 and 26 over the closes, span 9 over the MACD line) start
    at the first value of their input, and from then on
    EMA[i] = a_i * x[i] + (1 - a_i) * EMA[i-1], where the weight of the new
    value is not the constant alpha = 2/(span+1) but
    a_i = 1 / (1 + (1-alpha) + ... + (1-alpha)^i), the bias-adjusted weight
    of the default [adjust=True]. *)
Theorem macd_ema_adjusted_recurrence (closes : list Q) :
  exists macd : list Q,
    Dashboard.MACD (map Fin closes) = map Fin macd
    /\ forall (span : Q) (xs : list Q) (ema : list num),
        In (span, xs, ema)
           [ (12, closes, Dashboard.exp1 (map Fin closes));
             (26, closes, Dashboard.exp2 (map Fin closes));
             (9, macd, Dashboard.MACD_Signal (map Fin closes)) ] ->
        exists es : list Q,
          ema = map Fin es
          /\ length es = length xs
          /\ es !! 0%nat = xs !! 0%nat
          /\ forall i x e e',
              xs !! S i = Some x -> es !! i = Some e -> es !! S i = Some e' ->
              let alpha := 2 / (span + 1) in
              let a := 1 / weight_sum alpha (S i) in
              e' == a * x + (1 - a) * e.
Proof.
  destruct (ewm_mean_adjusted 12 closes ltac:(lra)) as (e1 & H1 & R1).
  destruct (ewm_mean_adjusted 26 closes ltac:(lra)) as (e2 & H2 & R2).
  exists (zip_with Qminus e1 e2).
  assert (Hm : Dashboard.MACD (map Fin closes) = map Fin (zip_with Qminus e1 e2)).
  { unfold Dashboard.MACD, Dashboard.exp1, Dashboard.exp2, series_sub.
    rewrite H1, H2. apply zip_with_num_sub_Fin. }
  split; [exact Hm|].
  intros span xs ema Hin. cbn [In] in Hin.
  destruct Hin as [[= <- <- <-]|[[= <- <- <-]|[[= <- <- <-]|[]]]].
  - exists e1. split; [exact H1 | exact R1].
  - exists e2. split; [exact H2 | exact R2].
  - unfold Dashboard.MACD_Signal. rewrite Hm.
    apply (ewm_mean_adjusted 9). lra.
Qed.

(** C5, the claim as stated fails: over the closes 1, 2 the fast average
    is 1 and then 37/24, while alpha * 2 + (1 - alpha) * 1 with
    alpha = 2/13 is 15/13. *)
Lemma ema_recurrence_fails :
  exists e0 e1 : Q,
    Dashboard.exp1 (map Fin [1; 2]) = [Fin e0; Fin e1]
    /\ e0 == 1 /\ e1 == 37 # 24
    /\ ~ e1 == 2 / (12 + 1) * 2 + (1 - 2 / (12 + 1)) * e0
    /\ ~ Forall2 num_equiv (Dashboard.exp1 (map Fin [1; 2]))
                           (map Fin (Spec.ema 12 [1; 2])).
Proof.
  eexists _, _. split; [vm_compute; reflexivity|].
  split; [reflexivity|]. split; [reflexivity|]. split.
  - vm_compute. discriminate.
  - intros H. apply Forall2_cons_1 in H as [_ H].
    apply Forall2_cons_1 in H as [H _]. vm_compute in H. discriminate H.
Qed.

(** ** The properties on the sample data *)

Lemma rising_all_gains (j : nat) (a b : Q) :
  (14 - 13 <= S j <= 14)%nat ->
  Examples.rising !! j = Some a -> Examples.rising !! S j = Some b -> a < b.
Proof.
  intros Hj Ha Hb.
  do 14 (destruct j as [|j];
         [cbn in Ha, Hb; injection Ha as <-; injection Hb as <-; reflexivity|]).
  lia.
Defined.

Lemma falling_all_losses (j : nat) (a b : Q) :
  (14 - 13 <= S j <= 14)%nat ->
  Examples.falling !! j = Some a -> Examples.falling !! S j = Some b -> b < a.
Proof.
  intros Hj Ha Hb.
  do 14 (destruct j as [|j];
         [cbn in Ha, Hb; injection Ha as <-; injection Hb as <-; reflexivity|]).
  lia.
Defined.

Lemma rsi_bounded_and_saturating_witness :
  (exists v, Dashboard.RSI (map Fin Examples.rising) !! 14%nat = Some v
             /\ (v = NaN \/ exists r, v = Fin r /\ 0 <= r <= 100)
             /\ v =n= Fin 100)
  /\ (exists v, Dashboard.RSI (map Fin Examples.falling) !! 14%nat = Some v
                /\ v =n= Fin 0).
Proof.
  split.
  - pose (v := default NaN (Dashboard.RSI (map Fin Examples.rising) !! 14%nat)).
    assert (E : Dashboard.RSI (map Fin Examples.rising) !! 14%nat = Some v)
      by (vm_compute; reflexivity).
    exists v. split; [exact E|].
    destruct (rsi_bounded_and_saturating Examples.rising 14 v E) as (B & G & _).
    split; [exact B|]. apply G; [lia | exact rising_all_gains].
  - pose (v := default NaN (Dashboard.RSI (map Fin Examples.falling) !! 14%nat)).
    assert (E : Dashboard.RSI (map Fin Examples.falling) !! 14%nat = Some v)
      by (vm_compute; reflexivity).
    exists v. split; [exact E|].
    destruct (rsi_bounded_and_saturating Examples.falling 14 v E) as (_ & _ & L).
    apply L; [lia | exact falling_all_losses].
Defined.

Lemma insufficient_history_is_nan_witness :
  Dashboard.MA_5 [Fin 1; Fin 2; NaN] !! 2%nat = Some NaN
  /\ Dashboard.MA_20 [Fin 1; Fin 2; NaN] !! 2%nat = Some NaN
  /\ Dashboard.BB_Upper Examples.sqrt3 [Fin 1; Fin 2; NaN] !! 2%nat = Some NaN
  /\ Dashboard.MA_50 [Fin 1; Fin 2; NaN] !! 2%nat = Some NaN
  /\ Dashboard.RSI [Fin 1; Fin 2; NaN] !! 2%nat = Some NaN.
Proof.
  destruct (insufficient_history_is_nan Examples.sqrt3 [Fin 1; Fin 2; NaN] 2
              ltac:(cbn; lia)) as (H5 & H20 & H50 & Hrsi).
  split; [apply H5; lia|].
  split; [apply H20; lia|].
  split; [apply H20; lia|].
  split; [apply H50; lia | apply Hrsi; lia].
Defined.

Lemma moving_average_is_trailing_mean_witness :
  exists m, Dashboard.MA_5 (map Fin Examples.rising) !! 6%nat = Some (Fin m)
            /\ m == 5.
Proof.
  destruct (moving_average_is_trailing_mean Examples.rising 5 6
              ltac:(lia) ltac:(lia) ltac:(cbn; lia)) as (m & Hm & _ & Em & _).
  exists m. split; [exact Hm|]. rewrite Em. reflexivity.
Defined.


Lemma macd_ema_adjusted_recurrence_witness :
  exists es : list Q,
    Dashboard.exp1 (map Fin [10; 11; 21 # 2]) = map Fin es
    /\ length es = 3%nat
    /\ es !! 0%nat = Some 10.
Proof.
  destruct (macd_ema_adjusted_recurrence [10; 11; 21 # 2]) as (macd & _ & H).
  destruct (H 12 [10; 11; 21 # 2] (Dashboard.exp1 (map Fin [10; 11; 21 # 2]))
              (or_introl eq_refl)) as (es & Hes & Hlen & H0 & _).
  exists es. repeat split; assumption.
Defined.

Lemma bars_wf : frame_wf Examples.bars.
Proof.
  intros col s H. unfold Examples.bars in H. cbn [columns] in H.
  apply lookup_insert_Some in H as [[_ <-]|[_ H]]; [reflexivity|].
  apply lookup_singleton_Some in H as [_ <-]. reflexivity.
Defined.

Lemma calculate_technical_indicators_pure_witness :
  exists (df : ref) (h' : heap) (out : DataFrame),
    Dashboard.calculate_technical_indicators Examples.sqrt3 7%nat Examples.store
    = Ok (df, h')
    /\ h' !! 7%nat = Some Examples.bars
    /\ h' !! df = Some out
    /\ index out = index Examples.bars
    /\ frame_wf out.
Proof.
  destruct (calculate_technical_indicators_pure Examples.sqrt3
              Examples.store 7 Examples.bars [Fin 10; Fin 11; Fin (21 # 2)]
              eq_refl bars_wf eq_refl)
    as (df & h' & out & Hrun & _ & Hin & _ & Hout & Hidx & Hwf & _).
  exists df, h', out. repeat split; assumption.
Defined.

Lemma rsi_flat_window_is_nan_witness :
  Dashboard.RSI (map Fin (repeat 5 15)) !! 14%nat = Some NaN.
Proof.
  apply rsi_flat_window_is_nan; [lia | cbn; lia |].
  intros j a b Hj Ha Hb.
  do 14 (destruct j as [|j];
         [cbn in Ha, Hb; injection Ha as <-; injection Hb as <-; reflexivity|]).
  lia.
Defined.

Lemma rsi_available_from_index_13_witness :
  exists r, Dashboard.RSI (map Fin (Examples.ramp 14)) !! 13%nat = Some (Fin r)
            /\ 0 <= r <= 100.
Proof.
  apply (rsi_available_from_index_13 (Examples.ramp 14) 13 0 1 2);
    [lia | cbn; lia | lia | reflexivity | reflexivity | discriminate].
Defined.

(* ===================================================================== *)
(** * Properties of the rest of the code *)
(* ===================================================================== *)

Local Open Scope string_scope.

(** ** More on the exponentially weighted means *)

Lemma ewm_loop_flat (alpha : Q) (x0 : Q) (rest : list Q) :
  Forall (fun x => x == x0) rest ->
  forall (w : Q) (n : nat),
    ewm_loop alpha (EwmState (Fin x0) w (S n)) (map Fin rest)
    = map (fun _ => Fin x0) rest.
Proof.
  induction 1 as [|x rest Hx Hrest IH]; intros w n; [reflexivity|].
  cbn [map ewm_loop]. unfold ewm_step at 1 2.
  cbn [is_nan negb weighted old_wt ewm_nobs].
  assert (num_ne (Fin x0) (Fin x) = false) as ->.
  { unfold num_ne. cbn [num_eq]. apply negb_false_iff, Qeq_bool_iff.
    symmetry. exact Hx. }
  unfold ewm_out at 1. cbn [ewm_nobs weighted]. f_equal. apply IH.
Qed.

Lemma ewm_mean_flat (span x0 : Q) (rest : list Q) :
  Forall (fun x => x == x0) rest ->
  ewm_mean span (map Fin (x0 :: rest)) = map (fun _ => Fin x0) (x0 :: rest).
Proof.
  intros H. unfold ewm_mean. rewrite prep_values_Fin.
  cbn [map is_nan]. unfold ewm_out at 1.
  cbn [ewm_nobs weighted]. f_equal. apply ewm_loop_flat, H.
Qed.

Lemma zip_with_const_sub {A : Type} (a b : num) (l : list A) :
  zip_with num_sub (map (fun _ => a) l) (map (fun _ => b) l)
  = map (fun _ => num_sub a b) l.
Proof. induction l as [|x l IH]; [reflexivity|]. cbn [map zip_with]. rewrite IH. reflexivity. Qed.

Lemma map_const_Fin {A : Type} (q : Q) (l : list A) :
  map (fun _ => Fin q) l = map Fin (map (fun _ => q) l).
Proof. induction l as [|x l IH]; [reflexivity|]. cbn [map]. rewrite IH. reflexivity. Qed.

(** On closes that never move, the two averages stay on the first close,
    and the MACD line, its signal and the histogram are 0 at every bar. *)
Theorem macd_flat_series_is_zero (x0 : Q) (rest : list Q) (i : nat) :
  Forall (fun x => x == x0) rest ->
  (i < length (x0 :: rest))%nat ->
  exists m s h : Q,
    Dashboard.MACD (map Fin (x0 :: rest)) !! i = Some (Fin m)
    /\ Dashboard.MACD_Signal (map Fin (x0 :: rest)) !! i = Some (Fin s)
    /\ Dashboard.MACD_Histogram (map Fin (x0 :: rest)) !! i = Some (Fin h)
    /\ m == 0 /\ s == 0 /\ h == 0.
Proof.
  intros Hflat Hi.
  assert (Hm : Dashboard.MACD (map Fin (x0 :: rest))
               = map Fin (map (fun _ => x0 - x0) (x0 :: rest))).
  { unfold Dashboard.MACD, Dashboard.exp1, Dashboard.exp2, series_sub.
    rewrite !ewm_mean_flat by exact Hflat.
    rewrite zip_with_const_sub. apply (map_const_Fin (x0 - x0)). }
  assert (Hs : Dashboard.MACD_Signal (map Fin (x0 :: rest))
               = map Fin (map (fun _ => x0 - x0) (x0 :: rest))).
  { unfold Dashboard.MACD_Signal. rewrite Hm. cbn [map].
    change (Fin (x0 - x0) :: map Fin (map (fun _ => x0 - x0) rest))
      with (map Fin ((x0 - x0) :: map (fun _ => x0 - x0) rest)).
    rewrite ewm_mean_flat.
    - cbn [map]. f_equal. rewrite map_map. apply (map_const_Fin (x0 - x0)).
    - apply Forall_fmap, Forall_true. intros y. reflexivity. }
  destruct (lookup_lt_is_Some_2 (x0 :: rest) i Hi) as [y Hy].
  exists (x0 - x0), (x0 - x0), ((x0 - x0) - (x0 - x0)).
  unfold Dashboard.MACD_Histogram, series_sub.
  rewrite lookup_zip_with, Hm, Hs, !list_lookup_fmap, Hy. cbn.
  repeat split; ring.
Qed.

Lemma weight_inv_bounds (alpha : Q) (i : nat) :
  0 <= 1 - alpha ->
  0 < 1 / weight_sum alpha i /\ 1 / weight_sum alpha i <= 1.
Proof.
  intros Ha. pose proof (weight_sum_ge_1 alpha i Ha) as H.
  split.
  - apply Qlt_shift_div_l; lra.
  - apply Qle_shift_div_r; lra.
Qed.

Lemma convex_between (a x e lo hi : Q) :
  0 < a -> a <= 1 -> lo <= x <= hi -> lo <= e <= hi ->
  lo <= a * x + (1 - a) * e <= hi.
Proof.
  intros Ha0 Ha1 [Hx1 Hx2] [He1 He2].
  assert (0 <= a * (x - lo)) by (apply Qmult_le_0_compat; lra).
  assert (0 <= (1 - a) * (e - lo)) by (apply Qmult_le_0_compat; lra).
  assert (0 <= a * (hi - x)) by (apply Qmult_le_0_compat; lra).
  assert (0 <= (1 - a) * (hi - e)) by (apply Qmult_le_0_compat; lra).
  split.
  - assert (E : a * x + (1 - a) * e
                == lo + (a * (x - lo) + (1 - a) * (e - lo))) by ring.
    rewrite E. lra.
  - assert (E : a * x + (1 - a) * e
                == hi - (a * (hi - x) + (1 - a) * (hi - e))) by ring.
    rewrite E. lra.
Qed.

(** Every exponentially weighted mean lies between the bounds of the
    values it has seen. *)
Lemma ewm_mean_between (span lo hi : Q) (xs : list Q) :
  1 <= span ->
  Forall (fun x => lo <= x <= hi) xs ->
  exists es : list Q,
    ewm_mean span (map Fin xs) = map Fin es
    /\ length es = length xs
    /\ Forall (fun e => lo <= e <= hi) es.
Proof.
  intros Hspan Hxs.
  destruct (ewm_mean_adjusted span xs Hspan) as (es & Hes & Hlen & H0 & Hrec).
  exists es. split; [exact Hes|]. split; [exact Hlen|].
  apply Forall_lookup_2. intros i. induction i as [|i IH]; intros e He.
  - rewrite H0 in He. exact (Forall_lookup_1 _ _ _ _ Hxs He).
  - destruct (lookup_lt_is_Some_2 xs (S i)
                ltac:(rewrite <- Hlen; eapply lookup_lt_Some, He)) as [x Hx].
    destruct (lookup_lt_is_Some_2 es i
                ltac:(apply lookup_lt_Some in He; lia)) as [e0 He0].
    pose proof (Hrec i x e0 e Hx He0 He) as Hr. cbn zeta in Hr.
    destruct (weight_inv_bounds (2 / (span + 1)) (S i) (span_alpha span Hspan))
      as [Ha0 Ha1].
    rewrite Hr. apply convex_between; try assumption.
    + exact (Forall_lookup_1 _ _ _ _ Hxs Hx).
    + apply IH, He0.
Qed.

(** The MACD line is the difference of two averages of the closes, and
    its signal an average of the line: neither can be larger than the
    spread between the highest and the lowest close. *)
Theorem macd_within_price_range (closes : list Q) (lo hi : Q) (i : nat) :
  Forall (fun x => lo <= x <= hi) closes ->
  (i < length closes)%nat ->
  exists m s : Q,
    Dashboard.MACD (map Fin closes) !! i = Some (Fin m)
    /\ Dashboard.MACD_Signal (map Fin closes) !! i = Some (Fin s)
    /\ lo - hi <= m <= hi - lo
    /\ lo - hi <= s <= hi - lo.
Proof.
  intros Hxs Hi.
  destruct (ewm_mean_between 12 lo hi closes ltac:(lra) Hxs) as (e1 & H1 & L1 & B1).
  destruct (ewm_mean_between 26 lo hi closes ltac:(lra) Hxs) as (e2 & H2 & L2 & B2).
  assert (Hm : Dashboard.MACD (map Fin closes) = map Fin (zip_with Qminus e1 e2)).
  { unfold Dashboard.MACD, Dashboard.exp1, Dashboard.exp2, series_sub.
    rewrite H1, H2. apply zip_with_num_sub_Fin. }
  assert (Bm : Forall (fun m => lo - hi <= m <= hi - lo) (zip_with Qminus e1 e2)).
  { apply Forall_lookup_2. intros j m Hj.
    apply lookup_zip_with_Some in Hj as (a & b & -> & Ha & Hb).
    pose proof (Forall_lookup_1 _ _ _ _ B1 Ha) as Ba.
    pose proof (Forall_lookup_1 _ _ _ _ B2 Hb) as Bb.
    cbv beta in Ba, Bb. unfold Qminus. lra. }
  destruct (ewm_mean_between 9 (lo - hi) (hi - lo) _ ltac:(lra) Bm)
    as (es & Hs & Ls & Bs).
  assert (Lm : length (zip_with Qminus e1 e2) = length closes)
    by (rewrite length_zip_with; lia).
  destruct (lookup_lt_is_Some_2 (zip_with Qminus e1 e2) i ltac:(lia)) as [m Em].
  destruct (lookup_lt_is_Some_2 es i ltac:(lia)) as [s Es].
  exists m, s.
  unfold Dashboard.MACD_Signal. rewrite Hm, Hs, !list_lookup_fmap, Em, Es.
  repeat split; try reflexivity.
  - exact (proj1 (Forall_lookup_1 _ _ _ _ Bm Em)).
  - exact (proj2 (Forall_lookup_1 _ _ _ _ Bm Em)).
  - exact (proj1 (Forall_lookup_1 _ _ _ _ Bs Es)).
  - exact (proj2 (Forall_lookup_1 _ _ _ _ Bs Es)).
Qed.

Lemma macd_flat_series_is_zero_witness :
  exists m s h : Q,
    Dashboard.MACD (map Fin [50; 50; 50]) !! 2%nat = Some (Fin m)
    /\ Dashboard.MACD_Signal (map Fin [50; 50; 50]) !! 2%nat = Some (Fin s)
    /\ Dashboard.MACD_Histogram (map Fin [50; 50; 50]) !! 2%nat = Some (Fin h)
    /\ m == 0 /\ s == 0 /\ h == 0.
Proof.
  apply (macd_flat_series_is_zero 50 [50; 50] 2).
  - repeat constructor.
  - cbn; lia.
Defined.

Lemma macd_within_price_range_witness :
  exists m s : Q,
    Dashboard.MACD (map Fin Examples.rising) !! 15%nat = Some (Fin m)
    /\ Dashboard.MACD_Signal (map Fin Examples.rising) !! 15%nat = Some (Fin s)
    /\ 1 - 16 <= m <= 16 - 1
    /\ 1 - 16 <= s <= 16 - 1.
Proof.
  apply (macd_within_price_range Examples.rising 1 16 15).
  - repeat constructor; discriminate.
  - cbn; lia.
Defined.


(** ** Moving averages and bands against the range of the closes *)

Lemma Qsum_between (lo hi : Q) (l : list Q) :
  Forall (fun x => lo <= x <= hi) l ->
  Qnat (length l) * lo <= Qsum l <= Qnat (length l) * hi.
Proof.
  induction 1 as [|x l Hx Hl IH].
  - cbn [length]. change (Qnat 0) with 0. change (Qsum []) with 0. lra.
  - cbn [Qsum foldr length]. fold (Qsum l).
    assert (E : Qnat (S (length l)) == Qnat (length l) + 1).
    { unfold Qnat. rewrite Nat2Z.inj_succ, <- Z.add_1_r, inject_Z_plus.
      reflexivity. }
    rewrite E. lra.
Qed.

Lemma Qnat_pos (n : nat) : (0 < n)%nat -> 0 < Qnat n.
Proof.
  intros H. unfold Qnat, Qlt. cbn. lia.
Qed.

Lemma rolling_mean_between (w : nat) (lo hi : Q) (qs : list Q) (i : nat) :
  (1 <= w)%nat -> (i < length qs)%nat ->
  Forall (fun x => lo <= x <= hi) qs ->
  rolling_mean w (map Fin qs) !! i = Some NaN
  \/ exists m, rolling_mean w (map Fin qs) !! i = Some (Fin m)
               /\ lo <= m <= hi.
Proof.
  intros Hw Hi Hall.
  destruct (Nat.lt_ge_cases (S i) w) as [Hlt|Hge].
  - left. apply rolling_mean_warmup; [exact Hlt|].
    rewrite length_map. exact Hi.
  - right. destruct (rolling_mean_valid w qs i Hw Hge Hi) as (m & Hm & Em).
    exists m. split; [exact Hm|].
    set (win := take w (drop (S i - w) qs)) in *.
    assert (Hlen : length win = w).
    { unfold win. rewrite length_take, length_drop. lia. }
    assert (Hwin : Forall (fun x => lo <= x <= hi) win).
    { unfold win. apply Forall_take, Forall_drop, Hall. }
    pose proof (Qsum_between lo hi win Hwin) as B. rewrite Hlen in B.
    pose proof (Qnat_pos w ltac:(lia)) as P.
    rewrite Em. split.
    + apply Qle_shift_div_l; [exact P|]. lra.
    + apply Qle_shift_div_r; [exact P|]. lra.
Qed.

(** Every value of the three moving averages and of the middle Bollinger
    band is either NaN (the window is not full yet) or lies between the
    lowest and the highest close of the series. *)
Theorem moving_averages_within_price_range
        (closes : list Q) (lo hi : Q) (i : nat) :
  Forall (fun x => lo <= x <= hi) closes ->
  (i < length closes)%nat ->
  Forall (fun column : list num =>
            column !! i = Some NaN
            \/ exists m, column !! i = Some (Fin m) /\ lo <= m <= hi)
         [ Dashboard.MA_5 (map Fin closes); Dashboard.MA_20 (map Fin closes);
           Dashboard.MA_50 (map Fin closes);
           Dashboard.BB_Middle (map Fin closes) ].
Proof.
  intros Hall Hi.
  unfold Dashboard.MA_5, Dashboard.MA_20, Dashboard.MA_50, Dashboard.BB_Middle.
  repeat apply Forall_cons_2; try apply Forall_nil_2;
    apply rolling_mean_between; try assumption; lia.
Qed.

Lemma moving_averages_within_price_range_witness :
  Forall (fun column : list num =>
            column !! 6%nat = Some NaN
            \/ exists m, column !! 6%nat = Some (Fin m) /\ 1 <= m <= 16)
         [ Dashboard.MA_5 (map Fin Examples.rising);
           Dashboard.MA_20 (map Fin Examples.rising);
           Dashboard.MA_50 (map Fin Examples.rising);
           Dashboard.BB_Middle (map Fin Examples.rising) ].
Proof.
  apply (moving_averages_within_price_range Examples.rising 1 16 6).
  - repeat constructor; discriminate.
  - cbn; lia.
Defined.

Section Bands.

Variable sqrtQ : Q -> Q.
Hypothesis sqrtQ_nonneg : forall q, 0 <= sqrtQ q.

(** With a square root that is never negative, the bands are ordered at
    every bar where they are defined: the deviation is not negative and
    lower <= middle <= upper. *)
Theorem bollinger_bands_ordered (closes : list Q) (i : nat) :
  (19 <= i)%nat -> (i < length closes)%nat ->
  exists m s u l : Q,
    Dashboard.BB_Middle (map Fin closes) !! i = Some (Fin m)
    /\ Dashboard.bb_std sqrtQ (map Fin closes) !! i = Some (Fin s)
    /\ Dashboard.BB_Upper sqrtQ (map Fin closes) !! i = Some (Fin u)
    /\ Dashboard.BB_Lower sqrtQ (map Fin closes) !! i = Some (Fin l)
    /\ 0 <= s
    /\ l <= m <= u.
Proof.
  intros Hge Hi.
  destruct (rolling_mean_valid 20 closes i ltac:(lia) ltac:(lia) Hi)
    as (m & Hm & _).
  assert (Hs : exists s, Dashboard.bb_std sqrtQ (map Fin closes) !! i
                         = Some (Fin s) /\ 0 <= s).
  { unfold Dashboard.bb_std, rolling_std.
    rewrite list_lookup_imap.
    destruct (lookup_lt_is_Some_2 (map Fin closes) i
                ltac:(rewrite length_map; exact Hi)) as [x Hx].
    rewrite Hx. cbn [fmap option_fmap option_map].
    destruct (rolling_std_valid sqrtQ 20 closes i ltac:(lia) ltac:(lia) Hi)
      as (s & Hs).
    unfold rolling_std in Hs. rewrite list_lookup_imap, Hx in Hs.
    cbn [fmap option_fmap option_map] in Hs.
    unfold window_std in *.
    destruct (_ || _ || _); [discriminate Hs|].
    eexists. split; [reflexivity|]. apply sqrtQ_nonneg. }
  destruct Hs as (s & Hs & Hs0).
  exists m, s, (m + s * 2), (m - s * 2).
  unfold Dashboard.BB_Upper, Dashboard.BB_Lower, Dashboard.BB_Middle,
    Dashboard.bb_std, series_add, series_sub, series_mul_scalar in *.
  rewrite !lookup_zip_with, !list_lookup_fmap, Hm, Hs.
  cbn [num_add num_sub num_mul].
  repeat split; try reflexivity; try lra.
Qed.

End Bands.

Lemma sqrt3_nonneg (q : Q) : 0 <= Examples.sqrt3 q.
Proof.
  unfold Examples.sqrt3.
  apply Qle_shift_div_l; [reflexivity|].
  assert (H : (0 <= Z.sqrt (Qfloor (q * 1000000)))%Z) by apply Z.sqrt_nonneg.
  rewrite Qmult_0_l. rewrite Zle_Qle in H. exact H.
Qed.

Lemma bollinger_bands_ordered_witness :
  exists m s u l : Q,
    Dashboard.BB_Middle (map Fin (Examples.ramp 21)) !! 20%nat = Some (Fin m)
    /\ Dashboard.bb_std Examples.sqrt3 (map Fin (Examples.ramp 21)) !! 20%nat
       = Some (Fin s)
    /\ Dashboard.BB_Upper Examples.sqrt3 (map Fin (Examples.ramp 21)) !! 20%nat
       = Some (Fin u)
    /\ Dashboard.BB_Lower Examples.sqrt3 (map Fin (Examples.ramp 21)) !! 20%nat
       = Some (Fin l)
    /\ 0 <= s
    /\ l <= m <= u.
Proof.
  apply (bollinger_bands_ordered Examples.sqrt3 sqrt3_nonneg
           (Examples.ramp 21) 20); [lia | cbn; lia].
Defined.

(** ** Moving averages over missing values *)

Lemma observations_app (l1 l2 : list num) :
  observations (l1 ++ l2) = (observations l1 ++ observations l2)%list.
Proof. apply omap_app. Qed.

Lemma observations_take_S (values : list num) (n : nat) (v : num) :
  values !! n = Some v ->
  observations (take (S n) values)
  = (observations (take n values)
     ++ match observation v with Some q => [q] | None => [] end)%list.
Proof.
  intros H. rewrite (take_S_r values n v H), observations_app.
  unfold observations at 2. cbn [omap list_omap].
  destruct (observation v); reflexivity.
Qed.

Lemma observations_take_le (values : list num) (a b : nat) :
  (a <= b)%nat ->
  (length (observations (take a values))
   <= length (observations (take b values)))%nat.
Proof.
  intros Hab. replace b with (a + (b - a))%nat by lia.
  rewrite <- (take_drop a (take (a + (b - a)) values)).
  rewrite take_take, Nat.min_l by lia.
  rewrite observations_app, length_app. lia.
Qed.

Lemma prep_values_lookup (values : list num) (n : nat) (v : num) :
  values !! n = Some v ->
  prep_values values !! n
  = Some (match observation v with Some q => Fin q | None => NaN end).
Proof.
  intros H. unfold prep_values. rewrite list_lookup_fmap, H.
  destruct v; reflexivity.
Qed.

Lemma roll_mean_loop_missing (w minp : nat) (values : list num) :
  (1 <= w)%nat ->
  forall rest i st s,
    drop i values = rest ->
    nobs st = (length (observations (take i values))
               - length (observations (take (i - w) values)))%nat ->
    sum_x st = Fin s ->
    s == Qsum (observations (take i values))
         - Qsum (observations (take (i - w) values)) ->
    forall k, (k < length rest)%nat ->
      let n := (length (observations (take (S (i + k)) values))
                - length (observations (take (S (i + k) - w) values)))%nat in
      exists v,
        roll_mean_loop w minp (prep_values values) i
          (prep_values rest) st !! k = Some v
        /\ v =n= (if (minp <=? n)%nat && (0 <? n)%nat
                  then Fin ((Qsum (observations (take (S (i + k)) values))
                             - Qsum (observations (take (S (i + k) - w) values)))
                            / Qnat n)
                  else NaN).
Proof.
  intros Hw rest. induction rest as [|x rest IH]; intros i st s Hd Hn Hs Hsum k Hk.
  - simpl in Hk. lia.
  - assert (Hx : values !! i = Some x).
    { assert (H0 : drop i values !! 0%nat = Some x) by (rewrite Hd; reflexivity).
      rewrite lookup_drop, Nat.add_0_r in H0. exact H0. }
    assert (Hd' : drop (S i) values = rest).
    { replace (S i) with (i + 1)%nat by lia.
      rewrite <- drop_drop, Hd. reflexivity. }
    set (px := match observation x with Some q => Fin q | None => NaN end).
    set (st1 := if (w <=? i)%nat
                then remove_mean (nth (i - w) (prep_values values) NaN) st
                else st).
    set (st2 := add_mean px st1).
    assert (H2 : nobs st2
                 = (length (observations (take (S i) values))
                    - length (observations (take (S i - w) values)))%nat
                 /\ exists s2, sum_x st2 = Fin s2
                    /\ s2 == Qsum (observations (take (S i) values))
                             - Qsum (observations (take (S i - w) values))).
    { assert (H1 : nobs st1
                   = (length (observations (take i values))
                      - length (observations (take (S i - w) values)))%nat
                   /\ exists s1, sum_x st1 = Fin s1
                      /\ s1 == Qsum (observations (take i values))
                               - Qsum (observations (take (S i - w) values))).
      { subst st1. destruct (Nat.leb_spec w i) as [Hwi|Hwi].
        - destruct (lookup_lt_is_Some_2 values (i - w)
                      ltac:(apply lookup_lt_Some in Hx; lia)) as [y Hy].
          rewrite (nth_lookup_Some _ _ _ _ (prep_values_lookup _ _ _ Hy)).
          replace (S i - w)%nat with (S (i - w)) by lia.
          rewrite (observations_take_S _ _ _ Hy).
          pose proof (observations_take_le values (S (i - w)) i ltac:(lia)) as Hle.
          rewrite (observations_take_S _ _ _ Hy) in Hle.
          unfold remove_mean.
          destruct (observation y) as [q|]; cbn [is_nan nobs sum_x].
          + rewrite Hn, Hs. rewrite length_app in *. cbn [length] in *.
            split; [lia|]. eexists. split; [reflexivity|].
            rewrite Hsum, Qsum_app. cbn. ring.
          + rewrite app_nil_r. split; [exact Hn|].
            exists s. split; [exact Hs | exact Hsum].
        - replace (S i - w)%nat with 0%nat by lia.
          replace (i - w)%nat with 0%nat in Hn, Hsum by lia.
          split; [exact Hn|]. exists s. split; [exact Hs | exact Hsum]. }
      destruct H1 as (Hn1 & s1 & Hs1 & Hsum1).
      subst st2. rewrite (observations_take_S _ _ _ Hx).
      pose proof (observations_take_le values (S i - w) i ltac:(lia)) as Hle.
      unfold add_mean. subst px.
      destruct (observation x) as [q|]; cbn [is_nan nobs sum_x].
      - rewrite Hn1, Hs1, length_app. cbn [length].
        split; [lia|]. eexists. split; [reflexivity|].
        rewrite Hsum1, Qsum_app. cbn. ring.
      - rewrite app_nil_r. split; [exact Hn1|].
        exists s1. split; [exact Hs1 | exact Hsum1]. }
    destruct H2 as (Hn2 & s2 & Hs2 & Hsum2).
    assert (Epx : prep_values (x :: rest) = px :: prep_values rest)
      by (subst px; destruct x; reflexivity).
    rewrite Epx.
    change (roll_mean_loop w minp (prep_values values) i
              (px :: prep_values rest) st)
      with (calc_mean minp st2
              :: roll_mean_loop w minp (prep_values values) (S i)
                   (prep_values rest) st2).
    destruct k as [|k].
    + cbv zeta. rewrite Nat.add_0_r.
      exists (calc_mean minp st2). split; [reflexivity|].
      unfold calc_mean. rewrite Hn2, Hs2.
      destruct ((minp <=? _)%nat && (0 <? _)%nat) eqn:E; [|exact I].
      apply andb_true_iff in E as [_ E]. apply Nat.ltb_lt in E.
      cbn [num_div].
      assert (Qeq_bool (Qnat (length (observations (take (S i) values))
                              - length (observations (take (S i - w) values)))) 0
              = false) as ->
          by (apply Qeq_bool_false_iff, Qnat_nonzero; exact E).
      cbn [num_equiv]. rewrite Hsum2. reflexivity.
    + simpl in Hk.
      destruct (IH (S i) st2 s2 Hd' Hn2 Hs2 Hsum2 k ltac:(lia)) as (v & Hv & Ev).
      exists v. split; [exact Hv|].
      replace (i + S k)%nat with (S i + k)%nat by lia. exact Ev.
Qed.

Lemma take_window {A : Type} (l : list A) (w i : nat) :
  (w <= S i)%nat ->
  take (S i) l = (take (S i - w) l ++ take w (drop (S i - w) l))%list.
Proof.
  intros H. rewrite take_drop_commute.
  replace (S i - w + w)%nat with (S i) by lia.
  rewrite <- (take_drop (S i - w) (take (S i) l)) at 1.
  rewrite take_take, Nat.min_l by lia. reflexivity.
Qed.

Lemma observations_finite (l : list num) :
  forallb is_fin l = true -> observations l = map to_Q l.
Proof.
  induction l as [|v l IH]; cbn [forallb]; [reflexivity|].
  intros H. apply andb_true_iff in H as [Hv Hl].
  destruct v; try discriminate Hv.
  unfold observations in *. cbn [omap list_omap observation map to_Q].
  rewrite IH by exact Hl. reflexivity.
Qed.

Lemma observations_length (l : list num) :
  (length (observations l) <= length l)%nat
  /\ (forallb is_fin l = false -> (length (observations l) < length l)%nat).
Proof.
  induction l as [|v l [IH1 IH2]]; cbn [forallb length].
  - split; [reflexivity | discriminate].
  - unfold observations in *. cbn [omap list_omap].
    destruct v; cbn [observation is_fin andb length]; split; try lia;
      intros H; try lia. specialize (IH2 H). lia.
Qed.

Lemma rolling_mean_missing (w : nat) (close : list num) (i : nat) :
  (1 <= w)%nat -> (w <= S i)%nat -> (i < length close)%nat ->
  let window := take w (drop (S i - w) close) in
  (forallb is_fin window = true ->
   exists m, rolling_mean w close !! i = Some (Fin m)
             /\ m == Qsum (map to_Q window) / Qnat w)
  /\ (forallb is_fin window = false -> rolling_mean w close !! i = Some NaN).
Proof.
  intros Hw Hwi Hi window.
  assert (H0 : 0 == Qsum (observations (take 0 close))
                  - Qsum (observations (take (0 - w) close))).
  { rewrite Nat.sub_0_l, take_0. reflexivity. }
  destruct (roll_mean_loop_missing w w close Hw close 0%nat (MeanState 0 (Fin 0)) 0
              (drop_0 close) eq_refl eq_refl H0 i Hi)
    as (v & Hv & Ev).
  clear H0.
  cbv zeta in Ev. rewrite Nat.add_0_l in Ev.
  rewrite (take_window close w i Hwi), observations_app, length_app in Ev.
  fold window in Ev.
  replace (length (observations (take (S i - w) close))
           + length (observations window)
           - length (observations (take (S i - w) close)))%nat
    with (length (observations window)) in Ev by lia.
  assert (Hlen : length window = w).
  { subst window. rewrite length_take, length_drop. lia. }
  destruct (observations_length window) as [Hle Hlt]. rewrite Hlen in Hle, Hlt.
  unfold rolling_mean. cbv zeta. rewrite Hv. split.
  - intros Hfin. rewrite (observations_finite window Hfin) in Ev.
    rewrite length_map, Hlen in Ev.
    assert ((w <=? w)%nat && (0 <? w)%nat = true) as E
        by (apply andb_true_iff; split; [apply Nat.leb_le | apply Nat.ltb_lt]; lia).
    rewrite E in Ev. destruct v as [m| | |]; try contradiction.
    exists m. split; [reflexivity|]. cbn [num_equiv] in Ev. rewrite Ev, Qsum_app. field.
    apply Qnat_nonzero; lia.
  - intros Hnot. specialize (Hlt Hnot).
    assert ((w <=? length (observations window))%nat = false) as E
        by (apply Nat.leb_gt; exact Hlt).
    rewrite E in Ev. cbn [andb] in Ev.
    destruct v; try contradiction. reflexivity.
Qed.

(** A missing close (NaN, or an infinite value, which the window
    operations take for missing) does not spoil the moving averages for
    good: at an index with a full window behind it, each of MA_5, MA_20,
    MA_50 and BB_Middle is NaN exactly when its window holds a missing
    close, and is the mean of the closes of the window as soon as they are
    all finite again. *)
Theorem moving_average_skips_missing_values
        (close : list num) (w : nat) (column : list num) (i : nat) :
  In (w, column)
     [ (5%nat, Dashboard.MA_5 close); (20%nat, Dashboard.MA_20 close);
       (50%nat, Dashboard.MA_50 close); (20%nat, Dashboard.BB_Middle close) ] ->
  (w <= S i)%nat -> (i < length close)%nat ->
  let window := take w (drop (S i - w) close) in
  (forallb is_fin window = true ->
   exists m, column !! i = Some (Fin m)
             /\ m == Qsum (map to_Q window) / Qnat w)
  /\ (forallb is_fin window = false -> column !! i = Some NaN).
Proof.
  intros Hin Hwi Hi.
  cbn [In] in Hin.
  destruct Hin as [E|[E|[E|[E|[]]]]]; injection E as <- <-;
    apply rolling_mean_missing; try assumption; lia.
Qed.

Lemma moving_average_skips_missing_values_witness :
  Dashboard.MA_5 Samples.gap_closes !! 7%nat = Some NaN
  /\ exists m, Dashboard.MA_5 Samples.gap_closes !! 8%nat = Some (Fin m) /\ m == 7.
Proof.
  destruct (moving_average_skips_missing_values Samples.gap_closes 5
              (Dashboard.MA_5 Samples.gap_closes) 7
              ltac:(left; reflexivity) ltac:(lia) ltac:(cbn; lia)) as [_ H7].
  destruct (moving_average_skips_missing_values Samples.gap_closes 5
              (Dashboard.MA_5 Samples.gap_closes) 8
              ltac:(left; reflexivity) ltac:(lia) ltac:(cbn; lia)) as [H8 _].
  split; [apply H7; reflexivity|].
  destruct (H8 eq_refl) as (m & Hm & Em).
  exists m. split; [exact Hm|]. rewrite Em. reflexivity.
Defined.

(** ** Edge inputs of the indicator method *)

Section Missing.

Variable sqrtQ : Q -> Q.

(** A frame without a ['Close'] column makes the method raise [KeyError]
    at its first statement after the copy; and on a frame whose ['Close']
    column is empty it raises nothing and returns a frame with the ten
    new columns, all empty. *)
Theorem calculate_technical_indicators_edge_inputs
        (h : heap) (data : ref) (f : DataFrame) :
  h !! data = Some f ->
  (columns f !! "Close" = None ->
   Dashboard.calculate_technical_indicators sqrtQ data h = Raise KeyError)
  /\ (columns f !! "Close" = Some [] ->
      exists df h' out,
        Dashboard.calculate_technical_indicators sqrtQ data h = Ok (df, h')
        /\ h' !! df = Some out
        /\ h' !! data = Some f
        /\ forall col, In col (map fst (Dashboard.derived sqrtQ []))
                       -> columns out !! col = Some []).
Proof.
  intros Hd. split.
  - intros Hc.
    unfold Dashboard.calculate_technical_indicators, st_bind.
    unfold copy at 1. unfold deref at 1. rewrite Hd.
    change (default empty_frame (Some f)) with f.
    unfold getitem at 1. rewrite deref_insert_eq, Hc. reflexivity.
  - intros Hc.
    exists (fresh (dom h)),
      (<[fresh (dom h) := Dashboard.enriched sqrtQ f []]> h),
      (Dashboard.enriched sqrtQ f []).
    split; [apply calculate_technical_indicators_run; assumption|].
    split; [apply lookup_insert_eq|].
    split.
    { rewrite lookup_insert_ne; [exact Hd|].
      intros E. pose proof (is_fresh (dom h)) as Hf. rewrite E in Hf.
      apply Hf, elem_of_dom. eauto. }
    intros col Hin.
    apply in_map_iff in Hin as ((c & s) & <- & Hin).
    pose proof (derived_length sqrtQ [] c s Hin) as Hl.
    apply enriched_lookup_derived with (f := f) in Hin.
    destruct s; [exact Hin | discriminate Hl].
Qed.

End Missing.

Lemma calculate_technical_indicators_edge_inputs_witness :
  Dashboard.calculate_technical_indicators Examples.sqrt3 3%nat
    Samples.no_close_store
  = Raise KeyError.
Proof.
  apply (calculate_technical_indicators_edge_inputs Examples.sqrt3
           Samples.no_close_store 3%nat Samples.no_close eq_refl).
  reflexivity.
Defined.

(** ** More on the categorizers *)

Lemma num_lt_Fin_trans (x : num) (a b : Q) :
  a <= b -> num_lt x (Fin a) = true -> num_lt x (Fin b) = true.
Proof.
  intros Hab. destruct x as [q| | |]; cbn; try discriminate; try reflexivity.
  rewrite !Qlt_bool_iff. intros H. lra.
Qed.

Ltac lt_cases :=
  repeat match goal with
         | |- context [num_lt ?x (Fin ?a)] =>
             lazymatch goal with
             | H : num_lt x (Fin a) = _ |- _ => rewrite H
             | _ => destruct (num_lt x (Fin a)) eqn:?
             end
         end.

Ltac lt_absurd :=
  match goal with
  | H1 : num_lt ?x (Fin ?a) = true, H2 : num_lt ?x (Fin ?b) = false |- _ =>
      rewrite (num_lt_Fin_trans x a b ltac:(discriminate) H1) in H2;
      discriminate H2
  end.

(** The price buckets of the optimized exporter refine those of the plain
    exporter: "Medium Price" is split at 25 and "Very High Price" at 200,
    the other two are the same ranges under other names.  This holds for
    every argument, NaN and the infinities included. *)
Theorem price_buckets_refine (price : num) :
  (Exporter._categorize_price price = "Low Price"
   <-> Optimized._categorize_price price = "Under $10")
  /\ (Exporter._categorize_price price = "Medium Price"
      <-> Optimized._categorize_price price = "$10-$25"
          \/ Optimized._categorize_price price = "$25-$50")
  /\ (Exporter._categorize_price price = "High Price"
      <-> Optimized._categorize_price price = "$50-$100")
  /\ (Exporter._categorize_price price = "Very High Price"
      <-> Optimized._categorize_price price = "$100-$200"
          \/ Optimized._categorize_price price = "Over $200").
Proof.
  unfold Exporter._categorize_price, Optimized._categorize_price.
  lt_cases; try lt_absurd;
    repeat split; try (intros [H|H]; discriminate H);
    intros H; try discriminate H; auto.
Qed.

(** The two exporters cut the market cap at the same three values from
    2e9 up; below 2e9 the optimized one splits "Small Cap" at 300e6.  They
    part on the string 'N/A': the plain exporter answers "Unknown", the
    optimized one has no such test and raises [TypeError]. *)
Theorem market_cap_buckets_agree (market_cap : pyval) :
  (Exporter._categorize_market_cap market_cap = Ok "Small Cap"
   <-> Optimized._categorize_market_cap market_cap = Ok "Micro Cap (<$300M)"
       \/ Optimized._categorize_market_cap market_cap = Ok "Small Cap ($300M-$2B)")
  /\ (Exporter._categorize_market_cap market_cap = Ok "Mid Cap"
      <-> Optimized._categorize_market_cap market_cap = Ok "Mid Cap ($2B-$10B)")
  /\ (Exporter._categorize_market_cap market_cap = Ok "Large Cap"
      <-> Optimized._categorize_market_cap market_cap = Ok "Large Cap ($10B-$200B)")
  /\ (Exporter._categorize_market_cap market_cap = Ok "Mega Cap"
      <-> Optimized._categorize_market_cap market_cap = Ok "Mega Cap (>$200B)")
  /\ (Exporter._categorize_market_cap market_cap = Ok "Unknown"
      <-> Optimized._categorize_market_cap market_cap = Ok "Unknown"
          \/ market_cap = VStr "N/A")
  /\ (market_cap = VStr "N/A"
      -> Optimized._categorize_market_cap market_cap = Raise TypeError).
Proof.
  unfold Exporter._categorize_market_cap, Optimized._categorize_market_cap.
  destruct market_cap as [x|s|]; cbn [val_eq_num val_eq_str val_lt_num bind orb].
  - destruct (num_eq x (Fin 0)); cbn [orb].
    + repeat split; try (intros [H|H]; discriminate H);
        intros H; try discriminate H; auto.
    + lt_cases; try lt_absurd;
        repeat split; try (intros [H|H]; discriminate H);
        intros H; try discriminate H; auto.
  - destruct (String.eqb s "N/A") eqn:E.
    + apply String.eqb_eq in E as ->.
      repeat split; try (intros [H|H]; discriminate H);
        intros H; try discriminate H; auto.
    + assert (Hne : VStr s <> VStr "N/A")
        by (intros [= ->]; rewrite String.eqb_refl in E; discriminate E).
      repeat split; try (intros [H|H]; try discriminate H; contradiction);
        intros H; try discriminate H; try contradiction; auto.
  - repeat split; try (intros [H|H]; discriminate H);
      intros H; try discriminate H; auto.
Qed.

(** The change buckets of the two exporters are cut at different values
    inside (-5, 5), so neither refines the other; they agree on the two
    outer buckets, and the "Stable" of the optimized exporter (within half
    a percent) lies inside the "Stable" of the plain one (within one
    percent).  For the volume, the two agree on "Unknown" (an average of
    0) and on the lowest bucket, below half the average. *)
Theorem change_and_volume_buckets_compare (change_percent volume avg_volume : num) :
  (Exporter._categorize_change change_percent = "Large Decrease"
   <-> Optimized._categorize_change change_percent = "Large Decrease (>-5%)")
  /\ (Exporter._categorize_change change_percent = "Large Increase"
      <-> Optimized._categorize_change change_percent = "Large Increase (>5%)")
  /\ (Optimized._categorize_change change_percent = "Stable (-0.5% to 0.5%)"
      -> Exporter._categorize_change change_percent = "Stable")
  /\ (Exporter._categorize_change change_percent = "Stable"
      -> Optimized._categorize_change change_percent
         = "Small Decrease (-0.5% to -2%)"
         \/ Optimized._categorize_change change_percent
            = "Stable (-0.5% to 0.5%)"
         \/ Optimized._categorize_change change_percent
            = "Small Increase (0.5% to 2%)")
  /\ (Exporter._categorize_volume volume avg_volume = Ok "Unknown"
      <-> Optimized._categorize_volume volume avg_volume = Ok "Unknown")
  /\ (Exporter._categorize_volume volume avg_volume = Ok "Low Volume"
      <-> Optimized._categorize_volume volume avg_volume = Ok "Very Low (<50%)")
  /\ (Exporter._categorize_volume volume avg_volume = Ok "Very High Volume"
      -> Optimized._categorize_volume volume avg_volume = Ok "Very High (>200%)").
Proof.
  split; [|split; [|split; [|split]]].
  1-4: unfold Exporter._categorize_change, Optimized._categorize_change;
    lt_cases; try lt_absurd;
    try (split; intros H; try discriminate H; reflexivity);
    intros H; try discriminate H; auto.
  unfold Exporter._categorize_volume, Optimized._categorize_volume.
  destruct (num_eq avg_volume (Fin 0)) eqn:E.
  - repeat split; intros H; try discriminate H; reflexivity.
  - rewrite (py_div_nonzero _ _ E). cbn [bind].
    lt_cases; try lt_absurd;
      repeat split; intros H; try discriminate H; reflexivity.
Qed.

Lemma prefix_app (n post : string) : String.prefix n (n +:+ post) = true.
Proof.
  induction n as [|a n IH].
  - destruct post; reflexivity.
  - change (String a n +:+ post) with (String a (n +:+ post)).
    cbn [String.prefix].
    destruct (Ascii.ascii_dec a a); [exact IH | contradiction].
Qed.

Lemma prefix_inv (n h : string) :
  String.prefix n h = true -> exists post, h = n +:+ post.
Proof.
  revert h; induction n as [|a n IH]; intros h H.
  - exists h. reflexivity.
  - destruct h as [|b h]; cbn in H; [discriminate H|].
    destruct (Ascii.ascii_dec a b) as [->|]; [|discriminate H].
    destruct (IH h H) as [post ->]. exists post. reflexivity.
Qed.

Lemma contains_spec (needle hay : string) :
  contains needle hay = true
  <-> exists pre post, hay = pre +:+ needle +:+ post.
Proof.
  split.
  - induction hay as [|c hay IH]; cbn [contains]; intros H;
      apply orb_true_iff in H as [H|H].
    + apply prefix_inv in H as [post ->]. exists "", post. reflexivity.
    + discriminate H.
    + apply prefix_inv in H as [post ->]. exists "", post. reflexivity.
    + destruct (IH H) as (pre & post & ->).
      exists (String c pre), post. reflexivity.
  - intros (pre & post & ->).
    induction pre as [|c pre IH].
    + change ("" +:+ needle +:+ post) with (needle +:+ post).
      destruct (needle +:+ post) eqn:E; cbn [contains];
        rewrite <- E, prefix_app; reflexivity.
    + change (String c pre +:+ needle +:+ post)
        with (String c (pre +:+ needle +:+ post)).
      cbn [contains]. rewrite IH. apply orb_true_r.
Qed.

Import OptimizedData.

Lemma any_in_spec (keywords : list string) (sector : string) :
  any_in keywords sector = true
  <-> exists kw pre post, In kw keywords /\ sector = pre +:+ kw +:+ post.
Proof.
  unfold any_in. rewrite existsb_exists. split.
  - intros (kw & Hin & H). apply contains_spec in H as (pre & post & ->).
    eauto.
  - intros (kw & pre & post & Hin & ->). exists kw. split; [exact Hin|].
    apply contains_spec. eauto.
Qed.

(** [_categorize_sector] answers "Unknown" exactly for a falsy argument
    and for the text 'Unknown'.  Any other text is put in the first of the
    groups Technology, Financial, Healthcare, Consumer one of whose
    keywords occurs in it as a substring, and in "Other" when none does; a
    number other than 0 raises [TypeError]. *)
Theorem categorize_sector_first_matching_group (sector : pyval) :
  (_categorize_sector sector = Ok "Unknown"
   <-> truthy sector = false \/ sector = VStr "Unknown")
  /\ (forall x, sector = VNum x -> truthy sector = true ->
        _categorize_sector sector = Raise TypeError)
  /\ (forall s, sector = VStr s -> s <> "" -> s <> "Unknown" ->
        let has keywords :=
          exists kw pre post, In kw keywords /\ s = pre +:+ kw +:+ post in
        (has tech_sectors -> _categorize_sector sector = Ok "Technology")
        /\ (~ has tech_sectors -> has finance_sectors ->
            _categorize_sector sector = Ok "Financial")
        /\ (~ has tech_sectors -> ~ has finance_sectors ->
            has healthcare_sectors ->
            _categorize_sector sector = Ok "Healthcare")
        /\ (~ has tech_sectors -> ~ has finance_sectors ->
            ~ has healthcare_sectors -> has consumer_sectors ->
            _categorize_sector sector = Ok "Consumer")
        /\ (~ has tech_sectors -> ~ has finance_sectors ->
            ~ has healthcare_sectors -> ~ has consumer_sectors ->
            _categorize_sector sector = Ok "Other")).
Proof.
  split; [|split].
  - unfold _categorize_sector. destruct sector as [x|s|]; cbn [val_eq_str].
    + destruct (truthy (VNum x)); cbn [negb orb]; split; auto.
      * discriminate.
      * intros [H|H]; discriminate H.
    + destruct (String.eqb s "Unknown") eqn:E.
      * apply String.eqb_eq in E as ->. rewrite orb_true_r. split; auto.
      * assert (Hne : VStr s <> VStr "Unknown")
          by (intros [= ->]; rewrite String.eqb_refl in E; discriminate E).
        rewrite orb_false_r.
        destruct (truthy (VStr s)); cbn [negb]; [|split; auto].
        split.
        -- repeat match goal with
                  | |- context [if ?b then _ else _] => destruct b
                  end; discriminate.
        -- intros [H|H]; [discriminate H | contradiction].
    + cbn. split; auto.
  - intros x -> H. unfold _categorize_sector. rewrite H. reflexivity.
  - intros s -> Hs Hu has.
    assert (E : _categorize_sector (VStr s) =
                if any_in tech_sectors s then Ok "Technology"
                else if any_in finance_sectors s then Ok "Financial"
                else if any_in healthcare_sectors s then Ok "Healthcare"
                else if any_in consumer_sectors s then Ok "Consumer"
                else Ok "Other").
    { unfold _categorize_sector; cbn [truthy val_eq_str].
      apply String.eqb_neq in Hs, Hu. rewrite Hs, Hu. reflexivity. }
    rewrite E.
    assert (R : forall kws, any_in kws s = true <-> has kws)
      by (intros kws; apply any_in_spec).
    assert (F : forall kws, ~ has kws -> any_in kws s = false).
    { intros kws H. destruct (any_in kws s) eqn:E'; [|reflexivity].
      destruct H. apply R, E'. }
    repeat split.
    + intros H. apply R in H. rewrite H. reflexivity.
    + intros H1 H2. apply R in H2. rewrite (F _ H1), H2. reflexivity.
    + intros H1 H2 H3. apply R in H3. rewrite (F _ H1), (F _ H2), H3.
      reflexivity.
    + intros H1 H2 H3 H4. apply R in H4.
      rewrite (F _ H1), (F _ H2), (F _ H3), H4. reflexivity.
    + intros H1 H2 H3 H4.
      rewrite (F _ H1), (F _ H2), (F _ H3), (F _ H4). reflexivity.
Qed.

(** ** The row builders *)

Lemma exporter_volatility_ok (h l p : num) :
  exists v, Exporter.volatility h l p = Ok v.
Proof.
  unfold Exporter.volatility. destruct (num_ne p (Fin 0)) eqn:E; [|eauto].
  unfold num_ne in E. apply negb_true_iff in E.
  rewrite (py_div_nonzero _ _ E). cbn. eauto.
Qed.

Lemma optimized_volatility_ok (h l p : num) :
  exists v, Optimized.volatility h l p = Ok v.
Proof.
  unfold Optimized.volatility. destruct (num_ne p (Fin 0)) eqn:E; [|eauto].
  unfold num_ne in E. apply negb_true_iff in E.
  rewrite (py_div_nonzero _ _ E). cbn. eauto.
Qed.

Lemma optimized_volatility_category_ok (h l p : num) :
  exists v, Optimized.volatility_category h l p = Ok v.
Proof.
  unfold Optimized.volatility_category, Optimized.volatility_percent.
  destruct (num_ne p (Fin 0)) eqn:E; [|cbn; eauto].
  unfold num_ne in E. apply negb_true_iff in E.
  rewrite (py_div_nonzero _ _ E). cbn. eauto.
Qed.

Lemma exporter_categorize_volume_ok (volume avg : num) :
  exists c, Exporter._categorize_volume volume avg = Ok c.
Proof.
  unfold Exporter._categorize_volume.
  destruct (num_eq avg (Fin 0)) eqn:E; [eauto|].
  rewrite (py_div_nonzero _ _ E). cbn.
  repeat match goal with
         | |- context [if ?b then _ else _] => destruct b
         end; eauto.
Qed.

Lemma optimized_categorize_volume_ok (volume avg : num) :
  exists c, Optimized._categorize_volume volume avg = Ok c.
Proof.
  unfold Optimized._categorize_volume.
  destruct (num_eq avg (Fin 0)) eqn:E; [eauto|].
  rewrite (py_div_nonzero _ _ E). cbn.
  repeat match goal with
         | |- context [if ?b then _ else _] => destruct b
         end; eauto.
Qed.

Lemma py_int_is_Some (x : num) : is_Some (py_int x) <-> is_fin x = true.
Proof.
  destruct x; cbn; split; intros H; eauto; try discriminate H;
    destruct H as [? H]; discriminate H.
Qed.

Lemma raised_is_Some {A : Type} (m : res A) :
  is_Some (raised m) <-> exists a, m = Ok a.
Proof.
  destruct m; cbn; split.
  - eauto.
  - eauto.
  - intros [? H]; discriminate H.
  - intros [? H]; discriminate H.
Qed.

Lemma absent_or_number_get (info : gmap string pyval) (key : string) (d : num) :
  is_Some (as_num (dict_get info key (VNum d))) <-> absent_or_number info key.
Proof.
  unfold absent_or_number, dict_get.
  destruct (info !! key) as [[x|s|]|]; cbn; split; intros H; eauto;
    try contradiction; destruct H as [? H]; discriminate H.
Qed.

Lemma volume_ratio_of_is_Some (info : gmap string pyval) (volume : num) :
  absent_or_number info "averageVolume" ->
  is_Some (ExporterData.volume_ratio_of info volume).
Proof.
  unfold absent_or_number, ExporterData.volume_ratio_of, dict_get_none, dict_get.
  destruct (info !! "averageVolume") as [[x|s|]|]; cbn; try contradiction;
    intros _.
  - destruct (num_ne x (Fin 0)); eauto.
  - eauto.
Qed.

Lemma categorize_volume_of_exporter (info : gmap string pyval) (volume : num) :
  is_Some (ExporterData.categorize_volume_of Exporter._categorize_volume volume
             (dict_get info "averageVolume" (VNum volume)))
  <-> absent_or_number info "averageVolume".
Proof.
  rewrite <- (absent_or_number_get info "averageVolume" volume).
  unfold ExporterData.categorize_volume_of.
  destruct (as_num _) as [a|]; cbn.
  - destruct (exporter_categorize_volume_ok volume a) as [c ->]. cbn.
    split; eauto.
  - split; intros [? H]; discriminate H.
Qed.

Lemma categorize_volume_of_optimized (info : gmap string pyval) (volume : num) :
  is_Some (ExporterData.categorize_volume_of Optimized._categorize_volume volume
             (dict_get info "averageVolume" (VNum volume)))
  <-> absent_or_number info "averageVolume".
Proof.
  rewrite <- (absent_or_number_get info "averageVolume" volume).
  unfold ExporterData.categorize_volume_of.
  destruct (as_num _) as [a|]; cbn.
  - destruct (optimized_categorize_volume_ok volume a) as [c ->]. cbn.
    split; eauto.
  - split; intros [? H]; discriminate H.
Qed.

Lemma exporter_market_cap_ok (info : gmap string pyval) :
  is_Some (raised (Exporter._categorize_market_cap
                     (dict_get info "marketCap" (VNum (Fin 0)))))
  <-> absent_or_number info "marketCap"
      \/ info !! "marketCap" = Some (VStr "N/A").
Proof.
  unfold absent_or_number, dict_get, Exporter._categorize_market_cap.
  destruct (info !! "marketCap") as [[x|s|]|];
    cbn [default from_option id val_eq_num val_eq_str val_lt_num bind orb].
  - split; [auto|intros _].
    repeat match goal with
           | |- context [if ?b then _ else _] => destruct b
           end; cbn; eauto.
  - destruct (String.eqb s "N/A") eqn:E.
    + apply String.eqb_eq in E as ->. cbn. split; eauto.
    + cbn. split.
      * intros [? H]; discriminate H.
      * intros [[]|[= ->]]. rewrite String.eqb_refl in E. discriminate E.
  - cbn. split.
    + intros [? H]; discriminate H.
    + intros [[]|H]; discriminate H.
  - cbn. split; eauto.
Qed.

Lemma optimized_market_cap_ok (x : num) :
  exists c, Optimized._categorize_market_cap (VNum x) = Ok c.
Proof.
  unfold Optimized._categorize_market_cap.
  cbn [val_eq_num val_lt_num bind].
  repeat match goal with
         | |- context [if ?b then _ else _] => destruct b
         end; eauto.
Qed.

Section Rows.

Variable str_of : num -> string.

(** [get_enhanced_stock_data] gives a row exactly when the history is not
    empty, the volume of its last bar is a finite number, the
    ['averageVolume'] of the info is missing or a number, and its
    ['marketCap'] is missing, a number or the text 'N/A'.  An info that
    holds [None] (or another text) under one of the two keys makes the
    method return [None]: the symbol is left out of the export. *)
Theorem get_enhanced_stock_data_succeeds_iff
        (symbol : string) (q : ExporterData.quote) :
  is_Some (ExporterData.get_enhanced_stock_data str_of symbol (Some q))
  <-> exists latest,
      last (ExporterData.q_hist q) = Some latest
      /\ is_fin (Volume latest) = true
      /\ absent_or_number (ExporterData.q_info q) "averageVolume"
      /\ (absent_or_number (ExporterData.q_info q) "marketCap"
          \/ ExporterData.q_info q !! "marketCap" = Some (VStr "N/A")).
Proof.
  unfold ExporterData.get_enhanced_stock_data.
  cbn [mbind option_bind].
  destruct (last (ExporterData.q_hist q)) as [latest|]; cycle 1.
  { split; [intros [? H]; discriminate H | intros (? & H & _); discriminate H]. }
  destruct (exporter_volatility_ok (round2 (High latest)) (round2 (Low latest))
              (round2 (Close latest))) as [v ->].
  cbn [raised mbind option_bind].
  split.
  - intros H.
    destruct (py_int (Volume latest)) as [vol|] eqn:Ev;
      [|destruct H as [? H]; discriminate H].
    cbn [mbind option_bind] in H.
    destruct (ExporterData.volume_ratio_of _ _) as [ratio|];
      [|destruct H as [? H]; discriminate H].
    cbn [mbind option_bind] in H.
    destruct (ExporterData.categorize_volume_of _ _ _) as [vc|] eqn:Ec;
      [|destruct H as [? H]; discriminate H].
    cbn [mbind option_bind] in H.
    destruct (raised (Exporter._categorize_market_cap _)) as [mc|] eqn:Em;
      [|destruct H as [? H]; discriminate H].
    exists latest. split; [reflexivity|].
    split; [apply py_int_is_Some; rewrite Ev; eauto|].
    split; [apply categorize_volume_of_exporter with (volume := Volume latest);
            rewrite Ec; eauto|].
    apply exporter_market_cap_ok. rewrite Em. eauto.
  - intros (l & [= <-] & Hv & Ha & Hm).
    apply py_int_is_Some in Hv as [vol ->].
    destruct (volume_ratio_of_is_Some _ (Volume latest) Ha) as [ratio ->].
    apply (categorize_volume_of_exporter _ (Volume latest)) in Ha as [vc ->].
    apply exporter_market_cap_ok in Hm as [mc ->].
    cbn [mbind option_bind]. eauto.
Qed.

(** [get_optimized_stock_data] gives a row exactly when the history is
    not empty, the volume of its last bar is finite, each of
    ['fiftyTwoWeekHigh'], ['fiftyTwoWeekLow'], ['averageVolume'],
    ['marketCap'] and ['dividendYield'] is missing from the info or a
    number, and ['sector'] is not a number other than 0.  So an info with
    [None] under ['dividendYield'], say, makes the symbol disappear from
    the export. *)
Theorem get_optimized_stock_data_succeeds_iff
        (symbol : string) (q : OptimizedData.quote) :
  is_Some (OptimizedData.get_optimized_stock_data symbol (Some q))
  <-> exists latest,
      last (OptimizedData.q_hist q) = Some latest
      /\ is_fin (Volume latest) = true
      /\ Forall (absent_or_number (OptimizedData.q_info q))
                [ "fiftyTwoWeekHigh"; "fiftyTwoWeekLow"; "averageVolume";
                  "marketCap"; "dividendYield" ]
      /\ (forall x, OptimizedData.q_info q !! "sector" = Some (VNum x) ->
                    num_eq x (Fin 0) = true).
Proof.
  unfold OptimizedData.get_optimized_stock_data.
  cbn [mbind option_bind].
  set (info := OptimizedData.q_info q).
  destruct (last (OptimizedData.q_hist q)) as [latest|]; cycle 1.
  { split; [intros [? H]; discriminate H | intros (? & H & _); discriminate H]. }
  destruct (optimized_volatility_ok (round2 (High latest)) (round2 (Low latest))
              (round2 (Close latest))) as [v Ev].
  destruct (optimized_volatility_category_ok (round2 (High latest))
              (round2 (Low latest)) (round2 (Close latest))) as [vc Evc].
  rewrite Ev, Evc.
  split.
  - intros [row H].
    apply bind_Some in H as (spread & Hspread & H).
    apply bind_Some in H as (vol & Hvol & H).
    apply bind_Some in H as (ratio & Hratio & H).
    apply bind_Some in H as (mcb & Hmcb & H).
    cbn [raised] in H.
    apply bind_Some in H as (v' & _ & H).
    apply bind_Some in H as (volc & Hvolc & H).
    apply bind_Some in H as (mcc & Hmcc & H).
    apply bind_Some in H as (sc & Hsc & H).
    apply bind_Some in H as (vc' & _ & H).
    apply bind_Some in H as (hv & Hhv & H).
    apply bind_Some in H as (lc & Hlc & H).
    apply bind_Some in H as (ds & Hds & H).
    apply bind_Some in Hspread as (hi & Hhi & Hspread).
    apply bind_Some in Hspread as (lo & Hlo & _).
    apply bind_Some in Hlc as (cap & Hcap & _).
    apply bind_Some in Hds as (dy & Hdy & _).
    exists latest. split; [reflexivity|].
    split; [apply py_int_is_Some; eauto|].
    split.
    + repeat apply Forall_cons_2; try apply Forall_nil_2.
      * eapply absent_or_number_get; eauto.
      * eapply absent_or_number_get; eauto.
      * eapply categorize_volume_of_optimized; eauto.
      * eapply absent_or_number_get; eauto.
      * eapply absent_or_number_get; eauto.
    + intros x Hx.
      unfold OptimizedData._categorize_sector, dict_get in Hsc.
      fold info in Hsc. rewrite Hx in Hsc.
      cbn [default from_option id truthy val_eq_str orb] in Hsc.
      unfold num_ne in Hsc. rewrite negb_involutive, orb_false_r in Hsc.
      destruct (num_eq x (Fin 0)); [reflexivity | discriminate Hsc].
  - intros (l & [= <-] & Hv & Hall & Hsector).
    apply Forall_cons in Hall as [Hh Hall].
    apply Forall_cons in Hall as [Hl Hall].
    apply Forall_cons in Hall as [Ha Hall].
    apply Forall_cons in Hall as [Hm Hall].
    apply Forall_cons in Hall as [Hd _].
    apply py_int_is_Some in Hv as [vol ->].
    apply (absent_or_number_get _ _ (round2 (High latest))) in Hh as [hi ->].
    apply (absent_or_number_get _ _ (round2 (Low latest))) in Hl as [lo ->].
    destruct (volume_ratio_of_is_Some _ (Volume latest) Ha) as [ratio ->].
    pose proof Ha as Ha'.
    apply (categorize_volume_of_optimized _ (Volume latest)) in Ha' as [volc ->].
    apply (absent_or_number_get _ _ (Volume latest)) in Ha as [avg Eavg].
    rewrite Eavg.
    pose proof Hm as Hm'.
    apply (absent_or_number_get _ _ (Fin 0)) in Hm' as [cap Ecap].
    rewrite Ecap.
    assert (Ecap' : dict_get info "marketCap" (VNum (Fin 0)) = VNum cap).
    { destruct (dict_get info "marketCap" (VNum (Fin 0))); try discriminate Ecap.
      cbn in Ecap. congruence. }
    rewrite Ecap'.
    destruct (optimized_market_cap_ok cap) as [mcc ->].
    apply (absent_or_number_get _ _ (Fin 0)) in Hd as [dy ->].
    assert (Hsec : exists sc, OptimizedData._categorize_sector
                                (dict_get info "sector" (VStr "Unknown")) = Ok sc).
    { unfold OptimizedData._categorize_sector, dict_get.
      destruct (info !! "sector") as [[x|s|]|] eqn:Es;
        cbn [default from_option id truthy val_eq_str orb negb].
      - unfold num_ne. rewrite (Hsector x eq_refl). cbn. eauto.
      - repeat match goal with
               | |- context [if ?b then _ else _] => destruct b
               end; eauto.
      - eauto.
      - cbn. eauto. }
    destruct Hsec as [sc ->].
    cbn [mbind option_bind raised].
    destruct (truthy (dict_get_none info "marketCap"));
      destruct (truthy (dict_get_none info "averageVolume"));
      cbn [mbind option_bind]; eauto.
Qed.

End Rows.

Lemma num_gt_Fin_not_lt (x : num) (a b : Q) :
  b <= a -> num_gt x (Fin a) = true -> num_lt x (Fin b) = false.
Proof.
  unfold num_gt. intros Hab.
  destruct x as [q| | |]; cbn; try discriminate; try reflexivity.
  rewrite Qlt_bool_iff, Qlt_bool_false_iff. intros H. lra.
Qed.

Lemma num_gt_Fin_ne (x : num) (a b : Q) :
  b <= a -> num_gt x (Fin a) = true -> num_eq x (Fin b) = false.
Proof.
  unfold num_gt. intros Hab.
  destruct x as [q| | |]; cbn; try discriminate; try reflexivity.
  rewrite Qlt_bool_iff, Qeq_bool_false_iff. intros H E. lra.
Qed.

Ltac gt_not_lt H a :=
  repeat match goal with
         | |- context [num_lt ?x (Fin ?b)] =>
             rewrite (num_gt_Fin_not_lt x a b ltac:(discriminate) H)
         end.

Ltac gt_not_lt_in H a H' :=
  repeat match type of H' with
         | context [num_lt ?x (Fin ?b)] =>
             rewrite (num_gt_Fin_not_lt x a b ltac:(discriminate) H) in H'
         end.

Ltac cells :=
  cbv [getitem_row List.find fst snd String.eqb Ascii.eqb Bool.eqb
       fmap option_fmap option_map].

(** On a row of [get_optimized_stock_data] the flags agree with the
    categories: a row flagged [is_high_volatility] is in the volatility
    category "Very High (>5%)", one flagged [is_large_cap] is "Large Cap"
    or "Mega Cap", one flagged [is_high_volume], when the average volume
    of the info is positive, is in one of the two volume categories from
    120% up; and no row is both [is_gain] and [is_loss]. *)
Theorem optimized_flags_agree_with_categories
        (symbol : string) (q : OptimizedData.quote) (data : row) :
  OptimizedData.get_optimized_stock_data symbol (Some q) = Some data ->
  (getitem_row data "is_high_volatility" = Some (CBool true) ->
   getitem_row data "volatility_category" = Some (cstr "Very High (>5%)"))
  /\ (getitem_row data "is_large_cap" = Some (CBool true) ->
      getitem_row data "market_cap_category"
      = Some (cstr "Large Cap ($10B-$200B)")
      \/ getitem_row data "market_cap_category"
         = Some (cstr "Mega Cap (>$200B)"))
  /\ (getitem_row data "is_high_volume" = Some (CBool true) ->
      (forall avg, OptimizedData.q_info q !! "averageVolume" = Some (VNum avg) ->
                   num_gt avg (Fin 0) = true) ->
      getitem_row data "volume_category" = Some (cstr "High (120%-200%)")
      \/ getitem_row data "volume_category" = Some (cstr "Very High (>200%)"))
  /\ (getitem_row data "is_gain" = Some (CBool true) ->
      getitem_row data "is_loss" = Some (CBool false)).
Proof.
  intros H.
  unfold OptimizedData.get_optimized_stock_data in H.
  cbn [mbind option_bind] in H.
  set (info := OptimizedData.q_info q) in *.
  destruct (last (OptimizedData.q_hist q)) as [latest|]; [|discriminate H].
  apply bind_Some in H as (spread & _ & H).
  apply bind_Some in H as (vol & Hvol & H).
  apply bind_Some in H as (ratio & _ & H).
  apply bind_Some in H as (mcb & _ & H).
  apply bind_Some in H as (v' & _ & H).
  apply bind_Some in H as (volc & Hvolc & H).
  apply bind_Some in H as (mcc & Hmcc & H).
  apply bind_Some in H as (sc & _ & H).
  apply bind_Some in H as (vc & Hvc & H).
  apply bind_Some in H as (hv & Hhv & H).
  apply bind_Some in H as (lc & Hlc & H).
  apply bind_Some in H as (ds & _ & H).
  apply (inj Some) in H. subst data.
  split; [|split; [|split]].
  - cells. intros [= Hflag]. do 3 f_equal.
    unfold Optimized.volatility_category, Optimized.volatility_percent in Hvc.
    destruct (num_ne (round2 (Close latest)) (Fin 0)) eqn:Ene;
      [|discriminate Hflag].
    unfold num_ne in Ene. apply negb_true_iff in Ene.
    rewrite (py_div_nonzero _ _ Ene) in Hvc. cbn [bind raised] in Hvc.
    injection Hvc as <-.
    unfold Optimized._categorize_volatility.
    gt_not_lt Hflag 5. reflexivity.
  - cells. intros [= ->].
    apply bind_Some in Hlc as (cap & Hcap & [= Hgt]).
    destruct (dict_get info "marketCap" (VNum (Fin 0))) as [x| |];
      try discriminate Hcap.
    injection Hcap as ->.
    unfold Optimized._categorize_market_cap in Hmcc.
    cbn [val_eq_num val_lt_num bind] in Hmcc.
    rewrite (num_gt_Fin_ne cap 10000000000 0 ltac:(discriminate) Hgt) in Hmcc.
    gt_not_lt_in Hgt 10000000000 Hmcc.
    destruct (num_lt cap (Fin 200000000000)); injection Hmcc as <-; auto.
  - cells. intros [= ->] Hpos.
    unfold dict_get_none, dict_get in Hhv.
    unfold ExporterData.categorize_volume_of, dict_get in Hvolc.
    fold info in Hhv, Hvolc.
    destruct (info !! "averageVolume") as [[avg|s|]|] eqn:Eavg;
      cbn [default from_option id truthy as_num mbind option_bind] in Hhv, Hvolc;
      try discriminate Hvolc; try discriminate Hhv.
    + specialize (Hpos avg eq_refl).
      destruct (num_ne avg (Fin 0)); [|discriminate Hhv].
      injection Hhv as Hhv.
      unfold Optimized._categorize_volume in Hvolc.
      rewrite (num_gt_Fin_ne avg 0 0 ltac:(discriminate) Hpos) in Hvolc.
      rewrite (py_div_nonzero _ _ (num_gt_Fin_ne avg 0 0 ltac:(discriminate) Hpos))
        in Hvolc.
      cbn [bind] in Hvolc.
      assert (Hr : num_gt (num_div (Volume latest) avg) (Fin (3 # 2)) = true).
      { destruct (Volume latest) as [v| | |]; try discriminate Hvol.
        unfold num_gt in *.
        destruct avg as [a| | |]; cbn in Hpos, Hhv |- *;
          try discriminate Hpos; try discriminate Hhv.
        apply Qlt_bool_iff in Hpos. apply Qlt_bool_iff in Hhv.
        destruct (Qeq_bool a 0) eqn:Ea.
        { apply Qeq_bool_iff in Ea. lra. }
        cbn. apply Qlt_bool_iff.
        apply Qlt_shift_div_l; [exact Hpos|]. lra. }
      gt_not_lt_in Hr (3 # 2) Hvolc.
      destruct (num_lt _ (Fin 2)); injection Hvolc as <-; auto.
  - cells.
    generalize (round2 (num_sub (round2 (Close latest)) (round2 (Open latest)))).
    intros c [= Hgain]. do 3 f_equal.
    unfold num_gt in Hgain.
    destruct c as [c| | |]; cbn in Hgain |- *;
      try discriminate Hgain; try reflexivity.
    apply Qlt_bool_iff in Hgain. apply Qlt_bool_false_iff. lra.
Qed.

Lemma optimized_flags_agree_with_categories_witness :
  getitem_row Samples.optimized_row "is_high_volatility" = Some (CBool true)
  /\ getitem_row Samples.optimized_row "volatility_category"
     = Some (cstr "Very High (>5%)")
  /\ getitem_row Samples.optimized_row "is_large_cap" = Some (CBool true)
  /\ (getitem_row Samples.optimized_row "market_cap_category"
      = Some (cstr "Large Cap ($10B-$200B)")
      \/ getitem_row Samples.optimized_row "market_cap_category"
         = Some (cstr "Mega Cap (>$200B)")).
Proof.
  destruct (optimized_flags_agree_with_categories "ACME" Samples.optimized_quote
              Samples.optimized_row ltac:(vm_compute; reflexivity))
    as (H1 & H2 & _).
  assert (E1 : getitem_row Samples.optimized_row "is_high_volatility"
               = Some (CBool true)) by (vm_compute; reflexivity).
  assert (E2 : getitem_row Samples.optimized_row "is_large_cap"
               = Some (CBool true)) by (vm_compute; reflexivity).
  split; [exact E1|]. split; [exact (H1 E1)|].
  split; [exact E2 | exact (H2 E2)].
Defined.

(** ** Rounding to two decimals *)

Lemma round_half_even_bounds (q : Q) :
  (Qfloor q <= round_half_even q <= Qfloor q + 1)%Z.
Proof.
  unfold round_half_even. cbv zeta.
  repeat match goal with
         | |- context [if ?b then _ else _] => destruct b
         end; lia.
Qed.

Lemma round_half_even_mono (q1 q2 : Q) :
  q1 <= q2 -> (round_half_even q1 <= round_half_even q2)%Z.
Proof.
  intros Hle.
  pose proof (Qfloor_resp_le _ _ Hle) as Hf.
  destruct (Z.eq_dec (Qfloor q1) (Qfloor q2)) as [E|N].
  - unfold round_half_even. cbv zeta. rewrite <- E.
    destruct (Qlt_bool (q1 - inject_Z (Qfloor q1)) (1 # 2)) eqn:A1;
      destruct (Qlt_bool (q2 - inject_Z (Qfloor q1)) (1 # 2)) eqn:A2;
      destruct (Qlt_bool (1 # 2) (q1 - inject_Z (Qfloor q1))) eqn:B1;
      destruct (Qlt_bool (1 # 2) (q2 - inject_Z (Qfloor q1))) eqn:B2;
      destruct (Z.even (Qfloor q1));
      try lia;
      repeat match goal with
             | H : Qlt_bool _ _ = true |- _ => apply Qlt_bool_iff in H
             | H : Qlt_bool _ _ = false |- _ => apply Qlt_bool_false_iff in H
             end; lra.
  - pose proof (round_half_even_bounds q1). pose proof (round_half_even_bounds q2).
    lia.
Qed.

Lemma round_half_even_comp (q1 q2 : Q) :
  q1 == q2 -> round_half_even q1 = round_half_even q2.
Proof.
  intros E. apply Z.le_antisymm; apply round_half_even_mono; lra.
Qed.

Lemma round_half_even_Z (z : Z) : round_half_even (inject_Z z) = z.
Proof.
  unfold round_half_even. cbv zeta. rewrite Qfloor_Z.
  assert (E : Qlt_bool (inject_Z z - inject_Z z) (1 # 2) = true).
  { apply Qlt_bool_iff. lra. }
  rewrite E. reflexivity.
Qed.

Lemma round2_le (a b : Q) :
  a <= b ->
  inject_Z (round_half_even (a * 100)) / 100
  <= inject_Z (round_half_even (b * 100)) / 100.
Proof.
  intros H.
  assert (M : (round_half_even (a * 100) <= round_half_even (b * 100))%Z).
  { apply round_half_even_mono. lra. }
  rewrite Zle_Qle in M.
  apply Qle_shift_div_l; [reflexivity|].
  unfold Qdiv. rewrite <- Qmult_assoc, (Qmult_comm (/ 100)), Qmult_inv_r;
    [lra | discriminate].
Qed.

Lemma round2_zero (a : Q) :
  a == 0 -> inject_Z (round_half_even (a * 100)) / 100 == 0.
Proof.
  intros E.
  rewrite (round_half_even_comp (a * 100) (inject_Z 0)) by (rewrite E; reflexivity).
  rewrite round_half_even_Z. reflexivity.
Qed.

Lemma round2_nonneg (a : Q) :
  0 <= a -> 0 <= inject_Z (round_half_even (a * 100)) / 100.
Proof.
  intros H. pose proof (round2_le 0 a H) as L.
  rewrite (round2_zero 0) in L by reflexivity. exact L.
Qed.

Lemma round2_nonpos (a : Q) :
  a <= 0 -> inject_Z (round_half_even (a * 100)) / 100 <= 0.
Proof.
  intros H. pose proof (round2_le a 0 H) as L.
  rewrite (round2_zero 0) in L by reflexivity. exact L.
Qed.

Lemma percent_change_Fin (c o : Q) :
  (~ o == 0 -> exists p, percent_change (Fin c) (Fin o) = Fin p)
  /\ (o == 0 -> 0 < c -> percent_change (Fin c) (Fin o) = PInf)
  /\ (o == 0 -> c == 0 -> percent_change (Fin c) (Fin o) = NaN)
  /\ (o == 0 -> c < 0 -> percent_change (Fin c) (Fin o) = NInf).
Proof.
  unfold percent_change. cbn [num_sub num_neg num_add num_div].
  repeat split.
  - intros Ho. apply Qeq_bool_false_iff in Ho. rewrite Ho. cbn. eauto.
  - intros Ho Hc. pose proof Ho as Ho'. apply Qeq_bool_iff in Ho' as ->.
    assert (E1 : Qeq_bool (c + - o) 0 = false)
      by (apply Qeq_bool_false_iff; lra).
    assert (E2 : Qlt_bool 0 (c + - o) = true) by (apply Qlt_bool_iff; lra).
    rewrite E1, E2. reflexivity.
  - intros Ho Hc. pose proof Ho as Ho'. apply Qeq_bool_iff in Ho' as ->.
    assert (E1 : Qeq_bool (c + - o) 0 = true) by (apply Qeq_bool_iff; lra).
    rewrite E1. reflexivity.
  - intros Ho Hc. pose proof Ho as Ho'. apply Qeq_bool_iff in Ho' as ->.
    assert (E1 : Qeq_bool (c + - o) 0 = false)
      by (apply Qeq_bool_false_iff; lra).
    assert (E2 : Qlt_bool 0 (c + - o) = false)
      by (apply Qlt_bool_false_iff; lra).
    rewrite E1, E2. reflexivity.
Qed.

Lemma percent_change_finite_iff (c o : Q) :
  is_fin (percent_change (Fin c) (Fin o)) = true <-> ~ o == 0.
Proof.
  destruct (percent_change_Fin c o) as (H1 & H2 & H3 & H4).
  split.
  - intros Hfin Ho.
    destruct (Q_dec c 0) as [[Hc|Hc]|Hc].
    + rewrite (H4 Ho Hc) in Hfin. discriminate Hfin.
    + rewrite (H2 Ho Hc) in Hfin. discriminate Hfin.
    + rewrite (H3 Ho Hc) in Hfin. discriminate Hfin.
  - intros Ho. destruct (H1 Ho) as [p ->]. reflexivity.
Qed.

Section Rows.

Variable str_of : num -> string.

(** The monitor and the simple dashboard divide by the open of the last
    bar without a test.  In the rows of [get_stock_data] and of
    [get_stock_info] the entry ['change_percent'] is a finite number
    exactly when that open is not 0; on an open of 0 it is [inf], [-inf]
    or NaN by the sign of the close, and the row is returned all the
    same. *)
Theorem change_percent_unguarded_on_zero_open
        (symbol : string) (latest : Bar) (o c : Q) :
  Open latest = Fin o -> Close latest = Fin c ->
  let unguarded (data : row) :=
    exists cp, getitem_row data "change_percent" = Some (cnum cp)
               /\ (is_fin cp = true <-> ~ o == 0)
               /\ (o == 0 -> 0 < c -> cp = PInf)
               /\ (o == 0 -> c == 0 -> cp = NaN)
               /\ (o == 0 -> c < 0 -> cp = NInf) in
  (forall q data,
      last (Monitor.q_hist q) = Some latest ->
      Monitor.get_stock_data str_of symbol (Some q) = Some data ->
      unguarded data)
  /\ (forall info hist data,
         last hist = Some latest ->
         Dashboards.get_stock_info symbol (Some (info, hist)) = Some data ->
         unguarded data).
Proof.
  intros Ho Hc unguarded.
  destruct (percent_change_Fin c o) as (_ & H2 & H3 & H4).
  pose proof (percent_change_finite_iff c o) as H1.
  split.
  - intros q data Hlast H.
    unfold Monitor.get_stock_data in H. cbn [mbind option_bind] in H.
    rewrite Hlast in H.
    apply bind_Some in H as (vol & _ & H).
    apply (inj Some) in H. subst data.
    exists (percent_change (Close latest) (Open latest)).
    split; [cells; reflexivity|].
    rewrite Ho, Hc. auto.
  - intros info hist data Hlast H.
    unfold Dashboards.get_stock_info in H. cbn [mbind option_bind] in H.
    rewrite Hlast in H.
    apply bind_Some in H as (vol & _ & H).
    apply (inj Some) in H. subst data.
    exists (percent_change (Close latest) (Open latest)).
    split; [cells; reflexivity|].
    rewrite Ho, Hc. auto.
Qed.

(** In a row of [get_enhanced_stock_data] built from a last bar of finite
    prices with low <= high, the rounded prices keep their order
    (day_low <= day_high), ['change_percent'] is a finite number whatever
    the open is, and 0 when the open rounds to 0; ['performance_1d'] holds
    the same value; and ['volatility'] is a finite number, not negative
    when the close is not. *)
Theorem enhanced_row_is_finite_and_ordered
        (symbol : string) (q : ExporterData.quote) (data : row)
        (latest : Bar) (o h l c : Q) :
  ExporterData.get_enhanced_stock_data str_of symbol (Some q) = Some data ->
  last (ExporterData.q_hist q) = Some latest ->
  Open latest = Fin o -> High latest = Fin h ->
  Low latest = Fin l -> Close latest = Fin c ->
  l <= h ->
  exists lo hi cp vol po : Q,
    getitem_row data "day_low" = Some (cnum (Fin lo))
    /\ getitem_row data "day_high" = Some (cnum (Fin hi))
    /\ lo <= hi
    /\ getitem_row data "previous_close" = Some (cnum (Fin po))
    /\ getitem_row data "change_percent" = Some (cnum (Fin cp))
    /\ getitem_row data "performance_1d" = Some (cnum (Fin cp))
    /\ (po == 0 -> cp == 0)
    /\ getitem_row data "volatility" = Some (cnum (Fin vol))
    /\ (0 <= c -> 0 <= vol).
Proof.
  intros H Hlast Ho Hh Hl Hc Hlh.
  unfold ExporterData.get_enhanced_stock_data in H.
  cbn [mbind option_bind] in H. rewrite Hlast in H.
  apply bind_Some in H as (vol & Hvol & H).
  apply bind_Some in H as (volume & _ & H).
  apply bind_Some in H as (ratio & _ & H).
  apply bind_Some in H as (vc & _ & H).
  apply bind_Some in H as (mc & _ & H).
  apply (inj Some) in H. subst data.
  rewrite Ho, Hh, Hl, Hc in *.
  cbn [round2] in *.
  set (lo := inject_Z (round_half_even (l * 100)) / 100) in *.
  set (hi := inject_Z (round_half_even (h * 100)) / 100) in *.
  set (po := inject_Z (round_half_even (o * 100)) / 100) in *.
  set (pc := inject_Z (round_half_even (c * 100)) / 100) in *.
  assert (Hlohi : lo <= hi) by (apply round2_le, Hlh).
  assert (Hcp : exists cp,
             ExporterData.change_percent_of
               (round2 (num_sub (Fin pc) (Fin po))) (Fin po) = Fin cp
             /\ (po == 0 -> cp == 0)).
  { unfold ExporterData.change_percent_of, num_ne. cbn [num_eq].
    destruct (Qeq_bool po 0) eqn:E; cbn [negb].
    - exists 0. split; [reflexivity|]. reflexivity.
    - cbn [num_sub num_neg num_add round2 num_div]. rewrite E.
      cbn [num_mul round2]. eexists. split; [reflexivity|].
      intros E'. apply Qeq_bool_iff in E'. congruence. }
  destruct Hcp as (cp & Ecp & Hcp0).
  assert (Hv : exists v, vol = Fin v /\ (0 <= c -> 0 <= v)).
  { unfold Exporter.volatility, num_ne in Hvol. cbn [num_eq] in Hvol.
    destruct (Qeq_bool pc 0) eqn:E; cbn [negb] in Hvol.
    - injection Hvol as <-. exists 0. split; [reflexivity|]. lra.
    - unfold py_div in Hvol. cbn [num_eq] in Hvol. rewrite E in Hvol.
      cbn [bind raised num_sub num_neg num_add num_div] in Hvol.
      rewrite E in Hvol. cbn [num_mul round2] in Hvol.
      injection Hvol as <-. eexists. split; [reflexivity|].
      intros Hc0. apply round2_nonneg.
      apply Qeq_bool_false_iff in E.
      assert (0 <= pc) by (apply round2_nonneg, Hc0).
      apply Qmult_le_0_compat; [|lra].
      apply Qle_shift_div_l; lra. }
  destruct Hv as (v & -> & Hv).
  exists lo, hi, cp, v, po.
  rewrite <- Ecp.
  repeat split; try (cells; reflexivity); assumption.
Qed.

(** The monitor and the simple dashboard build their row from the last
    bar alone: [get_stock_data] and [get_stock_info] give a row exactly
    when the history is not empty and the volume of its last bar is
    finite, whatever the info holds (a [None] or a text under any key is
    copied into the row as it is). *)
Theorem monitor_row_needs_only_a_bar
        (symbol : string) (info : gmap string pyval) (hist : list Bar)
        (now : string) :
  (is_Some (Monitor.get_stock_data str_of symbol
              (Some (Monitor.MkQuote now info hist)))
   <-> exists latest, last hist = Some latest /\ is_fin (Volume latest) = true)
  /\ (is_Some (Dashboards.get_stock_info symbol (Some (info, hist)))
      <-> exists latest, last hist = Some latest /\ is_fin (Volume latest) = true).
Proof.
  unfold Monitor.get_stock_data, Dashboards.get_stock_info.
  cbn [mbind option_bind Monitor.q_hist Monitor.q_info Monitor.q_now].
  destruct (last hist) as [latest|].
  - split; (split;
      [ intros [data H]; apply bind_Some in H as (vol & Hvol & _);
        exists latest; split; [reflexivity|]; apply py_int_is_Some; eauto
      | intros (l & [= <-] & Hfin); apply py_int_is_Some in Hfin as [vol ->];
        cbn [mbind option_bind]; eauto ]).
  - split; (split; [intros [? H]; discriminate H
                   | intros (? & H & _); discriminate H]).
Qed.

(** A last bar whose close is NaN (a minute without a trade) does not
    stop the exporters; it is reported in the top buckets.  In the row of
    [get_enhanced_stock_data] the price is NaN under the category "Very
    High Price", the volatility is NaN, and when the open does not round
    to 0 the change is NaN under "Large Increase".  In the row of
    [get_optimized_stock_data] the price category is "Over $200" and the
    volatility category "Very High (>5%)", while [is_high_volatility],
    [is_gain] and [is_loss] are all false. *)
Theorem nan_close_is_reported_in_top_buckets
        (symbol : string) (latest : Bar) :
  Close latest = NaN ->
  (forall q data,
      last (ExporterData.q_hist q) = Some latest ->
      ExporterData.get_enhanced_stock_data str_of symbol (Some q) = Some data ->
      getitem_row data "current_price" = Some (cnum NaN)
      /\ getitem_row data "price_category" = Some (cstr "Very High Price")
      /\ getitem_row data "volatility" = Some (cnum NaN)
      /\ (num_ne (round2 (Open latest)) (Fin 0) = true ->
          getitem_row data "change_percent" = Some (cnum NaN)
          /\ getitem_row data "change_category" = Some (cstr "Large Increase")))
  /\ (forall q data,
         last (OptimizedData.q_hist q) = Some latest ->
         OptimizedData.get_optimized_stock_data symbol (Some q) = Some data ->
         getitem_row data "current_price" = Some (cnum NaN)
         /\ getitem_row data "price_category" = Some (cstr "Over $200")
         /\ getitem_row data "volatility_category"
            = Some (cstr "Very High (>5%)")
         /\ getitem_row data "is_high_volatility" = Some (CBool false)
         /\ getitem_row data "is_gain" = Some (CBool false)
         /\ getitem_row data "is_loss" = Some (CBool false)).
Proof.
  intros Hc.
  assert (Hdiv : forall x, num_div x NaN = NaN) by (intros []; reflexivity).
  assert (Hsub : forall x, num_sub x NaN = NaN) by (intros []; reflexivity).
  split.
  - intros q data Hlast H.
    unfold ExporterData.get_enhanced_stock_data in H.
    cbn [mbind option_bind] in H. rewrite Hlast, Hc in H.
    cbn [round2] in H.
    change (num_sub NaN ?x) with NaN in H. cbn [round2] in H.
    apply bind_Some in H as (vol & Hvol & H).
    apply bind_Some in H as (volume & _ & H).
    apply bind_Some in H as (ratio & _ & H).
    apply bind_Some in H as (vc & _ & H).
    apply bind_Some in H as (mc & _ & H).
    apply (inj Some) in H. subst data.
    unfold Exporter.volatility, py_div in Hvol.
    cbn [num_ne num_eq negb bind] in Hvol. rewrite Hdiv in Hvol.
    cbn [num_mul round2 raised] in Hvol. apply (inj Some) in Hvol. subst vol.
    split; [cells; reflexivity|]. split; [cells; reflexivity|].
    split; [cells; reflexivity|].
    intros Hne. unfold ExporterData.change_percent_of. rewrite Hne.
    change (num_div NaN ?x) with NaN. cbn [num_mul round2].
    split; cells; reflexivity.
  - intros q data Hlast H.
    unfold OptimizedData.get_optimized_stock_data in H.
    cbn [mbind option_bind] in H. rewrite Hlast, Hc in H.
    cbn [round2] in H.
    change (num_sub NaN ?x) with NaN in H. cbn [round2] in H.
    apply bind_Some in H as (spread & _ & H).
    apply bind_Some in H as (vol & _ & H).
    apply bind_Some in H as (ratio & _ & H).
    apply bind_Some in H as (mcb & _ & H).
    apply bind_Some in H as (v' & _ & H).
    apply bind_Some in H as (volc & _ & H).
    apply bind_Some in H as (mcc & _ & H).
    apply bind_Some in H as (sc & _ & H).
    apply bind_Some in H as (vc & Hvc & H).
    apply bind_Some in H as (hv & _ & H).
    apply bind_Some in H as (lc & _ & H).
    apply bind_Some in H as (ds & _ & H).
    apply (inj Some) in H. subst data.
    unfold Optimized.volatility_category, Optimized.volatility_percent, py_div
      in Hvc.
    cbn [num_ne num_eq negb bind] in Hvc. rewrite Hdiv in Hvc.
    cbn [num_mul raised] in Hvc. apply (inj Some) in Hvc. subst vc.
    rewrite Hdiv.
    repeat split; cells; reflexivity.
Qed.

End Rows.

Lemma change_percent_unguarded_on_zero_open_witness :
  exists cp, getitem_row Samples.monitor_row "change_percent" = Some (cnum cp)
             /\ cp = PInf.
Proof.
  destruct (change_percent_unguarded_on_zero_open Samples.str_of "ACME"
              Samples.zero_open_bar 0 1 eq_refl eq_refl) as [H _].
  destruct (H Samples.monitor_quote Samples.monitor_row eq_refl
              ltac:(vm_compute; reflexivity))
    as (cp & Hcp & _ & Hinf & _).
  exists cp. split; [exact Hcp|]. apply Hinf; [reflexivity|]. reflexivity.
Defined.

Lemma enhanced_row_is_finite_and_ordered_witness :
  exists lo hi vol : Q,
    getitem_row Samples.exporter_row "day_low" = Some (cnum (Fin lo))
    /\ getitem_row Samples.exporter_row "day_high" = Some (cnum (Fin hi))
    /\ lo <= hi
    /\ getitem_row Samples.exporter_row "volatility" = Some (cnum (Fin vol))
    /\ 0 <= vol.
Proof.
  destruct (enhanced_row_is_finite_and_ordered Samples.str_of "ACME"
              Samples.exporter_quote Samples.exporter_row Samples.volatile_bar
              100 110 99 104
              ltac:(vm_compute; reflexivity) eq_refl eq_refl eq_refl eq_refl eq_refl
              ltac:(discriminate))
    as (lo & hi & cp & vol & po & H1 & H2 & H3 & _ & _ & _ & _ & H4 & H5).
  exists lo, hi, vol. repeat split; try assumption. apply H5. discriminate.
Defined.

Lemma nan_close_is_reported_in_top_buckets_witness :
  getitem_row Samples.nan_close_row "price_category"
  = Some (cstr "Very High Price")
  /\ getitem_row Samples.nan_close_row "change_category"
     = Some (cstr "Large Increase").
Proof.
  destruct (nan_close_is_reported_in_top_buckets Samples.str_of "ACME"
              Samples.nan_close_bar eq_refl) as [H _].
  destruct (H Samples.nan_close_quote Samples.nan_close_row eq_refl
              ltac:(vm_compute; reflexivity))
    as (_ & H1 & _ & H2).
  split; [exact H1|]. apply H2. reflexivity.
Defined.

(** A bar of finite numbers with low <= high always gives a time-series
    row, with the 17 keys of the export in order.  Its ['daily_range'] is
    a finite number and not negative; its two percentages are finite
    numbers, 0 when the divisor (the open, the close) is 0, and
    ['daily_range_percent'] is not negative when the close is positive. *)
Theorem time_series_row_is_finite
        (symbol : string) (date : OptimizedData.stamp) (o h l c v : Q) :
  l <= h ->
  exists (data : row) (range pcp drp : Q),
    OptimizedData.time_series_row symbol
      (date, MkBar (Fin o) (Fin h) (Fin l) (Fin c) (Fin v)) = Some data
    /\ map fst data = OptimizedData.time_series_columns
    /\ getitem_row data "daily_range" = Some (cnum (Fin range))
    /\ 0 <= range
    /\ getitem_row data "price_change_percent" = Some (cnum (Fin pcp))
    /\ (o == 0 -> pcp == 0)
    /\ getitem_row data "daily_range_percent" = Some (cnum (Fin drp))
    /\ (c == 0 -> drp == 0)
    /\ (0 < c -> 0 <= drp).
Proof.
  intros Hlh.
  unfold OptimizedData.time_series_row.
  cbn [Volume Open High Low Close py_int mbind option_bind].
  assert (Hp : exists pcp,
             (if num_ne (Fin o) (Fin 0)
              then percent_change (Fin c) (Fin o) else Fin 0) = Fin pcp
             /\ (o == 0 -> pcp == 0)).
  { unfold num_ne. cbn [num_eq].
    destruct (Qeq_bool o 0) eqn:E; cbn [negb].
    - exists 0. split; reflexivity.
    - apply Qeq_bool_false_iff in E.
      destruct (percent_change_Fin c o) as ([p ->] & _); [exact E|].
      exists p. split; [reflexivity | contradiction]. }
  destruct Hp as (pcp & Ep & Hp0).
  assert (Hd : exists drp,
             (if num_ne (Fin c) (Fin 0)
              then round2 (num_mul (num_div (num_sub (Fin h) (Fin l)) (Fin c))
                                   (Fin 100))
              else Fin 0) = Fin drp
             /\ (c == 0 -> drp == 0) /\ (0 < c -> 0 <= drp)).
  { unfold num_ne. cbn [num_eq].
    destruct (Qeq_bool c 0) eqn:E; cbn [negb].
    - exists 0. repeat split; try reflexivity. lra.
    - cbn [num_sub num_neg num_add num_div]. rewrite E. cbn [num_mul round2].
      eexists. split; [reflexivity|]. apply Qeq_bool_false_iff in E.
      split; [contradiction|]. intros Hc. apply round2_nonneg.
      apply Qmult_le_0_compat; [|lra]. apply Qle_shift_div_l; lra. }
  destruct Hd as (drp & Ed & Hd0 & Hd1).
  rewrite Ep, Ed. cbn [num_sub num_neg num_add round2].
  eexists _, _, pcp, drp.
  split; [reflexivity|]. split; [reflexivity|].
  split; [cells; reflexivity|].
  split; [apply round2_nonneg; lra|].
  split; [cells; reflexivity|]. split; [exact Hp0|].
  split; [cells; reflexivity|]. split; assumption.
Qed.

Lemma time_series_row_is_finite_witness :
  exists (data : row) (range : Q),
    OptimizedData.time_series_row "ACME"
      (Samples.tuesday, MkBar (Fin 100) (Fin 110) (Fin 99) (Fin 104) (Fin 3000000))
    = Some data
    /\ getitem_row data "daily_range" = Some (cnum (Fin range))
    /\ 0 <= range.
Proof.
  destruct (time_series_row_is_finite "ACME" Samples.tuesday 100 110 99 104 3000000
              ltac:(discriminate))
    as (data & range & _ & _ & H1 & _ & H2 & H3 & _).
  exists data, range. repeat split; assumption.
Defined.

(** ** Data frames of dictionaries and the files written from them *)

Lemma columns_step_new (acc ks : list string) :
  NoDup (acc ++ ks) ->
  foldl (fun cols key => if bool_decide (key ∈ cols) then cols
                         else (cols ++ [key])%list) acc ks
  = (acc ++ ks)%list.
Proof.
  revert acc. induction ks as [|k ks IH]; intros acc Hnd; cbn [foldl].
  - rewrite app_nil_r. reflexivity.
  - assert (Hk : k ∉ acc).
    { apply NoDup_app in Hnd as (_ & Hd & _). intros Hin.
      apply (Hd k Hin). left. }
    rewrite bool_decide_eq_false_2 by exact Hk.
    rewrite IH; rewrite <- app_assoc; [reflexivity | exact Hnd].
Qed.

Lemma columns_step_old (acc l : list string) :
  Forall (fun k => k ∈ acc) l ->
  foldl (fun cols key => if bool_decide (key ∈ cols) then cols
                         else (cols ++ [key])%list) acc l
  = acc.
Proof.
  induction 1 as [|k l Hk Hl IH]; cbn [foldl]; [reflexivity|].
  rewrite bool_decide_eq_true_2 by exact Hk. exact IH.
Qed.

Lemma columns_of_uniform (ks : list string) (data : list row) :
  NoDup ks -> data <> [] ->
  Forall (fun r => map fst r = ks) data ->
  columns_of data = ks.
Proof.
  intros Hnd Hne Hall. unfold columns_of.
  destruct data as [|r data]; [contradiction|].
  apply Forall_cons in Hall as [Hr Hall].
  cbn [map concat]. rewrite Hr, foldl_app.
  rewrite (columns_step_new [] ks Hnd). cbn [app].
  apply columns_step_old. clear Hne.
  induction Hall as [|r' data Hr' Hall IH]; cbn [map concat].
  - constructor.
  - apply Forall_app. split; [|exact IH].
    rewrite Hr'. apply Forall_forall. auto.
Qed.

Lemma getitem_row_cons (k : string) (v : cell) (r : row) (key : string) :
  getitem_row ((k, v) :: r) key
  = if String.eqb k key then Some v else getitem_row r key.
Proof.
  unfold getitem_row. cbn [List.find fst]. destruct (String.eqb k key); reflexivity.
Qed.

Lemma line_of_own_keys (r : row) :
  NoDup (map fst r) -> line_of (map fst r) r = map snd r.
Proof.
  unfold line_of. rewrite map_map.
  induction r as [|[k v] r IH]; intros Hnd; [reflexivity|].
  cbn [map fst snd] in *. apply NoDup_cons in Hnd as [Hk Hnd].
  rewrite getitem_row_cons, String.eqb_refl. cbn [default from_option id].
  f_equal. rewrite <- (IH Hnd).
  apply map_ext_in. intros [k' v'] Hin. cbn [fst].
  rewrite getitem_row_cons.
  destruct (String.eqb k k') eqn:E; [|reflexivity].
  apply String.eqb_eq in E as <-. destruct Hk.
  apply list_elem_of_In, in_map_iff. exists (k, v'). split; [reflexivity|exact Hin].
Qed.

Lemma lines_of_uniform (ks : list string) (data : list row) :
  NoDup ks ->
  Forall (fun r => map fst r = ks) data ->
  lines_of data = map (map snd) data.
Proof.
  intros Hnd Hall. unfold lines_of.
  destruct data as [|r0 data0] eqn:Ed; [reflexivity|]. rewrite <- Ed in *.
  rewrite (columns_of_uniform ks data Hnd) by (try exact Hall; subst; discriminate).
  apply map_ext_in. intros r Hin.
  rewrite Forall_forall in Hall.
  assert (Hr : map fst r = ks) by (apply Hall, list_elem_of_In, Hin).
  rewrite <- Hr. apply line_of_own_keys. rewrite Hr. exact Hnd.
Qed.

Lemma NoDup_strings (l : list string) :
  (if decide (NoDup l) then true else false) = true -> NoDup l.
Proof. destruct (decide (NoDup l)); [auto | discriminate]. Qed.

Lemma logged_refl (fs : files) : Monitor.logged fs fs.
Proof. split; [exists []; rewrite app_nil_r; reflexivity | reflexivity]. Qed.

Lemma logged_trans (fs1 fs2 fs3 : files) :
  Monitor.logged fs1 fs2 -> Monitor.logged fs2 fs3 -> Monitor.logged fs1 fs3.
Proof.
  intros [[r1 H1] F1] [[r2 H2] F2]. split.
  - exists (r1 ++ r2)%list. rewrite H2, H1, app_assoc. reflexivity.
  - intros path Hp. rewrite F2, F1 by exact Hp. reflexivity.
Qed.

Lemma logging_logged (levelname message : string) (fs : files) :
  Monitor.logged fs (Monitor.logging levelname message fs).
Proof.
  unfold Monitor.logging. split.
  - eexists. unfold Monitor.log_of at 1. rewrite lookup_insert_eq. reflexivity.
  - intros path Hp. apply lookup_insert_ne. congruence.
Qed.

Section MonitorFile.

Variable str_of : num -> string.

Lemma get_stock_data_keys (symbol : string) (q : option Monitor.quote)
      (data : row) :
  Monitor.get_stock_data str_of symbol q = Some data ->
  map fst data = Monitor.headers.
Proof.
  intros H. unfold Monitor.get_stock_data in H.
  destruct q as [q|]; [|discriminate H]. cbn [mbind option_bind] in H.
  destruct (last (Monitor.q_hist q)); [|discriminate H].
  apply bind_Some in H as (vol & _ & H).
  apply (inj Some) in H. subst data. reflexivity.
Qed.

Lemma headers_NoDup : NoDup Monitor.headers.
Proof. apply NoDup_strings. vm_compute. reflexivity. Qed.

Variable str_e : string -> string.

Lemma get_stock_data_log_logged (symbol : string) (q : option Monitor.quote)
      (fs : files) :
  Monitor.logged fs (Monitor.get_stock_data_log str_e symbol q fs).
Proof.
  unfold Monitor.get_stock_data_log.
  destruct q as [q|]; [|apply logging_logged].
  destruct (last (Monitor.q_hist q)) as [latest|]; [|apply logging_logged].
  destruct (Volume latest); try apply logging_logged. apply logged_refl.
Qed.

Lemma get_all_stock_data_spec (symbols : list string)
      (feed : string -> option Monitor.quote) (fs : files) :
  (Monitor.get_all_stock_data str_of str_e symbols feed fs).1
  = omap (fun symbol => Monitor.get_stock_data str_of symbol (feed symbol)) symbols
  /\ Monitor.logged fs (Monitor.get_all_stock_data str_of str_e symbols feed fs).2.
Proof.
  revert fs. induction symbols as [|symbol rest IH]; intros fs.
  - split; [reflexivity | apply logged_refl].
  - cbn [Monitor.get_all_stock_data omap list_omap].
    set (fs1 := Monitor.get_stock_data_log str_e symbol (feed symbol)
                  (Monitor.logging "INFO" (symbol +:+ "のデータを取得中...") fs)).
    destruct (IH fs1) as [Hrows Hlog].
    destruct (Monitor.get_all_stock_data str_of str_e rest feed fs1)
      as [all_data fs2].
    cbn [fst snd] in *. split.
    + rewrite <- Hrows.
      destruct (Monitor.get_stock_data str_of symbol (feed symbol)); reflexivity.
    + eapply logged_trans; [|exact Hlog].
      eapply logged_trans; [apply logging_logged|].
      apply get_stock_data_log_logged.
Qed.

Lemma save_to_csv_spec (data_file : string) (data : list row) (fs : files)
      (old : list (list cell)) :
  data_file <> Monitor.log_file ->
  fs !! data_file = Some old ->
  Forall (fun r : row => map fst r = Monitor.headers) data ->
  Monitor.save_to_csv data_file data fs !! data_file
  = Some (old ++ map (map snd) data)%list
  /\ (exists records,
        Monitor.log_of (Monitor.save_to_csv data_file data fs)
        = (Monitor.log_of fs ++ records)%list)
  /\ forall path, path <> data_file -> path <> Monitor.log_file ->
       Monitor.save_to_csv data_file data fs !! path = fs !! path.
Proof.
  intros Hne Hold Hkeys. unfold Monitor.save_to_csv.
  destruct data as [|r data'] eqn:E.
  - destruct (logging_logged "WARNING" "保存するデータがありません" fs) as [Hl Hf].
    split; [rewrite Hf by exact Hne; rewrite Hold, app_nil_r; reflexivity|].
    split; [exact Hl|]. intros path _ Hp. apply Hf, Hp.
  - rewrite <- E in *.
    match goal with
    | |- context [Monitor.logging ?l ?m ?f] =>
        destruct (logging_logged l m f) as [[records Hl] Hf]
    end.
    assert (Hlog : Monitor.log_of (to_csv_append data_file data fs) = Monitor.log_of fs).
    { unfold Monitor.log_of, to_csv_append. rewrite lookup_insert_ne by exact Hne.
      reflexivity. }
    split; [|split].
    + rewrite Hf by exact Hne. unfold to_csv_append.
      rewrite lookup_insert_eq, Hold. cbn [default from_option id].
      rewrite (lines_of_uniform Monitor.headers _ headers_NoDup Hkeys).
      reflexivity.
    + exists records. rewrite Hl, Hlog. reflexivity.
    + intros path Hp1 Hp2. rewrite Hf by exact Hp2.
      unfold to_csv_append. apply lookup_insert_ne. congruence.
Qed.

Lemma fetched_keys (symbols : list string) (feed : string -> option Monitor.quote) :
  Forall (fun data : row => map fst data = Monitor.headers)
         (omap (fun symbol => Monitor.get_stock_data str_of symbol (feed symbol))
               symbols).
Proof.
  apply Forall_forall. intros data Hin.
  apply list_elem_of_omap in Hin as (symbol & _ & H).
  eapply get_stock_data_keys, H.
Qed.

Lemma fetch_and_save_spec (symbols : list string) (data_file : string)
      (feed : string -> option Monitor.quote) (fs : files)
      (old : list (list cell)) :
  data_file <> Monitor.log_file ->
  fs !! data_file = Some old ->
  let '(data, fs1) := Monitor.get_all_stock_data str_of str_e symbols feed fs in
  let fs2 := Monitor.save_to_csv data_file data fs1 in
  fs2 !! data_file
  = Some (old ++ map (map snd)
                   (omap (fun symbol =>
                            Monitor.get_stock_data str_of symbol (feed symbol))
                         symbols))%list
  /\ (exists records, Monitor.log_of fs2 = (Monitor.log_of fs ++ records)%list)
  /\ forall path, path <> data_file -> path <> Monitor.log_file ->
                  fs2 !! path = fs !! path.
Proof.
  intros Hne Hold.
  destruct (get_all_stock_data_spec symbols feed fs) as [Hrows [[r1 Hl1] Hf1]].
  destruct (Monitor.get_all_stock_data str_of str_e symbols feed fs)
    as [data fs1].
  cbn [fst snd] in *. subst data.
  destruct (save_to_csv_spec data_file _ fs1 old Hne
              ltac:(rewrite Hf1 by exact Hne; exact Hold)
              (fetched_keys symbols feed)) as (Hd & [r2 Hl2] & Hf2).
  split; [exact Hd|]. split.
  - exists (r1 ++ r2)%list. rewrite Hl2, Hl1, app_assoc. reflexivity.
  - intros path Hp1 Hp2. rewrite Hf2, Hf1 by assumption. reflexivity.
Qed.

Lemma monitoring_loop_spec (symbols : list string) (data_file : string)
      (interval_minutes : Z)
      (rounds : list (string * (string -> option Monitor.quote))) :
  data_file <> Monitor.log_file -> (0 <= interval_minutes)%Z ->
  forall (fs : files) (old : list (list cell)),
    fs !! data_file = Some old ->
    let fs' := Monitor.monitoring_loop str_of str_e symbols data_file
                 interval_minutes rounds fs in
    fs' !! data_file
    = Some (old ++ concat
                     (map (fun round : string * (string -> option Monitor.quote) =>
                             map (map snd)
                               (omap (fun symbol =>
                                        Monitor.get_stock_data str_of symbol
                                          (round.2 symbol)) symbols))
                          rounds))%list
    /\ (exists records, Monitor.log_of fs' = (Monitor.log_of fs ++ records)%list)
    /\ forall path, path <> data_file -> path <> Monitor.log_file ->
                    fs' !! path = fs !! path.
Proof.
  intros Hne Hint.
  induction rounds as [|[now feed] rest IH]; intros fs old Hold fs'.
  - subst fs'. cbn. rewrite app_nil_r.
    split; [exact Hold|]. split; [exists []; rewrite app_nil_r; reflexivity|].
    reflexivity.
  - subst fs'. cbn [Monitor.monitoring_loop map concat snd].
    destruct (Z.ltb_spec interval_minutes 0) as [Hneg|_]; [lia|].
    set (fs0 := Monitor.logging "INFO" ("データ取得開始: " +:+ now)
                  (Monitor.logging "INFO"
                     "==================================================" fs)).
    assert (L0 : Monitor.logged fs fs0).
    { eapply logged_trans; apply logging_logged. }
    destruct L0 as [[r0 Hl0] Hf0].
    pose proof (fetch_and_save_spec symbols data_file feed fs0 old Hne
                  ltac:(rewrite Hf0 by exact Hne; exact Hold)) as Hfs.
    destruct (Monitor.get_all_stock_data str_of str_e symbols feed fs0)
      as [data fs1].
    destruct Hfs as (Hd & [r1 Hl1] & Hf1).
    match goal with
    | |- context [Monitor.monitoring_loop _ _ _ _ _ _ ?f] => set (fs3 := f)
    end.
    assert (L3 : Monitor.logged (Monitor.save_to_csv data_file data fs1) fs3)
      by apply logging_logged.
    destruct L3 as [[r3 Hl3] Hf3].
    destruct (IH fs3 _ ltac:(rewrite Hf3 by exact Hne; exact Hd))
      as (Hd' & [r4 Hl4] & Hf4).
    split; [rewrite Hd', <- app_assoc; reflexivity|]. split.
    + exists (r0 ++ r1 ++ r3 ++ r4)%list.
      rewrite Hl4, Hl3, Hl1, Hl0, <- !app_assoc. reflexivity.
    + intros path Hp1 Hp2.
      rewrite Hf4, Hf3, Hf1, Hf0 by assumption. reflexivity.
Qed.

(** The file of the monitor keeps the shape its header announces.  With a
    data file that is not the log file and an interval that is not
    negative, after [_initialize_csv] and any number of rounds of
    [run_continuous_monitoring] the data file holds what it held before
    (the header line alone, when the file was not there), followed by one
    line per row fetched, round after round and in the order of the
    symbols; each row has exactly the keys of the header, in the header's
    order, so the cells of a line stand under their column names.  The log
    file keeps what it held and gets records appended; no other file is
    touched. *)
Theorem monitor_file_follows_header
        (symbols : list string) (data_file : string) (interval_minutes : Z)
        (rounds : list (string * (string -> option Monitor.quote)))
        (fs : files) :
  data_file <> Monitor.log_file -> (0 <= interval_minutes)%Z ->
  let fs' := Monitor.run_continuous_monitoring str_of str_e symbols data_file
               interval_minutes rounds (Monitor._initialize_csv data_file fs) in
  let fetched :=
    map (fun round : string * (string -> option Monitor.quote) =>
           omap (fun symbol =>
                   Monitor.get_stock_data str_of symbol (round.2 symbol))
                symbols) rounds in
  fs' !! data_file
  = Some (default [header_line Monitor.headers] (fs !! data_file)
          ++ concat (map (map (map snd)) fetched))%list
  /\ Forall (Forall (fun data : row => map fst data = Monitor.headers)) fetched
  /\ (exists records,
        default [] (fs' !! Monitor.log_file)
        = (default [] (fs !! Monitor.log_file) ++ records)%list)
  /\ forall path, path <> data_file -> path <> Monitor.log_file ->
                  fs' !! path = fs !! path.
Proof.
  intros Hne Hint fs' fetched.
  set (fs0 := Monitor._initialize_csv data_file fs).
  assert (Hinit : fs0 !! data_file
                  = Some (default [header_line Monitor.headers] (fs !! data_file))
                  /\ (exists records, Monitor.log_of fs0 = (Monitor.log_of fs ++ records)%list)
                  /\ forall path, path <> data_file -> path <> Monitor.log_file ->
                                  fs0 !! path = fs !! path).
  { subst fs0. unfold Monitor._initialize_csv.
    destruct (fs !! data_file) as [old|] eqn:E.
    - split; [exact E|]. split; [exists []; rewrite app_nil_r; reflexivity|].
      reflexivity.
    - match goal with
      | |- context [Monitor.logging ?l ?m ?f] =>
          destruct (logging_logged l m f) as [[records Hl] Hf]
      end.
      split; [rewrite Hf by exact Hne; apply lookup_insert_eq|]. split.
      + exists records. rewrite Hl. unfold Monitor.log_of.
        rewrite lookup_insert_ne by exact Hne. reflexivity.
      + intros path Hp1 Hp2. rewrite Hf by exact Hp2.
        apply lookup_insert_ne. congruence. }
  destruct Hinit as (Hd0 & [r0 Hl0] & Hf0).
  subst fs'. unfold Monitor.run_continuous_monitoring.
  match goal with
  | |- context [Monitor.monitoring_loop _ _ _ _ _ _ ?f] => set (fs1 := f)
  end.
  assert (L1 : Monitor.logged fs0 fs1).
  { subst fs1. eapply logged_trans; apply logging_logged. }
  destruct L1 as [[r1 Hl1] Hf1].
  destruct (monitoring_loop_spec symbols data_file interval_minutes rounds
              Hne Hint fs1 _ ltac:(rewrite Hf1 by exact Hne; exact Hd0))
    as (Hd & [r2 Hl2] & Hf2).
  split.
  { rewrite Hd. subst fetched. rewrite map_map. reflexivity. }
  split.
  { subst fetched. apply Forall_forall. intros rows Hin.
    apply list_elem_of_fmap in Hin as (round & -> & _). apply fetched_keys. }
  split.
  - exists (r0 ++ r1 ++ r2)%list. fold (Monitor.log_of fs).
    change (default [] (?f !! Monitor.log_file)) with (Monitor.log_of f).
    rewrite Hl2, Hl1, Hl0, <- !app_assoc. reflexivity.
  - intros path Hp1 Hp2. rewrite Hf2, Hf1, Hf0 by assumption. reflexivity.
Qed.

End MonitorFile.

Lemma monitor_file_follows_header_witness :
  Monitor.run_continuous_monitoring Samples.str_of (fun _ => "") ["ACME"]
    "data/stock_prices.csv" 5
    [("2024-01-02 12:00:00", fun _ => Some Samples.monitor_quote)]
    (Monitor._initialize_csv "data/stock_prices.csv" ∅)
  !! "data/stock_prices.csv"
  = Some [header_line Monitor.headers; map snd Samples.monitor_row].
Proof.
  destruct (monitor_file_follows_header Samples.str_of (fun _ => "") ["ACME"]
              "data/stock_prices.csv" 5
              [("2024-01-02 12:00:00", fun _ => Some Samples.monitor_quote)] ∅
              ltac:(intros E; vm_compute in E; discriminate E) ltac:(lia))
    as [H _].
  etransitivity; [exact H|]. vm_compute. reflexivity.
Defined.

(** ** What the exporters write *)



Section ExporterFiles.

Variable str_of : num -> string.














End ExporterFiles.

(** ** Histories with a bar that cannot be converted *)






(** ** Performance figures *)

Lemma iloc_from_end {A : Type} (l : list A) (k : nat) :
  (1 <= k <= length l)%nat ->
  iloc l (- Z.of_nat k) = l !! (length l - k)%nat
  /\ is_Some (iloc l (- Z.of_nat k)).
Proof.
  intros Hk. unfold iloc.
  destruct (0 <=? - Z.of_nat k)%Z eqn:E1; [apply Z.leb_le in E1; lia|].
  destruct (Z.of_nat (length l) + - Z.of_nat k <? 0)%Z eqn:E2;
    [apply Z.ltb_lt in E2; lia|].
  replace (Z.to_nat (Z.of_nat (length l) + - Z.of_nat k))
    with (length l - k)%nat by lia.
  split; [reflexivity|]. apply lookup_lt_is_Some_2. lia.
Qed.

Lemma performance_since_spec (close : list num) (current : num) (bars : nat) :
  (1 <= bars)%nat ->
  ((length close < bars)%nat ->
   OptimizedData.performance_since close current bars = Some (Fin 0))
  /\ ((bars <= length close)%nat ->
      exists base, close !! (length close - bars)%nat = Some base
                   /\ OptimizedData.performance_since close current bars
                      = Some (percent_change current base)).
Proof.
  intros Hb. unfold OptimizedData.performance_since. split; intros H.
  - destruct (bars <=? length close)%nat eqn:E; [apply Nat.leb_le in E; lia|].
    reflexivity.
  - destruct (bars <=? length close)%nat eqn:E; [|apply Nat.leb_gt in E; lia].
    destruct (iloc_from_end close bars ltac:(lia)) as [E1 [base E2]].
    exists base. rewrite <- E1, E2. split; reflexivity.
Qed.

(** On a history that is not empty the performance figures are always
    computed: the tests on the length of the history keep every [iloc]
    within bounds.  The figure of a period the history is too short for
    is exactly 0, and the others compare the last close with the close
    that many bars before the end (the first close, for the year). *)
Theorem performances_of_short_history (x : num) (rest : list num) :
  let close := x :: rest in
  exists p current,
    OptimizedData.performances close = Some p
    /\ last close = Some current
    /\ OptimizedData.performance_1y p = percent_change current x
    /\ Forall (fun period : nat * num =>
                 ((length close < period.1)%nat -> period.2 = Fin 0)
                 /\ ((period.1 <= length close)%nat ->
                     exists base,
                       close !! (length close - period.1)%nat = Some base
                       /\ period.2 = percent_change current base))
              [ (2%nat, OptimizedData.performance_1d p);
                (7%nat, OptimizedData.performance_1w p);
                (30%nat, OptimizedData.performance_1m p);
                (90%nat, OptimizedData.performance_3m p);
                (180%nat, OptimizedData.performance_6m p) ].
Proof.
  intros close.
  destruct (iloc_from_end close 1 ltac:(cbn; lia)) as [E1 [current E2]].
  assert (Hlast : last close = Some current).
  { rewrite last_lookup. rewrite <- E2, E1. f_equal. cbn. lia. }
  unfold OptimizedData.performances.
  change (-1)%Z with (- Z.of_nat 1)%Z. rewrite E2.
  cbn [mbind option_bind].
  change (iloc close 0) with (Some x). cbn [mbind option_bind].
  destruct (performance_since_spec close current 2 ltac:(lia)) as [A1 B1].
  destruct (performance_since_spec close current 7 ltac:(lia)) as [A2 B2].
  destruct (performance_since_spec close current 30 ltac:(lia)) as [A3 B3].
  destruct (performance_since_spec close current 90 ltac:(lia)) as [A4 B4].
  destruct (performance_since_spec close current 180 ltac:(lia)) as [A5 B5].
  assert (S : forall bars, (1 <= bars)%nat ->
                is_Some (OptimizedData.performance_since close current bars)).
  { intros bars Hb.
    destruct (performance_since_spec close current bars Hb) as [A B].
    destruct (Nat.lt_ge_cases (length close) bars) as [H|H].
    - rewrite (A H). eauto.
    - destruct (B H) as (base & _ & ->). eauto. }
  destruct (S 2%nat ltac:(lia)) as [p1d H1].
  destruct (S 7%nat ltac:(lia)) as [p1w H2].
  destruct (S 30%nat ltac:(lia)) as [p1m H3].
  destruct (S 90%nat ltac:(lia)) as [p3m H4].
  destruct (S 180%nat ltac:(lia)) as [p6m H5].
  rewrite H1, H2, H3, H4, H5. cbn [mbind option_bind].
  eexists _, current. split; [reflexivity|]. split; [exact Hlast|].
  split; [reflexivity|].
  cbn [OptimizedData.performance_1d OptimizedData.performance_1w
       OptimizedData.performance_1m OptimizedData.performance_3m
       OptimizedData.performance_6m fst snd].
  repeat apply Forall_cons_2; try apply Forall_nil_2; cbn [fst snd]; split.
  - intros H. rewrite (A1 H) in H1. congruence.
  - intros H. destruct (B1 H) as (base & Hb & E). exists base.
    split; [exact Hb | congruence].
  - intros H. rewrite (A2 H) in H2. congruence.
  - intros H. destruct (B2 H) as (base & Hb & E). exists base.
    split; [exact Hb | congruence].
  - intros H. rewrite (A3 H) in H3. congruence.
  - intros H. destruct (B3 H) as (base & Hb & E). exists base.
    split; [exact Hb | congruence].
  - intros H. rewrite (A4 H) in H4. congruence.
  - intros H. destruct (B4 H) as (base & Hb & E). exists base.
    split; [exact Hb | congruence].
  - intros H. rewrite (A5 H) in H5. congruence.
  - intros H. destruct (B5 H) as (base & Hb & E). exists base.
    split; [exact Hb | congruence].
Qed.

(** *** [max] and [min] of numbers *)

Lemma num_le_refl (a : num) : is_nan a = false -> num_le a a = true.
Proof.
  unfold num_le. destruct a; cbn; try discriminate; intros _;
    try reflexivity.
  rewrite (proj2 (Qeq_bool_iff q q)) by reflexivity. apply orb_true_r.
Qed.

Lemma num_le_Fin (x y : Q) : num_le (Fin x) (Fin y) = true <-> x <= y.
Proof.
  unfold num_le. cbn. rewrite orb_true_iff, Qlt_bool_iff, Qeq_bool_iff.
  split; [intros [H|H]; lra | intros H].
  destruct (Qlt_le_dec x y); [auto|]. right. lra.
Qed.

Lemma num_le_trans (a b c : num) :
  num_le a b = true -> num_le b c = true -> num_le a c = true.
Proof.
  destruct a as [x| | |], b as [y| | |], c as [z| | |];
    try discriminate; try reflexivity.
  rewrite !num_le_Fin. intros; lra.
Qed.

Lemma num_not_gt_le (a b : num) :
  is_nan a = false -> is_nan b = false ->
  num_gt a b = false -> num_le a b = true.
Proof.
  unfold num_gt.
  destruct a as [x| | |], b as [y| | |]; cbn; try discriminate;
    try reflexivity; intros _ _ H.
  apply Qlt_bool_false_iff in H. apply num_le_Fin, H.
Qed.

Lemma num_gt_le (a b : num) : num_gt a b = true -> num_le b a = true.
Proof.
  unfold num_gt, num_le. intros ->. reflexivity.
Qed.

Lemma num_lt_le (a b : num) : num_lt a b = true -> num_le a b = true.
Proof.
  unfold num_le. intros ->. reflexivity.
Qed.

Lemma num_not_lt_le (a b : num) :
  is_nan a = false -> is_nan b = false ->
  num_lt a b = false -> num_le b a = true.
Proof.
  intros Ha Hb H. apply num_not_gt_le; assumption.
Qed.

Lemma py_max_in (x : num) (rest : list num) : py_max x rest ∈ x :: rest.
Proof.
  unfold py_max. revert x. induction rest as [|y rest IH]; intros x; cbn [foldl].
  - left.
  - destruct (num_gt y x).
    + right. apply IH.
    + specialize (IH x). apply elem_of_cons in IH as [->|IH]; [left|].
      right. right. exact IH.
Qed.

Lemma py_min_in (x : num) (rest : list num) : py_min x rest ∈ x :: rest.
Proof.
  unfold py_min. revert x. induction rest as [|y rest IH]; intros x; cbn [foldl].
  - left.
  - destruct (num_lt y x).
    + right. apply IH.
    + specialize (IH x). apply elem_of_cons in IH as [->|IH]; [left|].
      right. right. exact IH.
Qed.

Lemma py_max_upper (x : num) (rest : list num) :
  Forall (fun v => is_nan v = false) (x :: rest) ->
  Forall (fun v => num_le v (py_max x rest) = true) (x :: rest).
Proof.
  unfold py_max. intros Hall.
  assert (G : forall m, is_nan m = false ->
                Forall (fun v => is_nan v = false) rest ->
                num_le m (foldl (fun m item => if num_gt item m then item else m)
                                m rest) = true
                /\ Forall (fun v => num_le v
                             (foldl (fun m item => if num_gt item m then item else m)
                                    m rest) = true) rest).
  { clear. intros m Hm Hrest. revert m Hm.
    induction Hrest as [|y rest Hy Hrest IH]; intros m Hm; cbn [foldl].
    - split; [apply num_le_refl, Hm | constructor].
    - destruct (num_gt y m) eqn:E.
      + destruct (IH y Hy) as [H1 H2]. split.
        * eapply num_le_trans; [apply num_gt_le, E | exact H1].
        * constructor; assumption.
      + destruct (IH m Hm) as [H1 H2]. split; [exact H1|].
        constructor; [|exact H2].
        eapply num_le_trans; [apply num_not_gt_le; eassumption | exact H1]. }
  apply Forall_cons in Hall as [Hx Hrest].
  destruct (G x Hx Hrest) as [H1 H2]. constructor; assumption.
Qed.

Lemma py_min_lower (x : num) (rest : list num) :
  Forall (fun v => is_nan v = false) (x :: rest) ->
  Forall (fun v => num_le (py_min x rest) v = true) (x :: rest).
Proof.
  unfold py_min. intros Hall.
  assert (G : forall m, is_nan m = false ->
                Forall (fun v => is_nan v = false) rest ->
                num_le (foldl (fun m item => if num_lt item m then item else m)
                              m rest) m = true
                /\ Forall (fun v => num_le
                             (foldl (fun m item => if num_lt item m then item else m)
                                    m rest) v = true) rest).
  { clear. intros m Hm Hrest. revert m Hm.
    induction Hrest as [|y rest Hy Hrest IH]; intros m Hm; cbn [foldl].
    - split; [apply num_le_refl, Hm | constructor].
    - destruct (num_lt y m) eqn:E.
      + destruct (IH y Hy) as [H1 H2]. split.
        * eapply num_le_trans; [exact H1 | apply num_lt_le, E].
        * constructor; assumption.
      + destruct (IH m Hm) as [H1 H2]. split; [exact H1|].
        constructor; [|exact H2].
        eapply num_le_trans; [exact H1 | apply num_not_lt_le; eassumption]. }
  apply Forall_cons in Hall as [Hx Hrest].
  destruct (G x Hx Hrest) as [H1 H2]. constructor; assumption.
Qed.

Lemma py_max_nan (rest : list num) : py_max NaN rest = NaN.
Proof.
  unfold py_max. induction rest as [|y rest IH]; cbn [foldl]; [reflexivity|].
  replace (num_gt y NaN) with false by (destruct y; reflexivity). exact IH.
Qed.

Lemma py_min_nan (rest : list num) : py_min NaN rest = NaN.
Proof.
  unfold py_min. induction rest as [|y rest IH]; cbn [foldl]; [reflexivity|].
  replace (num_lt y NaN) with false by (destruct y; reflexivity). exact IH.
Qed.

(** [best_performance] and [worst_performance] are always two of the six
    period figures.  When none of the six is NaN they are the largest and
    the smallest of them.  A NaN in the one-day figure wins both: [max]
    and [min] keep their first argument when every comparison with it is
    false, so best and worst are then NaN whatever the other five are. *)
Theorem best_and_worst_performance (close : list num) (p : OptimizedData.performance) :
  OptimizedData.performances close = Some p ->
  let six := [ OptimizedData.performance_1d p; OptimizedData.performance_1w p;
               OptimizedData.performance_1m p; OptimizedData.performance_3m p;
               OptimizedData.performance_6m p; OptimizedData.performance_1y p ] in
  OptimizedData.best_performance p ∈ six
  /\ OptimizedData.worst_performance p ∈ six
  /\ (Forall (fun v => is_nan v = false) six ->
      Forall (fun v => num_le (OptimizedData.worst_performance p) v = true
                       /\ num_le v (OptimizedData.best_performance p) = true) six)
  /\ (is_nan (OptimizedData.performance_1d p) = true ->
      OptimizedData.best_performance p = NaN
      /\ OptimizedData.worst_performance p = NaN).
Proof.
  intros H six. unfold OptimizedData.performances in H.
  apply bind_Some in H as (current & _ & H).
  apply bind_Some in H as (start & _ & H).
  apply bind_Some in H as (p1d & _ & H).
  apply bind_Some in H as (p1w & _ & H).
  apply bind_Some in H as (p1m & _ & H).
  apply bind_Some in H as (p3m & _ & H).
  apply bind_Some in H as (p6m & _ & H).
  apply (inj Some) in H. subst p six.
  cbn [OptimizedData.performance_1d OptimizedData.performance_1w
       OptimizedData.performance_1m OptimizedData.performance_3m
       OptimizedData.performance_6m OptimizedData.performance_1y
       OptimizedData.best_performance OptimizedData.worst_performance].
  split; [apply py_max_in|]. split; [apply py_min_in|]. split.
  - intros Hall.
    pose proof (py_max_upper _ _ Hall) as Hmax.
    pose proof (py_min_lower _ _ Hall) as Hmin.
    apply Forall_lookup_2. intros i v Hv. split.
    + exact (Forall_lookup_1 _ _ _ _ Hmin Hv).
    + exact (Forall_lookup_1 _ _ _ _ Hmax Hv).
  - intros Hnan. destruct p1d; try discriminate Hnan.
    split; [apply py_max_nan | apply py_min_nan].
Qed.

Lemma best_and_worst_performance_witness :
  OptimizedData.best_performance Samples.two_closes_figures
  ∈ [ OptimizedData.performance_1d Samples.two_closes_figures;
      OptimizedData.performance_1w Samples.two_closes_figures;
      OptimizedData.performance_1m Samples.two_closes_figures;
      OptimizedData.performance_3m Samples.two_closes_figures;
      OptimizedData.performance_6m Samples.two_closes_figures;
      OptimizedData.performance_1y Samples.two_closes_figures ]
  /\ num_le (OptimizedData.worst_performance Samples.two_closes_figures)
            (OptimizedData.best_performance Samples.two_closes_figures) = true.
Proof.
  destruct (best_and_worst_performance Samples.two_closes
              Samples.two_closes_figures ltac:(vm_compute; reflexivity))
    as (H1 & H2 & H3 & _).
  split; [exact H1|].
  assert (Hall : Forall (fun v => is_nan v = false)
                   [ OptimizedData.performance_1d Samples.two_closes_figures;
                     OptimizedData.performance_1w Samples.two_closes_figures;
                     OptimizedData.performance_1m Samples.two_closes_figures;
                     OptimizedData.performance_3m Samples.two_closes_figures;
                     OptimizedData.performance_6m Samples.two_closes_figures;
                     OptimizedData.performance_1y Samples.two_closes_figures ])
    by (repeat constructor).
  specialize (H3 Hall).
  apply Forall_cons in H3 as [[Hw Hb] _].
  eapply num_le_trans; [exact Hw | exact Hb].
Defined.

(** ** The normalized performance chart *)




(** [create_performance_chart] never fails and draws one trace for each
    symbol whose history is there and not empty, in the order of the
    symbols and under the symbol's name; a symbol without data is skipped
    and does not stop the chart.  Each trace has one point per close. *)
Theorem performance_chart_skips_symbols_without_data
        (get_historical_data : string -> option (list num))
        (symbols : list string) :
  exists traces,
    Dashboards.create_performance_chart get_historical_data symbols = Some traces
    /\ map fst traces
       = List.filter (fun symbol =>
                        match get_historical_data symbol with
                        | Some (_ :: _) => true
                        | _ => false
                        end) symbols
    /\ Forall (fun trace : string * list num =>
                 exists close,
                   get_historical_data trace.1 = Some close
                   /\ Dashboards.normalized_data close = Some trace.2
                   /\ length trace.2 = length close) traces.
Proof.
  induction symbols as [|symbol rest (traces & IH1 & IH2 & IH3)].
  - exists []. repeat split. constructor.
  - cbn [Dashboards.create_performance_chart List.filter].
    destruct (get_historical_data symbol) as [[|x close]|] eqn:E;
      try (exists traces; repeat split; assumption).
    rewrite IH1.
    unfold Dashboards.normalized_data at 1.
    change (iloc (x :: close) 0) with (Some x). cbn [mbind option_bind].
    eexists. split; [reflexivity|].
    split; [cbn [map fst]; f_equal; exact IH2|].
    constructor; [|exact IH3].
    exists (x :: close). cbn [fst snd]. split; [exact E|].
    split; [reflexivity|].
    unfold series_mul_scalar. rewrite !length_map. reflexivity.
Qed.
